(** * SmartCart-AI: the agent control loop, the target resolver and the
      safety guard, embedded from [src/backend/*.py].

    Conventions of the embedding.
    - Python [str] is [string]; [str.lower()] and the substring test [in] are
      written out for ASCII text.
    - Python dictionaries with a fixed set of keys are records.  What the
      decision model answers is untyped JSON ([Json]): the code reads it with
      [.get], tests it for truth and slices it, and each of these is written
      out for every kind of value.
    - The label map is a dictionary whose keys are all integers or all strings
      ([MarkersMap]): [page.evaluate] returns the keys of a JavaScript object
      as strings, and only the Amazon branch of [inject_markers] converts them
      with [int].
    - [float] is IEEE binary64 ([PrimFloat.float]), as in CPython.
    - Every call into a collaborator (Playwright page, Gemini model, clock) is
      an operation of an abstract [Env W] over a world state [W]; a call
      either returns a value or raises ([Res]).
    - The mutable [state] dictionary, the module globals and the world are the
      state of a small state-and-exception monad [M]; what was mutated before an
      exception stays mutated, as in Python. *)

From Stdlib Require Import Floats Ascii.
From stdpp Require Import gmap strings list pretty.

#[global] Set Warnings "-inexact-float,-register-all".

Open Scope string_scope.
Open Scope list_scope.
Open Scope Z_scope.

(* ===================================================================== *)
(** ** JSON values *)
(* ===================================================================== *)

(** A value built by [json.loads]. *)
Inductive Json : Type :=
| JNull
| JBool (b : bool)
| JInt (n : Z)
| JFloat (f : float)
| JStr (s : string)
| JList (items : list Json)
| JDict (fields : list (string * Json)).

(* ===================================================================== *)
(** ** Python strings and values *)
(* ===================================================================== *)

Module Py.

(** [c.lower()] on one ASCII character. *)
Definition lower_ascii (c : ascii) : ascii :=
  let n := nat_of_ascii c in
  if (Nat.leb 65 n && Nat.leb n 90)%bool then ascii_of_nat (n + 32)%nat else c.

(** [s.lower()] *)
Fixpoint lower (s : string) : string :=
  match s with
  | EmptyString => EmptyString
  | String c r => String (lower_ascii c) (lower r)
  end.

(** [s.startswith(p)] *)
Fixpoint startswith (p s : string) : bool :=
  match p, s with
  | EmptyString, _ => true
  | String a p', String b s' => if Ascii.eqb a b then startswith p' s' else false
  | String _ _, EmptyString => false
  end.

(** [needle in hay] on strings. *)
Fixpoint contains (needle hay : string) : bool :=
  if startswith needle hay then true
  else match hay with
       | EmptyString => false
       | String _ r => contains needle r
       end.

(** [any(p(x) for x in l)] *)
Definition any {A} (p : A → bool) (l : list A) : bool := existsb p l.

(** Truthiness of a string: [bool(s)]. *)
Definition truthy (s : string) : bool :=
  match s with EmptyString => false | _ => true end.

(** [s[:n]] *)
Definition take (n : nat) (s : string) : string := String.substring 0 n s.

Definition is_space (c : ascii) : bool :=
  let n := nat_of_ascii c in
  ((Nat.leb 9 n && Nat.leb n 13) || Nat.eqb n 32)%bool.

Fixpoint lstrip (s : string) : string :=
  match s with
  | String c r => if is_space c then lstrip r else s
  | EmptyString => EmptyString
  end.

(** [s.strip()] / JavaScript [s.trim()] *)
Definition strip (s : string) : string :=
  String.rev (lstrip (String.rev (lstrip s))).

(** [sep.join(l)] *)
Fixpoint join (sep : string) (l : list string) : string :=
  match l with
  | [] => ""
  | [x] => x
  | x :: r => x +:+ sep +:+ join sep r
  end.

(** [bool(x)] *)
Definition truthy_value (x : Json) : bool :=
  match x with
  | JNull => false
  | JBool b => b
  | JInt n => negb (bool_decide (n = 0))
  | JFloat f => negb (PrimFloat.eqb f 0%float)
  | JStr s => truthy s
  | JList items => match items with [] => false | _ :: _ => true end
  | JDict fields => match fields with [] => false | _ :: _ => true end
  end.

(** [x == s] for a string [s]: only a string is equal to a string. *)
Definition is_str (s : string) (x : Json) : bool :=
  match x with
  | JStr t => bool_decide (t = s)
  | _ => false
  end.

(** [x[:n]] is defined for strings and lists and raises for anything else. *)
Definition sliceable (x : Json) : bool :=
  match x with
  | JStr _ | JList _ => true
  | _ => false
  end.

(** [hash(x)] is defined for everything but lists and dictionaries. *)
Definition hashable (x : Json) : bool :=
  match x with
  | JList _ | JDict _ => false
  | _ => true
  end.

(** The integer a float is equal to, if there is one ([3.0 == 3]). *)
Definition float_as_int (f : float) : option Z :=
  match Prim2SF f with
  | S754_zero _ => Some 0
  | S754_finite negative m e =>
      let magnitude :=
        if bool_decide (0 ≤ e) then Some (Z.pos m * 2 ^ e)
        else if bool_decide (Z.pos m mod 2 ^ (- e) = 0)
             then Some (Z.pos m / 2 ^ (- e))
             else None in
      (fun v => if negative then - v else v) <$> magnitude
  | _ => None
  end.

(** The integer that [x] is equal to and hashes like, if there is one:
    [True == 1] and [3.0 == 3]. *)
Definition as_int_key (x : Json) : option Z :=
  match x with
  | JInt n => Some n
  | JBool b => Some (if b then 1 else 0)
  | JFloat f => float_as_int f
  | _ => None
  end.

(** [str(x)], as the f-strings of the messages print it; [other] prints the
    floats, lists and dictionaries. *)
Definition str (other : Json → string) (x : Json) : string :=
  match x with
  | JNull => "None"
  | JBool true => "True"
  | JBool false => "False"
  | JInt n => pretty n
  | JStr s => s
  | _ => other x
  end.

End Py.

(* ===================================================================== *)
(** ** Results, events and the monad *)
(* ===================================================================== *)

(** Outcome of a Python call: a value, or an exception carrying [str(e)]. *)
Inductive Res (A : Type) : Type :=
| Val (a : A)
| Exn (msg : string).
Arguments Val {A} a.
Arguments Exn {A} msg.

(** Calls that leave the process, recorded in the order they are made. *)
Inductive Event : Type :=
| EvWaitForSelector (selector : string) (timeout : Z)
| EvQuerySelector (selector : string)
| EvIsVisible (selector : string)      (* element.is_visible() on the match *)
| EvIsEnabled (selector : string)      (* element.is_enabled() on the match *)
| EvClick (selector : string)          (* page.click(selector) *)
| EvJsClick (selector : string)        (* page.evaluate(... element.click() ...) *)
| EvForceClick (selector : string)     (* page.click(selector, force=True) *)
| EvFocus (selector : string)
| EvFill (selector : string) (value : string)
| EvType (selector : string) (value : Json)
| EvPress (selector : string) (key : string)
| EvScroll (amount : Z)
| EvInjectMarkers
| EvRemoveMarkers
| EvScreenshot
| EvGenerate                           (* one generate_content request *)
| EvDetectCheckout                     (* one request to the checkout classifier *)
| EvSleep (seconds : Z).

Definition is_click_event (e : Event) : bool :=
  match e with
  | EvClick _ | EvJsClick _ | EvForceClick _ => true
  | _ => false
  end.

Definition is_generate_event (e : Event) : bool :=
  match e with EvGenerate => true | _ => false end.

(* ===================================================================== *)
(** ** Data model *)
(* ===================================================================== *)

(** Result of the checkout classifier ([is_checkout_page]). *)
Record Detection : Type := mkDetection {
  is_checkout : bool;
  confidence : float;
  detected_keywords : list string;
  total_price : option string;
  det_reasoning : string
}.

(** Result of [check_before_click]. *)
Record SafetyVerdict : Type := mkVerdict {
  safe : bool;
  requires_approval : bool;
  reason : string;
  checkout_info : option Detection
}.

(** One decision of the model: the JSON object parsed from its answer.  The
    four keys the code reads are fields, [None] when the key is absent (a key
    that is present with [null] is [Some JNull]); [act_extra] holds any other
    keys. *)
Record Action : Type := mkAction {
  act_action : option Json;
  act_target : option Json;
  act_value : option Json;
  act_reasoning : option Json;
  act_extra : list (string * Json)
}.

(** [action.get(key)]: [None] for an absent key. *)
Definition action_get (field : option Json) : Json := default JNull field.

(** Entry of the label map built by [inject_markers]. *)
Record ElementInfo : Type := mkElementInfo {
  ei_type : string;
  ei_text : string;
  ei_selector : string;
  ei_selectors : list string;
  ei_aria_label : string;
  ei_placeholder : string;
  ei_href : string;
  ei_name : string;
  ei_input_type : string;
  ei_position : Z * Z
}.

(** The label map.  Its keys are the labels as integers, or their decimal
    numerals as strings; the empty dictionary can be written either way. *)
Inductive MarkersMap : Type :=
| IntKeys (entries : gmap Z ElementInfo)
| StrKeys (entries : gmap string ElementInfo).

(** [len(markers_map)] *)
Definition markers_len (markers_map : MarkersMap) : nat :=
  match markers_map with
  | IntKeys entries => size entries
  | StrKeys entries => size entries
  end.

(** Faults of the interpreter whose text the code passes on with [str(e)]. *)
Inductive PyFault : Type :=
| NotSubscriptable (x : Json)     (* [x[:n]] on a value that cannot be sliced *)
| Unhashable (x : Json).          (* a list or a dictionary used as a key *)

Inductive Message : Type :=
| HumanMessage (content : string)
| AIMessage (content : string).

Inductive Status : Type :=
| planning | observing | reasoning | executing | waiting | complete | error.

#[global] Instance Status_eq_dec : EqDecision Status.
Proof. solve_decision. Defined.

(** [AgentState] of [agent_state.py]. *)
Record AgentState : Type := mkAgentState {
  messages : list Message;
  current_url : string;
  screenshot_base64 : string;
  markers_map : MarkersMap;
  last_action : option Action;
  action_history : list Action;
  user_goal : string;
  session_id : string;
  status : Status;
  iterations : Z;
  max_iterations : Z;
  error_msg : option string;
  approval_required : bool;
  approval_granted : bool
}.

(** Element of the live page, as the marker script sees it. *)
Record DomElement : Type := mkDomElement {
  el_node : nat;                          (* identity of the DOM node *)
  el_tag_name : string;                   (* element.tagName *)
  el_id : string;
  el_name_prop : string;                  (* element.name *)
  el_attributes : list (string * string); (* element.attributes, in order *)
  el_class_name : string;                 (* element.className *)
  el_class_list : list string;            (* element.classList *)
  el_type_prop : string;                  (* element.type *)
  el_child_index : option nat;            (* index among parentElement.children *)
  el_inner_text : option string;
  el_value : string;
  el_rect : Z * Z * Z * Z;                (* left, top, width, height *)
  el_visibility_hidden : bool;            (* computed visibility is hidden *)
  el_display_none : bool                  (* computed display is none *)
}.

(** What one run of the marker script reads from the page. *)
Record DomSnapshot : Type := mkDomSnapshot {
  dom_elements : list DomElement;   (* querySelectorAll(...), document order *)
  inner_width : Z;
  inner_height : Z;
  scroll_left : Z;
  scroll_top : Z
}.

(** Inputs handed to the decision model by [analyze_page]. *)
Record OracleInput : Type := mkOracleInput {
  oi_screenshot : string;
  oi_markers_map : MarkersMap;
  oi_user_goal : string;
  oi_action_history : list Action;
  oi_page_context : string
}.

(** The collaborators: the Playwright page behind [BrowserController], the
    Gemini model, the clock, and the library and interpreter functions the
    code calls.  [W] is the state of everything outside the process. *)
Record Env (W : Type) : Type := mkEnv {
  browser_initialized : W → bool;      (* self._initialized and self.page *)
  page_url : W → Res string;           (* page.url; raises when page is None *)
  page_screenshot : W → Res string * W;
  page_markers_script : W → Res DomSnapshot * W;
  page_remove_labels : W → Res unit * W;
  page_wait_for_selector : string → Z → W → Res unit * W;
  page_query_selector : string → W → Res (option nat) * W;
  element_is_visible : nat → W → Res bool * W;
  element_is_enabled : nat → W → Res bool * W;
  page_click : string → bool → W → Res unit * W;   (* selector, force *)
  page_evaluate_click : string → W → Res unit * W;
  page_focus : string → W → Res unit * W;
  page_fill : string → string → W → Res unit * W;
  page_type : string → Json → W → Res unit * W;   (* page.type(selector, value) *)
  page_press : string → string → W → Res unit * W;
  page_scroll_by : Z → W → Res unit * W;
  vision_analyzer : W → Res unit * W;  (* get_vision_analyzer() *)
  base64_to_image : string → W → Res unit * W;
  (* image.resize((width // 2, height // 2)) *)
  resize_image : string → W → Res unit * W;
  (* model.generate_content([prompt, image]); the flag tells that the image
     is the resized one; the result stands for the response object *)
  generate_content : OracleInput → bool → W → Res string * W;
  (* parse_gemini_json(response.text): raises when [.text] raises or the text
     holds no JSON; a JSON value that is not an object, which
     validate_action rejects or fails on, counts as a failure here *)
  parse_gemini_json : string → Res Action;
  (* generate_content followed by parse_gemini_json, for the classifier *)
  generate_detection : string → W → Res Detection * W;
  time_time : W → float * W;
  format_percent : float → string;     (* f"{x:.0%}" *)
  urlparse_netloc : string → Res string;   (* urlparse(url).netloc *)
  format_value : Json → string;        (* str(x) of a float, list or dictionary *)
  exception_text : PyFault → string    (* str(e) of the interpreter's faults *)
}.
Arguments browser_initialized {W}.
Arguments page_url {W}.
Arguments page_screenshot {W}.
Arguments page_markers_script {W}.
Arguments page_remove_labels {W}.
Arguments page_wait_for_selector {W}.
Arguments page_query_selector {W}.
Arguments element_is_visible {W}.
Arguments element_is_enabled {W}.
Arguments page_click {W}.
Arguments page_evaluate_click {W}.
Arguments page_focus {W}.
Arguments page_fill {W}.
Arguments page_type {W}.
Arguments page_press {W}.
Arguments page_scroll_by {W}.
Arguments vision_analyzer {W}.
Arguments base64_to_image {W}.
Arguments resize_image {W}.
Arguments generate_content {W}.
Arguments parse_gemini_json {W}.
Arguments generate_detection {W}.
Arguments time_time {W}.
Arguments format_percent {W}.
Arguments urlparse_netloc {W}.
Arguments format_value {W}.
Arguments exception_text {W}.

(** Everything a node can read or change: the [state] dictionary, the module
    globals [_browser] and [_detection_cache], the world, and the record of the
    calls made so far. *)
Record Sys (W : Type) : Type := mkSys {
  agent : AgentState;
  browser_set : bool;                               (* _browser is not None *)
  detection_cache : gmap string (Detection * float);
  world : W;
  trace : list Event
}.
Arguments mkSys {W}.
Arguments agent {W}.
Arguments browser_set {W}.
Arguments detection_cache {W}.
Arguments world {W}.
Arguments trace {W}.

(* ===================================================================== *)
(** ** agent_state.py *)
(* ===================================================================== *)

Definition with_messages (v : list Message) (s : AgentState) : AgentState :=
  mkAgentState v (current_url s) (screenshot_base64 s) (markers_map s)
    (last_action s) (action_history s) (user_goal s) (session_id s) (status s)
    (iterations s) (max_iterations s) (error_msg s) (approval_required s)
    (approval_granted s).

Definition with_current_url (v : string) (s : AgentState) : AgentState :=
  mkAgentState (messages s) v (screenshot_base64 s) (markers_map s)
    (last_action s) (action_history s) (user_goal s) (session_id s) (status s)
    (iterations s) (max_iterations s) (error_msg s) (approval_required s)
    (approval_granted s).

Definition with_screenshot_base64 (v : string) (s : AgentState) : AgentState :=
  mkAgentState (messages s) (current_url s) v (markers_map s)
    (last_action s) (action_history s) (user_goal s) (session_id s) (status s)
    (iterations s) (max_iterations s) (error_msg s) (approval_required s)
    (approval_granted s).

Definition with_markers_map (v : MarkersMap) (s : AgentState) : AgentState :=
  mkAgentState (messages s) (current_url s) (screenshot_base64 s) v
    (last_action s) (action_history s) (user_goal s) (session_id s) (status s)
    (iterations s) (max_iterations s) (error_msg s) (approval_required s)
    (approval_granted s).

Definition with_last_action (v : option Action) (s : AgentState) : AgentState :=
  mkAgentState (messages s) (current_url s) (screenshot_base64 s) (markers_map s)
    v (action_history s) (user_goal s) (session_id s) (status s)
    (iterations s) (max_iterations s) (error_msg s) (approval_required s)
    (approval_granted s).

Definition with_action_history (v : list Action) (s : AgentState) : AgentState :=
  mkAgentState (messages s) (current_url s) (screenshot_base64 s) (markers_map s)
    (last_action s) v (user_goal s) (session_id s) (status s)
    (iterations s) (max_iterations s) (error_msg s) (approval_required s)
    (approval_granted s).

Definition with_status (v : Status) (s : AgentState) : AgentState :=
  mkAgentState (messages s) (current_url s) (screenshot_base64 s) (markers_map s)
    (last_action s) (action_history s) (user_goal s) (session_id s) v
    (iterations s) (max_iterations s) (error_msg s) (approval_required s)
    (approval_granted s).

Definition with_iterations (v : Z) (s : AgentState) : AgentState :=
  mkAgentState (messages s) (current_url s) (screenshot_base64 s) (markers_map s)
    (last_action s) (action_history s) (user_goal s) (session_id s) (status s)
    v (max_iterations s) (error_msg s) (approval_required s)
    (approval_granted s).

Definition with_error (v : option string) (s : AgentState) : AgentState :=
  mkAgentState (messages s) (current_url s) (screenshot_base64 s) (markers_map s)
    (last_action s) (action_history s) (user_goal s) (session_id s) (status s)
    (iterations s) (max_iterations s) v (approval_required s)
    (approval_granted s).

Definition with_approval_required (v : bool) (s : AgentState) : AgentState :=
  mkAgentState (messages s) (current_url s) (screenshot_base64 s) (markers_map s)
    (last_action s) (action_history s) (user_goal s) (session_id s) (status s)
    (iterations s) (max_iterations s) (error_msg s) v
    (approval_granted s).

Definition create_initial_state (user_goal session_id initial_url : string)
    (max_iterations : Z) : AgentState :=
  {| messages := [HumanMessage ("Goal: " +:+ user_goal)];
     current_url := initial_url;
     screenshot_base64 := "";
     markers_map := IntKeys ∅;
     last_action := None;
     action_history := [];
     user_goal := user_goal;
     session_id := session_id;
     status := planning;
     iterations := 0;
     max_iterations := max_iterations;
     error_msg := None;
     approval_required := false;
     approval_granted := false |}.

Definition add_message (message : Message) (state : AgentState) : AgentState :=
  with_messages (messages state ++ [message]) state.

Definition add_action (action : Action) (state : AgentState) : AgentState :=
  with_action_history (action_history state ++ [action])
    (with_last_action (Some action) state).

(** [key in d] for one of the four keys. *)
Definition has_key (field : option Json) : bool :=
  match field with Some _ => true | None => false end.

(** Truthiness of an action dictionary: [None] and [{}] are false. *)
Definition action_truthy (a : option Action) : bool :=
  match a with
  | None => false
  | Some a =>
      has_key (act_action a) || has_key (act_target a)
      || has_key (act_value a) || has_key (act_reasoning a)
      || match act_extra a with [] => false | _ :: _ => true end
  end.

(** [state["last_action"].get("action") == kind] *)
Definition last_action_is (kind : string) (state : AgentState) : bool :=
  match last_action state with
  | Some a => Py.is_str kind (action_get (act_action a))
  | None => false
  end.

Definition is_complete (state : AgentState) : bool :=
  if bool_decide (status state = complete) then true
  else if action_truthy (last_action state) && last_action_is "done" state
  then true
  else false.

Definition should_stop (state : AgentState) : bool :=
  if is_complete state then true
  else if bool_decide (max_iterations state ≤ iterations state) then true
  else if bool_decide (status state = error) then true
  else if approval_required state && negb (approval_granted state) then true
  else false.

Definition increment_iteration (state : AgentState) : AgentState :=
  with_iterations (iterations state + 1) state.

Definition set_status (st : Status) (state : AgentState) : AgentState :=
  with_status st state.

Definition set_error (err : string) (state : AgentState) : AgentState :=
  with_status error (with_error (Some err) state).

(** [l[-count:] if l else []], for the positive [count] the callers pass. *)
Definition get_recent_actions (state : AgentState) (count : nat) : list Action :=
  let h := action_history state in
  drop (length h - count)%nat h.

(** Python's [l[start:]] for any integer [start]: a negative index counts
    from the end, and both kinds are clamped to the list. *)
Definition slice_from {A} (start : Z) (l : list A) : list A :=
  let n := Z.of_nat (length l) in
  let i := if bool_decide (start < 0) then Z.max (start + n) 0 else Z.min start n in
  drop (Z.to_nat i) l.

(** [get_recent_actions(state, count)] for any integer [count]:
    [state["action_history"][-count:] if state["action_history"] else []]. *)
Definition get_recent_actions_int (state : AgentState) (count : Z) : list Action :=
  match action_history state with
  | [] => []
  | _ :: _ => slice_from (- count) (action_history state)
  end.

(* ===================================================================== *)
(** ** The monad of the node functions *)
(* ===================================================================== *)

Section Monad.
Context {W : Type}.

Definition M (A : Type) : Type := Sys W → Res A * Sys W.

Definition ret {A} (a : A) : M A := fun s => (Val a, s).

Definition bind {A B} (m : M A) (f : A → M B) : M B :=
  fun s =>
    match m s with
    | (Val a, s') => f a s'
    | (Exn e, s') => (Exn e, s')
    end.

(** [raise Exception(msg)] *)
Definition raise {A} (msg : string) : M A := fun s => (Exn msg, s).

(** [try: body  except Exception as e: handler(str(e))] *)
Definition try_except {A} (body : M A) (handler : string → M A) : M A :=
  fun s =>
    match body s with
    | (Val a, s') => (Val a, s')
    | (Exn e, s') => handler e s'
    end.

(** Read the [state] dictionary. *)
Definition get_state : M AgentState := fun s => (Val (agent s), s).

(** Mutate the [state] dictionary in place. *)
Definition update_state (f : AgentState → AgentState) : M unit :=
  fun s => (Val tt,
            mkSys (f (agent s)) (browser_set s) (detection_cache s) (world s) (trace s)).

(** Record a call, then make it. *)
Definition call {A} (ev : list Event) (op : W → Res A * W) : M A :=
  fun s =>
    let '(r, w) := op (world s) in
    (r, mkSys (agent s) (browser_set s) (detection_cache s) w (trace s ++ ev)).

(** [time.sleep(n)] / [await asyncio.sleep(n)] for whole seconds; shorter
    settle delays are not recorded. *)
Definition sleep (seconds : Z) : M unit :=
  fun s => (Val tt,
            mkSys (agent s) (browser_set s) (detection_cache s) (world s)
                  (trace s ++ [EvSleep seconds])).

Definition get_cache : M (gmap string (Detection * float)) :=
  fun s => (Val (detection_cache s), s).

Definition put_cache (c : gmap string (Detection * float)) : M unit :=
  fun s => (Val tt, mkSys (agent s) (browser_set s) c (world s) (trace s)).

Definition read_world {A} (f : W → A) : M A := fun s => (Val (f (world s)), s).

(** A computation that touches nothing: it returns or raises. *)
Definition lift {A} (r : Res A) : M A := fun s => (r, s).

End Monad.
Arguments M : clear implicits.

Declare Scope py_scope.
Delimit Scope py_scope with py.
Notation "'let*' x ':=' m 'in' k" := (bind m (fun x => k))
  (at level 10, x pattern, m at level 100, k at level 200) : py_scope.
Notation "'run' m 'in' k" := (bind m (fun _ => k))
  (at level 10, m at level 100, k at level 200) : py_scope.
Open Scope py_scope.

(** The line break of the formatted messages. *)
Definition nl : string := String (ascii_of_nat 10) EmptyString.

(** The double-quote character of the selectors the marker script builds. *)
Definition dquote : string := String (ascii_of_nat 34) EmptyString.

(** [s.endswith(suffix)] *)
Definition endswith (suffix s : string) : bool :=
  Py.startswith (String.rev suffix) (String.rev s).

(** Remove duplicates and empty strings, keeping the first occurrence
    ([if sel and sel not in seen]). *)
Fixpoint unique_truthy (seen : list string) (l : list string) : list string :=
  match l with
  | [] => []
  | sel :: r =>
      if Py.truthy sel && negb (bool_decide (sel ∈ seen))
      then sel :: unique_truthy (sel :: seen) r
      else unique_truthy seen r
  end.

Section Program.
Context {W : Type} (E : Env W).

(** [str(x)] in the f-strings of the messages. *)
Definition py_str (x : Json) : string := Py.str (format_value E) x.

(** [x[:n]]: the slice itself only goes to the log, its failure is what the
    program sees. *)
Definition check_slice (x : Json) : M W unit :=
  if Py.sliceable x then ret tt
  else raise (exception_text E (NotSubscriptable x)).

(** [markers_map.get(key)] and [key in markers_map]: a list or dictionary as
    key raises; a number is found under the integer it is equal to, a string
    under the same string. *)
Definition markers_get (markers_map : MarkersMap) (key : Json)
    : Res (option ElementInfo) :=
  if negb (Py.hashable key) then Exn (exception_text E (Unhashable key))
  else
    Val (match markers_map with
         | IntKeys entries => Py.as_int_key key ≫= (fun n => entries !! n)
         | StrKeys entries =>
             match key with
             | JStr s => entries !! s
             | _ => None
             end
         end).

(* =================================================================== *)
(** ** amazon_selectors.py *)
(* =================================================================== *)

Definition AMAZON_SELECTORS : list (string * list string) :=
  [ ("search_box",
     [ "#twotabsearchtextbox"; "input[name='field-keywords']";
       "input[type='text'][aria-label*='Search']"; "input#nav-search-keywords";
       "input.nav-input" ]);
    ("search_button",
     [ "#nav-search-submit-button"; "input[type='submit'][value='Go']";
       "input.nav-input[type='submit']"; "button[type='submit'][aria-label*='Go']";
       "#nav-search-bar-form input[type='submit']" ]);
    ("product_link",
     [ "h2 a.a-link-normal"; ".s-result-item h2 a";
       "div[data-component-type='s-search-result'] h2 a"; "a.s-no-outline";
       ".s-product-image-container a" ]);
    ("add_to_cart",
     [ "#add-to-cart-button"; "input#add-to-cart-button";
       "button[name='submit.add-to-cart']"; "#submit.add-to-cart-announce" ]);
    ("buy_now",
     [ "#buy-now-button"; "input#buy-now-button"; "button[name='submit.buy-now']" ]);
    ("price",
     [ ".a-price-whole"; "span.a-price"; ".a-offscreen"; "#priceblock_ourprice";
       "#priceblock_dealprice" ]);
    ("next_page", [ ".s-pagination-next"; "a:contains('Next')"; "li.a-last a" ]);
    ("filter_options", [ "#s-refinements a"; ".a-checkbox"; "li.a-spacing-micro a" ]) ].

Definition amazon_domains : list string :=
  [ "amazon.com"; "amazon.co.uk"; "amazon.ca"; "amazon.de"; "amazon.fr";
    "amazon.it"; "amazon.es"; "amazon.in"; "amazon.co.jp"; "amazon.com.au";
    "amazon.com.mx"; "amazon.com.br" ].

Definition is_amazon_url (url : string) : bool :=
  match urlparse_netloc E url with
  | Val netloc =>
      let domain := Py.lower netloc in
      Py.any (fun d => endswith d domain || bool_decide (domain = d)) amazon_domains
  | Exn _ => false
  end.

Definition detect_amazon_page_type (url : string) : string :=
  let url_lower := Py.lower url in
  if Py.contains "/gp/cart/" url_lower || Py.contains "/cart" url_lower then "cart"
  else if Py.contains "/gp/buy/" url_lower || Py.contains "/checkout" url_lower
          || Py.contains "/ap/signin" url_lower then "checkout"
  else if Py.contains "/dp/" url_lower || Py.contains "/gp/product/" url_lower
  then "product"
  else if Py.contains "/s?" url_lower || Py.contains "field-keywords=" url_lower
  then "search"
  else if endswith "amazon.com" url_lower || endswith "amazon.com/" url_lower
  then "home"
  else "unknown".

Definition get_amazon_element_selectors (element_type : string) : list string :=
  match List.find (fun kv => bool_decide (kv.1 = element_type)) AMAZON_SELECTORS with
  | Some kv => kv.2
  | None => []
  end.

Definition build_xpath_selector (element_info : ElementInfo) : option string :=
  let element_type := Py.lower (ei_type element_info) in
  let text := Py.strip (ei_text element_info) in
  let aria_label := Py.strip (ei_aria_label element_info) in
  let placeholder := Py.strip (ei_placeholder element_info) in
  let xpath := "//" +:+ element_type in
  let xpath_parts :=
    (if Py.truthy text && bool_decide (String.length text < 50)%nat
     then ["contains(text(), '" +:+ Py.take 30 text +:+ "')"] else [])
    ++ (if Py.truthy aria_label then ["@aria-label='" +:+ aria_label +:+ "'"] else [])
    ++ (if Py.truthy placeholder then ["@placeholder='" +:+ placeholder +:+ "'"] else [])
    ++ (if Py.truthy (ei_name element_info)
        then ["@name='" +:+ ei_name element_info +:+ "'"] else []) in
  match xpath_parts with
  | [] => None
  | _ => Some (xpath +:+ "[" +:+ Py.join " or " xpath_parts +:+ "]")
  end.

Definition enhance_element_with_amazon_selectors
    (element_info : ElementInfo) (page_url : string) : ElementInfo :=
  if negb (is_amazon_url page_url) then element_info
  else
    let selectors := [ei_selector element_info] in
    let element_type := Py.lower (ei_type element_info) in
    let text := Py.lower (ei_text element_info) in
    let aria_label := Py.lower (ei_aria_label element_info) in
    let placeholder := Py.lower (ei_placeholder element_info) in
    let name := Py.lower (ei_name element_info) in
    let selectors :=
      if bool_decide (element_type = "input") then
        if Py.contains "search" placeholder || Py.contains "search" aria_label
           || Py.contains "field-keywords" name
        then get_amazon_element_selectors "search_box" ++ selectors
        else if bool_decide (ei_input_type element_info = "submit") then
          if Py.contains "search" aria_label || Py.contains "go" (Py.lower text)
          then get_amazon_element_selectors "search_button" ++ selectors
          else selectors
        else selectors
      else if bool_decide (element_type = "button") then
        if Py.contains "add to cart" text
           || Py.contains "add-to-cart" (ei_selector element_info)
        then get_amazon_element_selectors "add_to_cart" ++ selectors
        else if Py.contains "buy now" text
        then get_amazon_element_selectors "buy_now" ++ selectors
        else if Py.contains "search" aria_label || Py.contains "go" text
        then get_amazon_element_selectors "search_button" ++ selectors
        else selectors
      else if bool_decide (element_type = "a") then
        if Py.contains "s-result-item" (ei_selector element_info)
        then get_amazon_element_selectors "product_link" ++ selectors
        else selectors
      else selectors in
    let selectors :=
      match build_xpath_selector element_info with
      | Some xpath => selectors ++ [xpath]
      | None => selectors
      end in
    let unique_selectors := unique_truthy [] selectors in
    mkElementInfo (ei_type element_info) (ei_text element_info)
      (match unique_selectors with
       | first :: _ => first
       | [] => ei_selector element_info
       end)
      unique_selectors
      (ei_aria_label element_info) (ei_placeholder element_info)
      (ei_href element_info) (ei_name element_info)
      (ei_input_type element_info) (ei_position element_info).

(* =================================================================== *)
(** ** vision_utils.py *)
(* =================================================================== *)

(** [element.getAttribute(name)]; [None] when the attribute is absent. *)
Definition get_attribute (name : string) (el : DomElement) : option string :=
  snd <$> List.find (fun kv => bool_decide (kv.1 = name)) (el_attributes el).

(** [x || ''] on an attribute value. *)
Definition or_empty (o : option string) : string := default "" o.

(** The [isVisible] test of the marker script. *)
Definition js_is_visible (snap : DomSnapshot) (el : DomElement) : bool :=
  let '(rleft, rtop, width, height) := el_rect el in
  bool_decide (0 < width) && bool_decide (0 < height)
  && bool_decide (rtop < inner_height snap) && bool_decide (0 < rtop + height)
  && bool_decide (rleft < inner_width snap) && bool_decide (0 < rleft + width)
  && negb (el_visibility_hidden el) && negb (el_display_none el).

(** The candidate selectors the script records for one element, in its
    priority order. *)
Definition js_selectors (el : DomElement) : list string :=
  let tag := Py.lower (el_tag_name el) in
  (if Py.truthy (el_id el) then ["#" +:+ el_id el] else [])
  ++ (if Py.truthy (el_name_prop el)
      then [tag +:+ "[name=" +:+ dquote +:+ el_name_prop el +:+ dquote +:+ "]"]
      else [])
  ++ (match List.find (fun kv => Py.startswith "data-" kv.1) (el_attributes el) with
      | Some kv => [tag +:+ "[" +:+ kv.1 +:+ "=" +:+ dquote +:+ kv.2 +:+ dquote +:+ "]"]
      | None => []
      end)
  ++ (if Py.truthy (or_empty (get_attribute "aria-label" el))
      then [tag +:+ "[aria-label=" +:+ dquote
                +:+ or_empty (get_attribute "aria-label" el) +:+ dquote +:+ "]"]
      else [])
  ++ (if Py.truthy (el_class_name el) then
        let classes :=
          Py.join "."
            (take 2 (List.filter (fun c => negb (Py.startswith "ai-marker" c))
                                 (el_class_list el))) in
        if Py.truthy classes then [tag +:+ "." +:+ classes] else []
      else [])
  ++ (if Py.truthy (el_type_prop el)
      then [tag +:+ "[type=" +:+ dquote +:+ el_type_prop el +:+ dquote +:+ "]"]
      else [])
  ++ (match el_child_index el with
      | Some index => [tag +:+ ":nth-child(" +:+ pretty (Z.of_nat index + 1) +:+ ")"]
      | None => []
      end).

(** The entry [markers[markerNumber] = {...}] written for one element. *)
Definition js_element_info (snap : DomSnapshot) (el : DomElement) : ElementInfo :=
  let tag := Py.lower (el_tag_name el) in
  let selectors := js_selectors el in
  let '(rleft, rtop, _, _) := el_rect el in
  let inner := match el_inner_text el with
               | Some t => Py.take 100 (Py.strip t)
               | None => ""
               end in
  {| ei_type := tag;
     ei_text := if Py.truthy inner then inner else el_value el;
     ei_selector := match selectors with s :: _ => s | [] => tag end;
     ei_selectors := selectors;
     ei_aria_label := or_empty (get_attribute "aria-label" el);
     ei_placeholder := or_empty (get_attribute "placeholder" el);
     ei_href := or_empty (get_attribute "href" el);
     ei_name := or_empty (get_attribute "name" el);
     ei_input_type := or_empty (get_attribute "type" el);
     ei_position := (rleft + scroll_left snap, rtop + scroll_top snap) |}.

(** The [elements.forEach] loop of the script: [processed] is
    [processedElements], [markerNumber] the running label. *)
Fixpoint markers_loop (snap : DomSnapshot) (elements : list DomElement)
    (processed : gset nat) (markerNumber : Z) (markers : gmap Z ElementInfo)
    : gmap Z ElementInfo :=
  match elements with
  | [] => markers
  | element :: rest =>
      if bool_decide (el_node element ∈ processed)
      then markers_loop snap rest processed markerNumber markers
      else if negb (js_is_visible snap element)
      then markers_loop snap rest processed markerNumber markers
      else markers_loop snap rest ({[el_node element]} ∪ processed)
             (markerNumber + 1)
             (<[markerNumber := js_element_info snap element]> markers)
  end.

(** The object [markers] the script returns, by the JavaScript number of
    each property. *)
Definition markers_script (snap : DomSnapshot) : gmap Z ElementInfo :=
  markers_loop snap (dom_elements snap) ∅ 1 ∅.

(** The dictionary [page.evaluate] makes of that object: the property names
    of a JavaScript object are strings, here the decimal numerals. *)
Definition evaluated_markers (snap : DomSnapshot) : gmap string ElementInfo :=
  kmap (pretty : Z → string) (markers_script snap).

(** The elements the loop labels, in the order it meets them: those it has
    not processed yet and finds visible. *)
Fixpoint labelled_elements (snap : DomSnapshot) (elements : list DomElement)
    (processed : gset nat) : list DomElement :=
  match elements with
  | [] => []
  | element :: rest =>
      if bool_decide (el_node element ∈ processed)
      then labelled_elements snap rest processed
      else if negb (js_is_visible snap element)
      then labelled_elements snap rest processed
      else element :: labelled_elements snap rest ({[el_node element]} ∪ processed)
  end.

(** What the Python side does to each entry after the script returned. *)
Definition post_process (current_url : string) (element_info : ElementInfo)
    : ElementInfo :=
  if is_amazon_url current_url
  then enhance_element_with_amazon_selectors element_info current_url
  else element_info.

(** On the Amazon branch every key goes through [int], which reads the
    numeral [str(n)] back as [n], so the enhanced map is keyed by the labels
    themselves; on the other branch the dictionary is returned as evaluated,
    with its string keys. *)
Definition inject_markers : M W MarkersMap :=
  let* current_url := call [] (fun w => (page_url E w, w)) in
  let is_amazon := is_amazon_url current_url in
  try_except
    (let* snap := call [EvInjectMarkers] (page_markers_script E) in
     if is_amazon
     then ret (IntKeys ((fun element_info =>
                           enhance_element_with_amazon_selectors element_info
                                                                 current_url)
                        <$> markers_script snap))
     else ret (StrKeys (evaluated_markers snap)))
    (fun _ => ret (IntKeys ∅)).

Definition remove_markers : M W unit :=
  try_except (call [EvRemoveMarkers] (page_remove_labels E)) (fun _ => ret tt).

(** The [for i, selector in enumerate(selectors)] loop of
    [get_element_by_marker]; [Some selector] is its [return selector]. *)
Fixpoint try_selectors (selectors : list string) : M W (option string) :=
  match selectors with
  | [] => ret None
  | selector :: rest =>
      let* hit :=
        try_except
          (run call [EvWaitForSelector selector 3000]
                    (page_wait_for_selector E selector 3000) in
           let* element := call [EvQuerySelector selector]
                                (page_query_selector E selector) in
           match element with
           | Some h =>
               let* is_visible := call [EvIsVisible selector]
                                       (element_is_visible E h) in
               let* is_enabled := call [EvIsEnabled selector]
                                       (element_is_enabled E h) in
               ret (is_visible && is_enabled)
           | None => ret false
           end)
          (fun _ => ret false) in
      if hit then ret (Some selector) else try_selectors rest
  end.

(** The selectors the resolver tries for one entry of the label map. *)
Definition candidate_selectors (element_info : ElementInfo) : list string :=
  let selectors := ei_selectors element_info in
  let selectors :=
    match selectors with
    | [] => [ei_selector element_info]
    | _ => selectors
    end in
  List.filter Py.truthy selectors.

Definition get_element_by_marker (markers_map : MarkersMap)
    (marker_number : Json) : M W (option string) :=
  let* entry := lift (markers_get markers_map marker_number) in
  match entry with
  | None => ret None
  | Some element_info =>
      let selectors := candidate_selectors element_info in
      match selectors with
      | [] => ret None
      | first_selector :: _ =>
          let* found := try_selectors selectors in
          match found with
          | Some selector => ret (Some selector)
          | None =>
              try_except
                (let* element := call [EvQuerySelector first_selector]
                                      (page_query_selector E first_selector) in
                 match element with
                 | Some _ => ret (Some first_selector)
                 | None => ret None
                 end)
                (fun _ => ret None)
          end
      end
  end.

(* =================================================================== *)
(** ** ai_vision.py and gemini_helper.py *)
(* =================================================================== *)

(** The dictionary both [detect_checkout_page] and [is_checkout_page] return
    when detection raises. *)
Definition failed_detection (e : string) : Detection :=
  {| is_checkout := false;
     confidence := 0%float;
     detected_keywords := [];
     total_price := None;
     det_reasoning := "Detection failed: " +:+ e |}.

Definition detect_checkout_page (screenshot_base64 : string) : M W Detection :=
  try_except
    (run call [] (base64_to_image E screenshot_base64) in
     call [EvDetectCheckout] (generate_detection E screenshot_base64))
    (fun e => ret (failed_detection e)).

Definition valid_actions : list string := ["click"; "type"; "scroll"; "done"].

Definition validate_action (action : Action) : bool :=
  if negb (has_key (act_action action) && has_key (act_reasoning action)) then false
  else if negb (existsb (fun kind => Py.is_str kind (action_get (act_action action)))
                        valid_actions)
  then false
  else if Py.is_str "type" (action_get (act_action action))
          && negb (Py.truthy_value (action_get (act_value action)))
  then false
  else if Py.is_str "click" (action_get (act_action action))
          && negb (Py.truthy_value (action_get (act_target action)))
  then false
  else true.

(** [VisionAnalyzer._generate_with_retry(prompt, image)]: one request, a
    pause of five seconds before re-raising a rate limit, and a second
    request with the image halved after an [InvalidArgument]. *)
Definition generate_with_retry (input : OracleInput) : M W string :=
  try_except
    (call [EvGenerate] (generate_content E input false))
    (fun error_str =>
       if Py.contains "ResourceExhausted" error_str || Py.contains "429" error_str
       then run sleep 5 in raise error_str
       else if Py.contains "InvalidArgument" error_str
       then
         run call [] (resize_image E (oi_screenshot input)) in
         call [EvGenerate] (generate_content E input true)
       else raise error_str).

(** The body of the [try] in the loop of [analyze_page]: request, parse,
    validate, and the log call that slices the reasoning. *)
Definition one_attempt (input : OracleInput) : M W Action :=
  let* response := generate_with_retry input in
  let* action := lift (parse_gemini_json E response) in
  if negb (validate_action action)
  then raise "Invalid action structure"
  else
    run check_slice (action_get (act_reasoning action)) in
    ret action.

Definition max_retries : nat := 3.

(** The [for attempt in range(max_retries)] loop of [analyze_page];
    [remaining] counts the iterations left. *)
Fixpoint attempt_loop (input : OracleInput) (attempt remaining : nat) : M W Action :=
  match remaining with
  | O => raise "All retry attempts failed"
  | S remaining' =>
      let* returned :=
        try_except
          (let* action := one_attempt input in ret (Some action))
          (fun e =>
             if bool_decide (attempt < max_retries - 1)%nat
             then run sleep (2 ^ Z.of_nat attempt) in ret None
             else raise e) in
      match returned with
      | Some action => ret action
      | None => attempt_loop input (S attempt) remaining'
      end
  end.

(** The action [analyze_page] returns when anything in it raised [e]. *)
Definition fallback_action (e : string) : Action :=
  {| act_action := Some (JStr "done");
     act_target := Some JNull;
     act_value := Some JNull;
     act_reasoning := Some (JStr ("Error during analysis: " +:+ e));
     act_extra := [] |}.

(** The page context [analyze_page] puts into the prompt. *)
Definition page_context_of (current_url : string) : string :=
  if Py.truthy current_url && is_amazon_url current_url
  then "Amazon " +:+ detect_amazon_page_type current_url +:+ " page"
  else "".

Definition analyze_page (screenshot_base64 : string)
    (markers_map : MarkersMap) (user_goal : string)
    (action_history : list Action) (current_url : string) : M W Action :=
  try_except
    (let page_context := page_context_of current_url in
     run call [] (base64_to_image E screenshot_base64) in
     let input := mkOracleInput screenshot_base64 markers_map user_goal
                                action_history page_context in
     attempt_loop input 0 max_retries)
    (fun e => ret (fallback_action e)).

(* =================================================================== *)
(** ** checkout_guard.py *)
(* =================================================================== *)

Definition CACHE_TTL : float := 5%float.

Definition is_checkout_page (screenshot_base64 : string) : M W Detection :=
  try_except
    (let* url := call [] (fun w => (page_url E w, w)) in
     let* current_time := call [] (fun w => let '(t, w') := time_time E w in (Val t, w')) in
     let* cache := get_cache in
     match (match cache !! url with
            | Some (cached_result, cached_time) =>
                if PrimFloat.ltb (PrimFloat.sub current_time cached_time) CACHE_TTL
                then Some cached_result else None
            | None => None
            end) with
     | Some cached_result => ret cached_result
     | None =>
         run call [] (vision_analyzer E) in
         let* result := detect_checkout_page screenshot_base64 in
         let* cache := get_cache in
         run put_cache (<[url := (result, current_time)]> cache) in
         ret result
     end)
    (fun e => ret (failed_detection e)).

Definition high_risk_keywords : list string :=
  [ "place order"; "complete purchase"; "confirm order"; "buy now";
    "complete order"; "submit order"; "pay now"; "confirm purchase";
    "checkout"; "confirm payment" ].

(** [any(keyword in element_text.lower() for keyword in high_risk_keywords)] *)
Definition is_risky_element (element_text : string) : bool :=
  let element_text_lower := Py.lower element_text in
  Py.any (fun keyword => Py.contains keyword element_text_lower) high_risk_keywords.

(** The confidence threshold of the page-level signal. *)
Definition confidence_threshold : float := 0.7%float.

Definition check_before_click (screenshot_base64 element_text : string)
    : M W SafetyVerdict :=
  let* detection := is_checkout_page screenshot_base64 in
  let is_risky := is_risky_element element_text in
  let '(requires_approval, reason) :=
    if is_checkout detection
       && PrimFloat.ltb confidence_threshold (confidence detection)
    then
      if is_risky
      then (true, "Checkout page detected with purchase button: '"
                  +:+ element_text +:+ "'")
      else (false, "On checkout page but element appears safe")
    else if is_risky
    then (true, "Potentially risky action: clicking '" +:+ element_text +:+ "'")
    else (false, "Safe to proceed") in
  ret {| safe := negb requires_approval;
         requires_approval := requires_approval;
         reason := reason;
         checkout_info := if is_checkout detection then Some detection else None |}.

Definition extract_order_summary (checkout_info : Detection) : string :=
  let lines :=
    ["=== ORDER CONFIRMATION REQUIRED ==="]
    ++ (match total_price checkout_info with
        | Some p => if Py.truthy p then ["Total Price: " +:+ p] else []
        | None => []
        end)
    ++ (match detected_keywords checkout_info with
        | [] => []
        | kws => ["Detected: " +:+ Py.join ", " kws]
        end)
    ++ [nl +:+ "Confidence: " +:+ format_percent E (confidence checkout_info)]
    ++ (if Py.truthy (det_reasoning checkout_info)
        then ["Reason: " +:+ det_reasoning checkout_info] else [])
    ++ [nl +:+ "⚠️  This action will complete a purchase!";
        "Please review and approve to continue."] in
  Py.join nl lines.

(* =================================================================== *)
(** ** browser_controller.py (the methods the nodes call) *)
(* =================================================================== *)

(** [get_browser()] *)
Definition get_browser : M W unit :=
  fun s =>
    if browser_set s then (Val tt, s)
    else (Exn "Browser not initialized. Call set_browser() first.", s).

(** [BrowserController.get_url] *)
Definition get_url : M W string :=
  let* initialized := read_world (browser_initialized E) in
  if negb initialized then ret ""
  else call [] (fun w => (page_url E w, w)).

(** [BrowserController.take_screenshot] *)
Definition take_screenshot : M W string :=
  let* initialized := read_world (browser_initialized E) in
  if negb initialized
  then raise "Browser not initialized. Call initialize() first."
  else call [EvScreenshot] (page_screenshot E).

(** [BrowserController.scroll(direction="down", amount)] *)
Definition scroll (amount : Z) : M W bool :=
  let* initialized := read_world (browser_initialized E) in
  if negb initialized then raise "Browser not initialized"
  else
    try_except
      (run call [EvScroll amount] (page_scroll_by E amount) in ret true)
      (fun _ => ret false).

(* =================================================================== *)
(** ** agent_nodes.py *)
(* =================================================================== *)

Definition observer_node : M W unit :=
  try_except
    (run update_state (set_status observing) in
     run get_browser in
     let* current_url := get_url in
     run update_state (with_current_url current_url) in
     run try_except remove_markers (fun _ => ret tt) in
     let* markers_map := inject_markers in
     run update_state (with_markers_map markers_map) in
     let* screenshot := take_screenshot in
     run update_state (with_screenshot_base64 screenshot) in
     update_state
       (add_message
          (AIMessage ("Observed page: " +:+ current_url +:+ ". Found "
                      +:+ pretty (markers_len markers_map)
                      +:+ " interactive elements."))))
    (fun e => update_state (set_error ("Observation failed: " +:+ e))).

Definition reasoning_node : M W unit :=
  try_except
    (run update_state (set_status reasoning) in
     run call [] (vision_analyzer E) in
     let* state := get_state in
     let recent_actions := get_recent_actions state 5 in
     let* action :=
       analyze_page (screenshot_base64 state) (markers_map state)
                    (user_goal state) recent_actions (current_url state) in
     run update_state (with_last_action (Some action)) in
     let reasoning_value := default (JStr "No reasoning provided") (act_reasoning action) in
     let action_type := default (JStr "unknown") (act_action action) in
     let target := default (JStr "N/A") (act_target action) in
     run update_state
           (add_message
              (AIMessage ("Reasoning: " +:+ py_str reasoning_value +:+ nl
                          +:+ "Planned action: " +:+ py_str action_type +:+ " on ["
                          +:+ py_str target +:+ "]"))) in
     run check_slice reasoning_value in
     if Py.is_str "done" action_type
     then update_state (set_status complete)
     else ret tt)
    (fun e => update_state (set_error ("Reasoning failed: " +:+ e))).

(** The three click strategies of [execute_click], in order. *)
Definition click_with_fallbacks (selector : string) : M W unit :=
  try_except
    (run call [EvWaitForSelector selector 5000]
              (page_wait_for_selector E selector 5000) in
     call [EvClick selector] (page_click E selector false))
    (fun e1 =>
       try_except
         (call [EvJsClick selector] (page_evaluate_click E selector))
         (fun e2 =>
            try_except
              (call [EvForceClick selector] (page_click E selector true))
              (fun e3 => raise e3))).

(** The text handed to the safety check:
    [element_info.get('text', '') or element_info.get('aria_label', '')],
    where [element_info] is [markers_map.get(target, {})]. *)
Definition element_text_of (element_info : option ElementInfo) : string :=
  match element_info with
  | Some element_info =>
      if Py.truthy (ei_text element_info) then ei_text element_info
      else ei_aria_label element_info
  | None => ""
  end.

(** The message of the approval branch of [execute_click]. *)
Definition approval_message (safety_check : SafetyVerdict) : Message :=
  match checkout_info safety_check with
  | Some info =>
      AIMessage ("⚠️ APPROVAL REQUIRED" +:+ nl +:+ nl +:+ extract_order_summary info)
  | None =>
      AIMessage ("⚠️ APPROVAL REQUIRED" +:+ nl +:+ nl +:+ reason safety_check)
  end.

(** [selector] after [if not selector: raise ...]: the resolver's answer when
    it is a non-empty string. *)
Definition found_selector (selector : option string) : option string :=
  match selector with
  | Some selector => if Py.truthy selector then Some selector else None
  | None => None
  end.

Definition execute_click (target : Json) : M W unit :=
  try_except
    (let* state := get_state in
     let* selector := get_element_by_marker (markers_map state) target in
     match found_selector selector with
     | None =>
         raise ("Could not find element for marker [" +:+ py_str target +:+ "]")
     | Some selector =>
         let* element_info := lift (markers_get (markers_map state) target) in
         let element_text := element_text_of element_info in
         let* safety_check :=
           check_before_click (screenshot_base64 state) element_text in
         if requires_approval safety_check then
           run update_state (with_approval_required true) in
           update_state (add_message (approval_message safety_check))
         else
           run click_with_fallbacks selector in
           update_state
             (add_message
                (AIMessage ("✓ Clicked element [" +:+ py_str target +:+ "]")))
     end)
    (fun e =>
       update_state
         (add_message
            (AIMessage ("✗ Failed to click element [" +:+ py_str target
                        +:+ "]: " +:+ e)))).

Definition execute_type (target value : Json) : M W unit :=
  try_except
    (let* state := get_state in
     let* selector := get_element_by_marker (markers_map state) target in
     match found_selector selector with
     | None =>
         raise ("Could not find element for marker [" +:+ py_str target +:+ "]")
     | Some selector =>
         run call [EvWaitForSelector selector 5000]
                  (page_wait_for_selector E selector 5000) in
         run call [EvFocus selector] (page_focus E selector) in
         run call [EvFill selector ""] (page_fill E selector "") in
         run call [EvType selector value] (page_type E selector value) in
         run call [EvPress selector "Enter"] (page_press E selector "Enter") in
         update_state
           (add_message
              (AIMessage ("✓ Typed '" +:+ py_str value +:+ "' into element ["
                          +:+ py_str target +:+ "] and pressed Enter")))
     end)
    (fun e =>
       update_state
         (add_message
            (AIMessage ("✗ Failed to type into element [" +:+ py_str target
                        +:+ "]: " +:+ e)))).

Definition execute_scroll : M W unit :=
  try_except
    (run scroll 500 in
     update_state (add_message (AIMessage "✓ Scrolled down to see more content")))
    (fun e =>
       update_state (add_message (AIMessage ("✗ Failed to scroll: " +:+ e)))).

(** The executor [action_node] picks for an action type; [done] only sets
    the status, an unknown type does nothing. *)
Definition dispatch (action_type target value : Json) : M W unit :=
  if Py.is_str "click" action_type then execute_click target
  else if Py.is_str "type" action_type then execute_type target value
  else if Py.is_str "scroll" action_type then execute_scroll
  else if Py.is_str "done" action_type then update_state (set_status complete)
  else ret tt.

Definition action_node : M W unit :=
  try_except
    (run update_state (set_status executing) in
     run get_browser in
     let* state := get_state in
     if negb (action_truthy (last_action state)) then ret tt
     else
       match last_action state with
       | None => ret tt
       | Some action =>
           let action_type := action_get (act_action action) in
           let target := action_get (act_target action) in
           let value := action_get (act_value action) in
           (* the log call: value[:50] if value else None *)
           run (if Py.truthy_value value then check_slice value else ret tt) in
           run dispatch action_type target value in
           run update_state (add_action action) in
           run update_state increment_iteration in
           run sleep 1 in
           remove_markers
       end)
    (fun e => update_state (set_error ("Action execution failed: " +:+ e))).

(* =================================================================== *)
(** ** agent_graph.py *)
(* =================================================================== *)

Inductive Route : Type := route_continue | route_end.

Definition route_after_action (state : AgentState) : Route :=
  if should_stop state then route_end else route_continue.

(** The compiled graph: observer, reasoning, action, then the conditional
    edge.  [fuel] bounds the number of cycles (the runner's recursion limit);
    the result tells whether the graph reached [END]. *)
Fixpoint run_graph (fuel : nat) : M W bool :=
  match fuel with
  | O => ret false
  | S fuel' =>
      run observer_node in
      run reasoning_node in
      run action_node in
      let* state := get_state in
      match route_after_action state with
      | route_end => ret true
      | route_continue => run_graph fuel'
      end
  end.

End Program.

(* ===================================================================== *)
(** ** checkout_guard.py, form_handler.py: the remaining functions *)
(* ===================================================================== *)

Section MoreProgram.
Context {W : Type} (E : Env W).

(** [clear_detection_cache()] *)
Definition clear_detection_cache : M W unit := put_cache ∅.

(** Result dictionary of [fill_form]. *)
Record FillResult : Type := mkFillResult {
  fr_success : bool;
  fr_filled_fields : Z;
  fr_failed_fields : list string;
  fr_errors : list string
}.

(** The [for selector, value in field_data.items()] loop of [fill_form], with
    its three accumulators. *)
Fixpoint fill_loop (simulate_human : bool) (items : list (string * string))
    (filled_count : Z) (failed_fields errors : list string)
    : M W (Z * list string * list string) :=
  match items with
  | [] => ret (filled_count, failed_fields, errors)
  | (selector, value) :: rest =>
      let* ok :=
        try_except
          (run call [EvFill selector ""] (page_fill E selector "") in
           run (if simulate_human
                then call [EvType selector (JStr value)]
                          (page_type E selector (JStr value))
                else call [EvFill selector value] (page_fill E selector value)) in
           ret None)
          (fun e => ret (Some e)) in
      match ok with
      | None => fill_loop simulate_human rest (filled_count + 1) failed_fields errors
      | Some e =>
          fill_loop simulate_human rest filled_count
            (failed_fields ++ [selector]) (errors ++ [selector +:+ ": " +:+ e])
      end
  end.

(** [fill_form(page, field_data, simulate_human)]; [field_data] is given by
    its items, in the order of the dictionary. *)
Definition fill_form (field_data : list (string * string)) (simulate_human : bool)
    : M W FillResult :=
  let* counters := fill_loop simulate_human field_data 0 [] [] in
  let '(filled_count, failed_fields, errors) := counters in
  let success := bool_decide (length failed_fields = 0%nat) in
  ret {| fr_success := success;
         fr_filled_fields := filled_count;
         fr_failed_fields := failed_fields;
         fr_errors := errors |}.

End MoreProgram.

(* ===================================================================== *)
(** ** agent_service.py: the session registry *)
(* ===================================================================== *)

(** [AgentSession]; [created_at] is a [datetime], counted in microseconds. *)
Record AgentSession : Type := mkAgentSession {
  as_session_id : string;
  as_user_goal : string;
  as_initial_url : string;
  as_created_at : Z;
  as_has_browser : bool;             (* self.browser is not None *)
  as_state : option AgentState;
  as_is_running : bool;
  as_is_cancelled : bool
}.

(** [AgentSession(session_id, user_goal, initial_url)], created at [now]. *)
Definition new_session (session_id user_goal initial_url : string) (now : Z)
    : AgentSession :=
  mkAgentSession session_id user_goal initial_url now false None false false.

(** [AgentExecutor.create_session]; [uuid] is the value [uuid.uuid4()] would
    give, [now] the value of [datetime.now()]. *)
Definition create_session (sessions : gmap string AgentSession)
    (user_goal initial_url : string) (session_id : option string)
    (uuid : string) (now : Z) : AgentSession * gmap string AgentSession :=
  let session_id :=
    match session_id with
    | Some sid => if Py.truthy sid then sid else uuid
    | None => uuid
    end in
  let session := new_session session_id user_goal initial_url now in
  (session, <[session_id := session]> sessions).

Definition get_session (sessions : gmap string AgentSession) (session_id : string)
    : option AgentSession :=
  sessions !! session_id.

Definition mark_cancelled (s : AgentSession) : AgentSession :=
  mkAgentSession (as_session_id s) (as_user_goal s) (as_initial_url s)
    (as_created_at s) (as_has_browser s) (as_state s) (as_is_running s) true.

(** [AgentExecutor.cancel_session] *)
Definition cancel_session (sessions : gmap string AgentSession) (session_id : string)
    : bool * gmap string AgentSession :=
  match get_session sessions session_id with
  | None => (false, sessions)
  | Some session =>
      if negb (as_is_running session) then (false, sessions)
      else (true, <[session_id := mark_cancelled session]> sessions)
  end.

(** [timedelta(hours=h)] in microseconds. *)
Definition timedelta_hours (h : Z) : Z := h * 3600 * 1000000.

(** The list [to_remove] of [cleanup_old_sessions]. *)
Definition sessions_to_remove (sessions : gmap string AgentSession) (cutoff : Z)
    : list string :=
  (List.filter
     (fun kv => negb (as_is_running kv.2) && bool_decide (as_created_at kv.2 < cutoff))
     (map_to_list sessions)).*1.

(** [AgentExecutor.cleanup_old_sessions(max_age_hours)] at time [now]. *)
Definition cleanup_old_sessions (sessions : gmap string AgentSession) (now : Z)
    (max_age_hours : Z) : Z * gmap string AgentSession :=
  let cutoff := now - timedelta_hours max_age_hours in
  let to_remove := sessions_to_remove sessions cutoff in
  (Z.of_nat (length to_remove), foldr delete sessions to_remove).

(** [AgentExecutor.get_active_sessions_count] *)
Definition get_active_sessions_count (sessions : gmap string AgentSession) : Z :=
  Z.of_nat (length (List.filter (fun kv => as_is_running kv.2) (map_to_list sessions))).

(* ===================================================================== *)
(** ** A scripted world, to run the program on concrete pages *)
(* ===================================================================== *)

Module Scripted.

(** A page and a model whose answers are fixed in advance. *)
Record World : Type := mkWorld {
  w_url : string;
  w_dom : DomSnapshot;
  w_present : list (string * nat);   (* selectors that match a node *)
  w_visible : list string;           (* selectors whose node is visible *)
  w_disabled : list nat;             (* nodes that are disabled *)
  w_click_ok : bool;                 (* does page.click succeed *)
  w_js_click_ok : bool;              (* does the scripted click succeed *)
  w_force_click_ok : bool;           (* does the forced click succeed *)
  w_answers : list (Res string);     (* responses of the model, in order *)
  w_detection : Res Detection;       (* answer of the classifier *)
  w_now : float
}.

Definition pop_answer (w : World) : Res string * World :=
  match w_answers w with
  | [] => (Exn "DeadlineExceeded: 504 timeout", w)
  | r :: rest =>
      (r, mkWorld (w_url w) (w_dom w) (w_present w) (w_visible w) (w_disabled w)
            (w_click_ok w) (w_js_click_ok w) (w_force_click_ok w) rest
            (w_detection w) (w_now w))
  end.

Definition ok_if (b : bool) (msg : string) (w : World) : Res unit * World :=
  if b then (Val tt, w) else (Exn msg, w).

Definition lookup_node (selector : string) (w : World) : option nat :=
  snd <$> List.find (fun kv => bool_decide (kv.1 = selector)) (w_present w).

(** The host part of a URL of the form [scheme://host/path]. *)
Fixpoint until_slash (s : string) : string :=
  match s with
  | EmptyString => EmptyString
  | String c r => if Ascii.eqb c "/"%char then EmptyString else String c (until_slash r)
  end.

Fixpoint after_scheme (s : string) : string :=
  match s with
  | EmptyString => EmptyString
  | String c r => if Py.startswith "//" s then String.substring 2 (String.length s) s
                  else after_scheme r
  end.

(** The decisions the scripted model can answer with. *)
Definition scroll_action : Action :=
  mkAction (Some (JStr "scroll")) None None
           (Some (JStr "the results are further down")) [].

(** A click on label 99, which no map of the scenarios holds. *)
Definition click_99 : Action :=
  mkAction (Some (JStr "click")) (Some (JInt 99)) None
           (Some (JStr "the checkout button")) [].

Definition click_1 : Action :=
  mkAction (Some (JStr "click")) (Some (JInt 1)) None
           (Some (JStr "add the cable to the cart")) [].

(** A type action whose value is the number 2 instead of text. *)
Definition type_quantity : Action :=
  mkAction (Some (JStr "type")) (Some (JInt 1)) (Some (JInt 2))
           (Some (JStr "set the quantity")) [].

(** A click whose reasoning is [null]. *)
Definition click_unexplained : Action :=
  mkAction (Some (JStr "click")) (Some (JInt 1)) None (Some JNull) [].

(** The response texts the scripted model can give, and what each parses to;
    any other text holds no JSON. *)
Definition replies : list (string * Action) :=
  [ ("scroll", scroll_action); ("click 99", click_99); ("click 1", click_1);
    ("type quantity", type_quantity); ("click unexplained", click_unexplained) ].

Definition parse_reply (response_text : string) : Res Action :=
  match List.find (fun kv => bool_decide (kv.1 = response_text)) replies with
  | Some kv => Val kv.2
  | None => Exn ("Could not parse valid JSON from response: " +:+ response_text)
  end.

(** CPython's name of the type of a value. *)
Definition type_name (x : Json) : string :=
  match x with
  | JNull => "NoneType"
  | JBool _ => "bool"
  | JInt _ => "int"
  | JFloat _ => "float"
  | JStr _ => "str"
  | JList _ => "list"
  | JDict _ => "dict"
  end.

Definition fault_text (fault : PyFault) : string :=
  match fault with
  | NotSubscriptable x => "'" +:+ type_name x +:+ "' object is not subscriptable"
  | Unhashable x => "unhashable type: '" +:+ type_name x +:+ "'"
  end.

Definition env : Env World :=
  {| browser_initialized := fun _ => true;
     page_url := fun w => Val (w_url w);
     page_screenshot := fun w => (Val "iVBORw0KGgo=", w);
     page_markers_script := fun w => (Val (w_dom w), w);
     page_remove_labels := fun w => (Val tt, w);
     page_wait_for_selector := fun selector _ w =>
       ok_if (bool_decide (selector ∈ w_visible w)) "TimeoutError: Timeout 3000ms exceeded" w;
     page_query_selector := fun selector w => (Val (lookup_node selector w), w);
     element_is_visible := fun h w =>
       (Val (existsb (fun sel => bool_decide (lookup_node sel w = Some h)) (w_visible w)), w);
     element_is_enabled := fun h w => (Val (negb (bool_decide (h ∈ w_disabled w))), w);
     page_click := fun _ force w =>
       if force then ok_if (w_force_click_ok w) "Error: element is detached" w
       else ok_if (w_click_ok w) "TimeoutError: element intercepts pointer events" w;
     page_evaluate_click := fun _ w =>
       ok_if (w_js_click_ok w) "Error: SyntaxError in evaluated script" w;
     page_focus := fun _ w => (Val tt, w);
     page_fill := fun _ _ w => (Val tt, w);
     page_type := fun _ value w =>
       match value with
       | JStr _ => (Val tt, w)
       | _ => (Exn "text: expected string", w)
       end;
     page_press := fun _ _ w => (Val tt, w);
     page_scroll_by := fun _ w => (Val tt, w);
     vision_analyzer := fun w => (Val tt, w);
     base64_to_image := fun _ w => (Val tt, w);
     resize_image := fun _ w => (Val tt, w);
     generate_content := fun _ _ w => pop_answer w;
     parse_gemini_json := parse_reply;
     generate_detection := fun _ w => (w_detection w, w);
     time_time := fun w => (w_now w, w);
     format_percent := fun _ => "n%";
     urlparse_netloc := fun url => Val (until_slash (after_scheme url));
     format_value := fun x => "<" +:+ type_name x +:+ ">";
     exception_text := fault_text |}.

Definition empty_dom : DomSnapshot := mkDomSnapshot [] 1280 720 0 0.

(** A quiet shop page: nothing matches, every click works, the model has no
    answer left and the classifier sees no checkout. *)
Definition base : World :=
  {| w_url := "https://shop.example/";
     w_dom := empty_dom;
     w_present := [];
     w_visible := [];
     w_disabled := [];
     w_click_ok := true;
     w_js_click_ok := true;
     w_force_click_ok := true;
     w_answers := [];
     w_detection := Val (mkDetection false 0%float [] None "not a checkout page");
     w_now := 1000%float |}.

Definition start (a : AgentState) (w : World) : Sys World :=
  mkSys a true ∅ w [].

(** The same world when the vision analyzer cannot be created (no API key). *)
Definition env_no_analyzer : Env World :=
  mkEnv World (browser_initialized env) (page_url env) (page_screenshot env)
    (page_markers_script env) (page_remove_labels env) (page_wait_for_selector env)
    (page_query_selector env) (element_is_visible env) (element_is_enabled env)
    (page_click env) (page_evaluate_click env) (page_focus env) (page_fill env)
    (page_type env) (page_press env) (page_scroll_by env)
    (fun w => (Exn "GOOGLE_API_KEY not configured", w))
    (base64_to_image env) (resize_image env) (generate_content env)
    (parse_gemini_json env)
    (generate_detection env) (time_time env) (format_percent env)
    (urlparse_netloc env) (format_value env) (exception_text env).

End Scripted.

(** The value a call returned, if it did not raise. *)
Definition value_of {A} (r : Res A) : option A :=
  match r with Val a => Some a | Exn _ => None end.

Module Scenario.
Import Scripted.

(** A page the classifier reports as checkout with the given confidence. *)
Definition checkout_page (c : float) : World :=
  mkWorld "https://www.amazon.com/gp/buy/spc/handlers/display.html"
    empty_dom [] [] [] true true true []
    (Val (mkDetection true c ["Order total"] (Some "$12.99")
                      "order summary and payment form"))
    1000%float.

Definition fresh_state : AgentState :=
  create_initial_state "buy a USB cable" "s-1" "https://www.amazon.com/" 20.

(** [check_before_click] on such a page, for one element text. *)
Definition verdict_on (c : float) (element_text : string) : option SafetyVerdict :=
  value_of (check_before_click env "iVBORw0KGgo=" element_text
              (start fresh_state (checkout_page c))).1.

(** A product page whose label 3 is the Buy Now button; the button is in the
    DOM (node 7), visible and enabled. *)
Definition buy_now_info : ElementInfo :=
  {| ei_type := "input";
     ei_text := "Buy Now";
     ei_selector := "#buy-now-button";
     ei_selectors := ["#buy-now-button"; "input[name='submit.buy-now']"];
     ei_aria_label := "";
     ei_placeholder := "";
     ei_href := "";
     ei_name := "submit.buy-now";
     ei_input_type := "submit";
     ei_position := (900, 410) |}.

Definition product_page : World :=
  mkWorld "https://shop.example/item/42" empty_dom
    [("#buy-now-button", 7%nat)] ["#buy-now-button"] []
    true true true [] (w_detection base) 1000%float.

Definition product_state : AgentState :=
  with_screenshot_base64 "iVBORw0KGgo="
    (with_markers_map (IntKeys {[ 3 := buy_now_info ]}) fresh_state).

(** The model answers with a scroll every time it is asked. *)
Definition scrolling_page : World :=
  mkWorld "https://shop.example/search?q=usb" empty_dom [] [] [] true true true
    [Val "scroll"; Val "scroll"; Val "scroll"; Val "scroll"]
    (w_detection base) 1000%float.

(** The model answers with a click on label 99. *)
Definition hallucinating_page : World :=
  mkWorld "https://shop.example/item/42" empty_dom
    [("#buy-now-button", 7%nat)] ["#buy-now-button"] []
    true true true [Val "click 99"] (w_detection base) 1000%float.


(** The model answers with a type action whose value is the number 2. *)
Definition quantity_page : World :=
  mkWorld "https://shop.example/item/42" empty_dom
    [("#quantity", 6%nat)] ["#quantity"] []
    true true true [Val "type quantity"; Val "type quantity"; Val "type quantity"]
    (w_detection base) 1000%float.

Definition quantity_info : ElementInfo :=
  {| ei_type := "input";
     ei_text := "";
     ei_selector := "#quantity";
     ei_selectors := ["#quantity"];
     ei_aria_label := "Quantity";
     ei_placeholder := "";
     ei_href := "";
     ei_name := "quantity";
     ei_input_type := "number";
     ei_position := (700, 300) |}.

Definition quantity_state : AgentState :=
  with_screenshot_base64 "iVBORw0KGgo="
    (with_markers_map (IntKeys {[ 1 := quantity_info ]}) fresh_state).

(** Reasoning then action, without a new observation. *)
Definition decide_and_act (E : Env World) (s : Sys World) : Res unit * Sys World :=
  (run reasoning_node E in action_node E) s.

(** Label 1 is an Add to Cart button covered by an overlay: the plain click
    and the scripted click fail, the forced click goes through. *)
Definition cart_info : ElementInfo :=
  {| ei_type := "input";
     ei_text := "Add to Cart";
     ei_selector := "#add-to-cart-button";
     ei_selectors := ["#add-to-cart-button"];
     ei_aria_label := "";
     ei_placeholder := "";
     ei_href := "";
     ei_name := "submit.add-to-cart";
     ei_input_type := "submit";
     ei_position := (900, 350) |}.

Definition covered_page : World :=
  mkWorld "https://shop.example/item/42" empty_dom
    [("#add-to-cart-button", 4%nat)] ["#add-to-cart-button"] []
    false false true [] (w_detection base) 1000%float.

Definition cart_state : AgentState :=
  with_last_action (Some click_1)
    (with_screenshot_base64 "iVBORw0KGgo="
       (with_markers_map (IntKeys {[ 1 := cart_info ]}) fresh_state)).





(** A document whose root element carries [role=button]: it has no id, name,
    data attribute, label, class or type, and no parent element. *)
Definition root_button : DomElement :=
  {| el_node := 0%nat;
     el_tag_name := "HTML";
     el_id := "";
     el_name_prop := "";
     el_attributes := [("role", "button")];
     el_class_name := "";
     el_class_list := [];
     el_type_prop := "";
     el_child_index := None;
     el_inner_text := Some "Tap anywhere to continue";
     el_value := "";
     el_rect := (0, 0, 1280, 720);
     el_visibility_hidden := false;
     el_display_none := false |}.

Definition root_dom : DomSnapshot := mkDomSnapshot [root_button] 1280 720 0 0.

Definition root_page : World :=
  mkWorld "https://shop.example/welcome" root_dom [("html", 0%nat)] ["html"] []
    true true true [] (w_detection base) 1000%float.

(** A result list: a search box, a hidden link, a visible button, and the
    search box met a second time. *)
Definition search_box : DomElement :=
  {| el_node := 1%nat;
     el_tag_name := "INPUT";
     el_id := "twotabsearchtextbox";
     el_name_prop := "field-keywords";
     el_attributes := [("type", "text"); ("name", "field-keywords");
                       ("placeholder", "Search")];
     el_class_name := "nav-input";
     el_class_list := ["nav-input"];
     el_type_prop := "text";
     el_child_index := Some 0%nat;
     el_inner_text := Some "";
     el_value := "";
     el_rect := (200, 10, 600, 40);
     el_visibility_hidden := false;
     el_display_none := false |}.

Definition hidden_link : DomElement :=
  {| el_node := 2%nat;
     el_tag_name := "A";
     el_id := "";
     el_name_prop := "";
     el_attributes := [("href", "/skip")];
     el_class_name := "";
     el_class_list := [];
     el_type_prop := "";
     el_child_index := Some 1%nat;
     el_inner_text := Some "Skip to main content";
     el_value := "";
     el_rect := (0, 0, 100, 20);
     el_visibility_hidden := true;
     el_display_none := false |}.

Definition go_button : DomElement :=
  {| el_node := 3%nat;
     el_tag_name := "BUTTON";
     el_id := "";
     el_name_prop := "";
     el_attributes := [("data-action", "go"); ("aria-label", "Go")];
     el_class_name := "btn primary wide";
     el_class_list := ["btn"; "primary"; "wide"];
     el_type_prop := "submit";
     el_child_index := Some 2%nat;
     el_inner_text := Some "  Go  ";
     el_value := "";
     el_rect := (820, 10, 60, 40);
     el_visibility_hidden := false;
     el_display_none := false |}.

Definition listing_dom : DomSnapshot :=
  mkDomSnapshot [search_box; hidden_link; go_button; search_box] 1280 720 0 0.

Definition listing_page : World :=
  mkWorld "https://shop.example/search?q=usb" listing_dom [] [] []
    true true true [] (w_detection base) 1000%float.

(** A detection stored two seconds before the clock of the scripted pages. *)
Definition cached_detection : Detection :=
  mkDetection true 0.9%float ["Place Order"] (Some "$12.99") "payment form".

(** A system that has [cached_detection] in its cache for the shop page. *)
Definition cached_system : Sys World :=
  mkSys fresh_state true {[ "https://shop.example/" := (cached_detection, 998%float) ]}
        base [].

End Scenario.

(* ===================================================================== *)
(** ** Vocabulary of the statements *)
(* ===================================================================== *)

(** Running [m] from any state ends in a state related to it by [R], whether
    [m] returns or raises. *)
Definition respects {W} (R : relation (Sys W)) {A} (m : M W A) : Prop :=
  ∀ s, R s (m s).2.

(** [m] returns a value from every state. *)
Definition never_raises {W A} (m : M W A) : Prop := ∀ s, ∃ a s', m s = (Val a, s').

(** The agent's counters and history are untouched. *)
Definition frame {W} (s s' : Sys W) : Prop :=
  action_history (agent s') = action_history (agent s)
  ∧ iterations (agent s') = iterations (agent s)
  ∧ max_iterations (agent s') = max_iterations (agent s)
  ∧ browser_set s' = browser_set s.

(** The state dictionary and the globals are untouched; only the world, the
    cache and the record of calls may differ. *)
Definition same_agent {W} (s s' : Sys W) : Prop :=
  agent s' = agent s ∧ browser_set s' = browser_set s.

(** The calls made from [s] to [s'] all satisfy [P]. *)
Definition emitting {W} (P : Event → Prop) (s s' : Sys W) : Prop :=
  ∃ evs, trace s' = trace s ++ evs ∧ Forall P evs.

(** The log call of [action_node] can print the value of the action: the
    value is absent or empty, or it can be sliced (a text or a list). *)
Definition value_loggable (a : Action) : bool :=
  negb (Py.truthy_value (action_get (act_value a)))
  || Py.sliceable (action_get (act_value a)).




(** The message [execute_click] records when the target cannot be resolved. *)
Definition click_failed_message {W} (E : Env W) (target : Json) : Message :=
  AIMessage ("✗ Failed to click element [" +:+ py_str E target
             +:+ "]: Could not find element for marker ["
             +:+ py_str E target +:+ "]").



(** No click of any of the three kinds. *)
Abbreviation no_click := (fun e : Event => is_click_event e = false).

(** A function on the state dictionary that leaves counters and history alone. *)
Definition keeps_counters (f : AgentState → AgentState) : Prop :=
  ∀ a, action_history (f a) = action_history a
       ∧ iterations (f a) = iterations a
       ∧ max_iterations (f a) = max_iterations a.


(** A relation on the state dictionary, lifted to the whole system: the
    global [_browser] is left as it was. *)
Definition agent_rel {W} (P : relation AgentState) (s s' : Sys W) : Prop :=
  P (agent s) (agent s') ∧ browser_set s' = browser_set s.

(** What an executor may do to the state dictionary: append messages and
    raise [approval_required]; every other key keeps its value. *)
Definition executor_footprint (a a' : AgentState) : Prop :=
  messages a `prefix_of` messages a'
  ∧ (approval_required a = true → approval_required a' = true)
  ∧ current_url a' = current_url a
  ∧ screenshot_base64 a' = screenshot_base64 a
  ∧ markers_map a' = markers_map a
  ∧ last_action a' = last_action a
  ∧ action_history a' = action_history a
  ∧ user_goal a' = user_goal a
  ∧ session_id a' = session_id a
  ∧ status a' = status a
  ∧ iterations a' = iterations a
  ∧ max_iterations a' = max_iterations a
  ∧ error_msg a' = error_msg a
  ∧ approval_granted a' = approval_granted a.

(** What a whole run may do to it: the goal, the session, the budget and the
    grant are fixed; history and messages only grow at the end; the counter
    never decreases; [approval_required] is never reset. *)
Definition append_only (a a' : AgentState) : Prop :=
  messages a `prefix_of` messages a'
  ∧ action_history a `prefix_of` action_history a'
  ∧ iterations a ≤ iterations a'
  ∧ (approval_required a = true → approval_required a' = true)
  ∧ user_goal a' = user_goal a
  ∧ session_id a' = session_id a
  ∧ max_iterations a' = max_iterations a
  ∧ approval_granted a' = approval_granted a.

(** What the observer and a failed reasoning step leave alone: the planned
    action, the approval flags, the counters and the history. *)
Definition keeps_plan (a a' : AgentState) : Prop :=
  last_action a' = last_action a
  ∧ approval_required a' = approval_required a
  ∧ approval_granted a' = approval_granted a
  ∧ action_history a' = action_history a
  ∧ iterations a' = iterations a
  ∧ max_iterations a' = max_iterations a.

(** The state once calls have left the world [w] and the events [evs]. *)
Definition after {W} (s : Sys W) (w : W) (evs : list Event) : Sys W :=
  mkSys (agent s) (browser_set s) (detection_cache s) w (trace s ++ evs).

(** The errors [_generate_with_retry] takes for a rate limit. *)
Definition rate_limited (error_str : string) : bool :=
  Py.contains "ResourceExhausted" error_str || Py.contains "429" error_str.

(** The calls of one attempt of [analyze_page]: a request; a request and the
    pause of five seconds after a rate limit; or a request and its repeat
    with the smaller image. *)
Definition request_traces : list (list Event) :=
  [ [EvGenerate]; [EvGenerate; EvSleep 5]; [EvGenerate; EvGenerate] ].

(** The calls [analyze_page] may make: no attempt; one; two with a pause of
    one second between them; three with pauses of one and two seconds. *)
Definition backoff (evs : list Event) : Prop :=
  evs = []
  ∨ ∃ r1 r2 r3,
      r1 ∈ request_traces ∧ r2 ∈ request_traces ∧ r3 ∈ request_traces
      ∧ (evs = r1
         ∨ evs = r1 ++ [EvSleep 1] ++ r2
         ∨ evs = r1 ++ [EvSleep 1] ++ r2 ++ [EvSleep 2] ++ r3).

(** One page call: the event it leaves and what it does to the world. *)
Definition PageCall (W : Type) : Type := Event * (W → Res unit * W).

(** Make the calls in order and stop at the first that raises: the events of
    the calls made (the raising one included), the error if one raised, and
    the world they leave. *)
Fixpoint calls_until_raise {W} (calls : list (PageCall W)) (w : W)
    : list Event * option string * W :=
  match calls with
  | [] => ([], None, w)
  | (ev, op) :: rest =>
      match op w with
      | (Val _, w1) =>
          let '(evs, err, w2) := calls_until_raise rest w1 in
          (ev :: evs, err, w2)
      | (Exn e, w1) => ([ev], Some e, w1)
      end
  end.

(** Try the strategies in order and stop at the first that does not raise:
    the events of all calls made, the error of the last strategy if every one
    raised, and the world they leave. *)
Fixpoint first_success {W} (strategies : list (list (PageCall W)))
    (last_error : option string) (w : W) : list Event * option string * W :=
  match strategies with
  | [] => ([], last_error, w)
  | calls :: rest =>
      match calls_until_raise calls w with
      | (evs, None, w1) => (evs, None, w1)
      | (evs, Some e, w1) =>
          let '(evs', err, w2) := first_success rest (Some e) w1 in
          (evs ++ evs', err, w2)
      end
  end.

(** The three click strategies on one selector: the plain click after a wait
    for visibility, the scripted click, the forced click. *)
Definition click_strategies {W} (E : Env W) (selector : string)
    : list (list (PageCall W)) :=
  [ [ (EvWaitForSelector selector 5000, page_wait_for_selector E selector 5000);
      (EvClick selector, page_click E selector false) ];
    [ (EvJsClick selector, page_evaluate_click E selector) ];
    [ (EvForceClick selector, page_click E selector true) ] ].

(** The calls the resolver makes: waits with its own timeout, queries, and
    the visibility and enabledness checks on a matched element. *)
Definition is_probe_event (e : Event) : bool :=
  match e with
  | EvWaitForSelector _ timeout => bool_decide (timeout = 3000)
  | EvQuerySelector _ | EvIsVisible _ | EvIsEnabled _ => true
  | _ => false
  end.

(** What the nodes leave alone once they have set their own status. *)
Definition keeps_status (a a' : AgentState) : Prop :=
  status a' = status a
  ∧ error_msg a' = error_msg a
  ∧ last_action a' = last_action a
  ∧ approval_required a' = approval_required a
  ∧ approval_granted a' = approval_granted a
  ∧ action_history a' = action_history a
  ∧ iterations a' = iterations a
  ∧ max_iterations a' = max_iterations a.

(** The page calls of [execute_type] on a resolved selector, in order. *)
Definition type_calls {W} (E : Env W) (selector : string) (value : Json)
    : list (PageCall W) :=
  [ (EvWaitForSelector selector 5000, page_wait_for_selector E selector 5000);
    (EvFocus selector, page_focus E selector);
    (EvFill selector "", page_fill E selector "");
    (EvType selector value, page_type E selector value);
    (EvPress selector "Enter", page_press E selector "Enter") ].

(** The calls of the observer: marker removal, marker injection, screenshot. *)
Definition is_observation_event (e : Event) : bool :=
  match e with
  | EvRemoveMarkers | EvInjectMarkers | EvScreenshot => true
  | _ => false
  end.

Abbreviation probe := (fun e : Event => is_probe_event e = true).

Abbreviation observation := (fun e : Event => is_observation_event e = true).

(* ===================================================================== *)
(** * Properties *)
(* ===================================================================== *)

(** ** Relations every step of a computation keeps *)

Section Respects.
Context {W : Type} (R : relation (Sys W)) `{!PreOrder R}.

Lemma respects_ret {A} (a : A) : respects R (ret a).
Proof. intros s. simpl. reflexivity. Qed.

Lemma respects_raise {A} msg : respects R (@raise W A msg).
Proof. intros s. simpl. reflexivity. Qed.

Lemma respects_get_state : respects R get_state.
Proof. intros s. simpl. reflexivity. Qed.

Lemma respects_get_cache : respects R get_cache.
Proof. intros s. simpl. reflexivity. Qed.

Lemma respects_read_world {A} (f : W → A) : respects R (read_world f).
Proof. intros s. simpl. reflexivity. Qed.

Lemma respects_lift {A} (r : Res A) : respects R (lift r).
Proof. intros s. simpl. reflexivity. Qed.

Lemma respects_check_slice (E : Env W) x : respects R (check_slice E x).
Proof. intros s. unfold check_slice. destruct (Py.sliceable x); simpl; reflexivity. Qed.

Lemma respects_bind {A B} (m : M W A) (f : A → M W B) :
  respects R m → (∀ a, respects R (f a)) → respects R (bind m f).
Proof.
  intros Hm Hf s. unfold bind. specialize (Hm s).
  destruct (m s) as [[a|e] s1]; simpl in *; [|done].
  etrans; [exact Hm | apply Hf].
Qed.

Lemma respects_try_except {A} (m : M W A) (h : string → M W A) :
  respects R m → (∀ e, respects R (h e)) → respects R (try_except m h).
Proof.
  intros Hm Hh s. unfold try_except. specialize (Hm s).
  destruct (m s) as [[a|e] s1]; simpl in *; [done|].
  etrans; [exact Hm | apply Hh].
Qed.

End Respects.


#[global] Instance frame_preorder {W} : PreOrder (@frame W).
Proof.
  split.
  - intros s. by repeat split.
  - intros a b c (?&?&?&?) (?&?&?&?). repeat split; congruence.
Qed.


#[global] Instance emitting_preorder {W} P : PreOrder (@emitting W P).
Proof.
  split.
  - intros s. exists []. split; [by rewrite app_nil_r | constructor].
  - intros a b c (e1 & H1 & F1) (e2 & H2 & F2). exists (e1 ++ e2).
    split; [by rewrite H2, H1, app_assoc | by apply Forall_app].
Qed.



#[global] Instance same_agent_preorder {W} : PreOrder (@same_agent W).
Proof.
  split.
  - intros s. by split.
  - intros a b c (?&?) (?&?). split; congruence.
Qed.


Section Primitives.
Context {W : Type} (E : Env W).

Lemma same_agent_call {A} ev (op : W → Res A * W) : respects same_agent (call ev op).
Proof. intros s. unfold call. destruct (op (world s)). by split. Qed.

Lemma same_agent_sleep n : respects (@same_agent W) (sleep n).
Proof. intros s. by split. Qed.

Lemma same_agent_put_cache c : respects (@same_agent W) (put_cache c).
Proof. intros s. by split. Qed.

Lemma frame_call {A} ev (op : W → Res A * W) : respects frame (call ev op).
Proof. intros s. unfold call. destruct (op (world s)). by repeat split. Qed.

Lemma frame_sleep n : respects (@frame W) (sleep n).
Proof. intros s. by repeat split. Qed.

Lemma frame_put_cache c : respects (@frame W) (put_cache c).
Proof. intros s. by repeat split. Qed.

Lemma frame_get_browser : respects (@frame W) get_browser.
Proof. intros s. unfold get_browser. destruct (browser_set s); by repeat split. Qed.

Lemma frame_update f : keeps_counters f → respects (@frame W) (update_state f).
Proof. intros Hf s. destruct (Hf (agent s)) as (?&?&?). by repeat split. Qed.

Lemma emitting_call {A} (P : Event → Prop) ev (op : W → Res A * W) :
  Forall P ev → respects (emitting P) (call ev op).
Proof. intros HP s. unfold call. destruct (op (world s)). by exists ev. Qed.

Lemma emitting_sleep (P : Event → Prop) n :
  P (EvSleep n) → respects (@emitting W P) (sleep n).
Proof. intros HP s. exists [EvSleep n]. split; [done | by constructor]. Qed.

Lemma emitting_put_cache (P : Event → Prop) c : respects (@emitting W P) (put_cache c).
Proof. intros s. exists []. split; [by rewrite app_nil_r | constructor]. Qed.

Lemma emitting_get_browser (P : Event → Prop) : respects (@emitting W P) get_browser.
Proof.
  intros s. unfold get_browser. exists [].
  destruct (browser_set s); (split; [by rewrite app_nil_r | constructor]).
Qed.

Lemma emitting_update (P : Event → Prop) f : respects (@emitting W P) (update_state f).
Proof. intros s. exists []. split; [by rewrite app_nil_r | constructor]. Qed.

End Primitives.

Lemma keeps_add_message m : keeps_counters (add_message m).
Proof. by intros a. Qed.
Lemma keeps_set_status st : keeps_counters (set_status st).
Proof. by intros a. Qed.
Lemma keeps_set_error e : keeps_counters (set_error e).
Proof. by intros a. Qed.
Lemma keeps_with_current_url v : keeps_counters (with_current_url v).
Proof. by intros a. Qed.
Lemma keeps_with_markers_map v : keeps_counters (with_markers_map v).
Proof. by intros a. Qed.
Lemma keeps_with_screenshot_base64 v : keeps_counters (with_screenshot_base64 v).
Proof. by intros a. Qed.
Lemma keeps_with_last_action v : keeps_counters (with_last_action v).
Proof. by intros a. Qed.
Lemma keeps_with_approval_required v : keeps_counters (with_approval_required v).
Proof. by intros a. Qed.

Create HintDb keeps.
#[global] Hint Resolve keeps_add_message keeps_set_status keeps_set_error
  keeps_with_current_url keeps_with_markers_map keeps_with_screenshot_base64
  keeps_with_last_action keeps_with_approval_required : keeps.

(** One structural step of a [respects] goal. *)
Ltac respects_step :=
  first
    [ apply respects_ret; apply _
    | apply respects_raise; apply _
    | apply respects_get_state; apply _
    | apply respects_get_cache; apply _
    | apply respects_read_world; apply _
    | apply respects_lift; apply _
    | apply respects_check_slice; apply _
    | apply respects_bind; [apply _ | | intros ?]
    | apply respects_try_except; [apply _ | | intros ?]
    | apply same_agent_call
    | apply same_agent_sleep
    | apply same_agent_put_cache
    | apply frame_call
    | apply frame_sleep
    | apply frame_put_cache
    | apply frame_get_browser
    | apply frame_update; solve [auto with keeps]
    | apply emitting_call; solve [repeat constructor]
    | apply emitting_sleep; solve [done]
    | apply emitting_put_cache
    | apply emitting_get_browser
    | apply emitting_update
    | match goal with
      | |- respects _ (match ?x with _ => _ end) => destruct x
      end ].

Ltac respects_tac := repeat respects_step.

Create HintDb respects.

Ltac respects_auto :=
  repeat first [ solve [auto 1 with respects] | respects_step ].

(** ** Frame lemmas: who may touch the counters and the history *)

Section Frames.
Context {W : Type} (E : Env W).

Lemma frame_remove_markers : respects frame (remove_markers E).
Proof. unfold remove_markers. respects_auto. Qed.

Lemma frame_inject_markers : respects frame (inject_markers E).
Proof. unfold inject_markers. respects_auto. Qed.

Lemma frame_try_selectors l : respects frame (try_selectors E l).
Proof. induction l as [|x l IH]; simpl; respects_auto. Qed.
Hint Resolve frame_try_selectors : respects.

Lemma frame_get_element_by_marker mm n :
  respects frame (get_element_by_marker E mm n).
Proof. unfold get_element_by_marker. respects_auto. Qed.

Lemma frame_detect_checkout_page shot : respects frame (detect_checkout_page E shot).
Proof. unfold detect_checkout_page. respects_auto. Qed.
Hint Resolve frame_detect_checkout_page : respects.

Lemma frame_is_checkout_page shot : respects frame (is_checkout_page E shot).
Proof. unfold is_checkout_page. respects_auto. Qed.
Hint Resolve frame_is_checkout_page : respects.

Lemma frame_check_before_click shot text :
  respects frame (check_before_click E shot text).
Proof. unfold check_before_click. respects_auto. Qed.

Lemma frame_click_with_fallbacks sel : respects frame (click_with_fallbacks E sel).
Proof. unfold click_with_fallbacks. respects_auto. Qed.

Hint Resolve frame_remove_markers frame_inject_markers frame_get_element_by_marker
  frame_check_before_click frame_click_with_fallbacks : respects.

Lemma frame_execute_click target : respects frame (execute_click E target).
Proof. unfold execute_click. respects_auto. Qed.

Lemma frame_execute_type target value : respects frame (execute_type E target value).
Proof. unfold execute_type. respects_auto. Qed.

Lemma frame_scroll n : respects frame (scroll E n).
Proof. unfold scroll. respects_auto. Qed.
Hint Resolve frame_scroll : respects.

Lemma frame_execute_scroll : respects frame (execute_scroll E).
Proof. unfold execute_scroll. respects_auto. Qed.

Lemma frame_get_url : respects frame (get_url E).
Proof. unfold get_url. respects_auto. Qed.

Lemma frame_take_screenshot : respects frame (take_screenshot E).
Proof. unfold take_screenshot. respects_auto. Qed.

Lemma frame_generate_with_retry input : respects frame (generate_with_retry E input).
Proof. unfold generate_with_retry. respects_auto. Qed.
Hint Resolve frame_generate_with_retry : respects.

Lemma frame_one_attempt input : respects frame (one_attempt E input).
Proof. unfold one_attempt. respects_auto. Qed.
Hint Resolve frame_one_attempt : respects.

Lemma frame_attempt_loop input attempt remaining :
  respects frame (attempt_loop E input attempt remaining).
Proof.
  revert attempt. induction remaining as [|r IH]; intros attempt; simpl; respects_auto.
Qed.
Hint Resolve frame_attempt_loop frame_get_url frame_take_screenshot : respects.

Lemma frame_analyze_page shot mm goal hist url :
  respects frame (analyze_page E shot mm goal hist url).
Proof. unfold analyze_page. respects_auto. Qed.
Hint Resolve frame_analyze_page : respects.

Lemma frame_observer_node : respects frame (observer_node E).
Proof. unfold observer_node. respects_auto. Qed.

Lemma frame_reasoning_node : respects frame (reasoning_node E).
Proof. unfold reasoning_node. respects_auto. Qed.

End Frames.

#[global] Hint Resolve frame_remove_markers frame_inject_markers frame_try_selectors
  frame_get_element_by_marker frame_check_before_click frame_click_with_fallbacks
  frame_execute_click frame_execute_type frame_execute_scroll frame_scroll
  frame_analyze_page frame_observer_node frame_reasoning_node : respects.

(** ** The resolver and the safety check only probe: they change nothing in
       the state dictionary and never click *)

Section Probes.
Context {W : Type} (E : Env W).

Lemma same_agent_try_selectors l : respects same_agent (try_selectors E l).
Proof. induction l as [|x l IH]; simpl; respects_auto. Qed.
Hint Resolve same_agent_try_selectors : respects.

Lemma same_agent_get_element_by_marker mm n :
  respects same_agent (get_element_by_marker E mm n).
Proof. unfold get_element_by_marker. respects_auto. Qed.

Lemma same_agent_detect_checkout_page shot :
  respects same_agent (detect_checkout_page E shot).
Proof. unfold detect_checkout_page. respects_auto. Qed.
Hint Resolve same_agent_detect_checkout_page : respects.

Lemma same_agent_is_checkout_page shot : respects same_agent (is_checkout_page E shot).
Proof. unfold is_checkout_page. respects_auto. Qed.
Hint Resolve same_agent_is_checkout_page : respects.

Lemma same_agent_check_before_click shot text :
  respects same_agent (check_before_click E shot text).
Proof. unfold check_before_click. respects_auto. Qed.

Lemma no_click_try_selectors l : respects (emitting no_click) (try_selectors E l).
Proof. induction l as [|x l IH]; simpl; respects_auto. Qed.
Hint Resolve no_click_try_selectors : respects.

Lemma no_click_get_element_by_marker mm n :
  respects (emitting no_click) (get_element_by_marker E mm n).
Proof. unfold get_element_by_marker. respects_auto. Qed.

Lemma no_click_detect_checkout_page shot :
  respects (emitting no_click) (detect_checkout_page E shot).
Proof. unfold detect_checkout_page. respects_auto. Qed.
Hint Resolve no_click_detect_checkout_page : respects.

Lemma no_click_is_checkout_page shot :
  respects (emitting no_click) (is_checkout_page E shot).
Proof. unfold is_checkout_page. respects_auto. Qed.
Hint Resolve no_click_is_checkout_page : respects.

Lemma no_click_check_before_click shot text :
  respects (emitting no_click) (check_before_click E shot text).
Proof. unfold check_before_click. respects_auto. Qed.

End Probes.


(** ** Computations that never raise *)

Section Totality.
Context {W : Type} (E : Env W).


Lemma never_raises_ret {A} (a : A) : never_raises (@ret W A a).
Proof. intros s. by exists a, s. Qed.

Lemma never_raises_update f : never_raises (@update_state W f).
Proof. intros s. by eexists _, _. Qed.

Lemma never_raises_sleep n : never_raises (@sleep W n).
Proof. intros s. by eexists _, _. Qed.

Lemma never_raises_bind {A B} (m : M W A) (f : A → M W B) :
  never_raises m → (∀ a, never_raises (f a)) → never_raises (bind m f).
Proof.
  intros Hm Hf s. destruct (Hm s) as (a & s1 & Hs). unfold bind. rewrite Hs. apply Hf.
Qed.

Lemma never_raises_try_except {A} (m : M W A) (h : string → M W A) :
  (∀ e, never_raises (h e)) → never_raises (try_except m h).
Proof.
  intros Hh s. unfold try_except. destruct (m s) as [[a|e] s1]; [by eexists _, _ | apply Hh].
Qed.

Lemma never_raises_remove_markers : never_raises (remove_markers E).
Proof. apply never_raises_try_except. intros _. apply never_raises_ret. Qed.

Lemma never_raises_detect_checkout_page shot : never_raises (detect_checkout_page E shot).
Proof. apply never_raises_try_except. intros e. apply never_raises_ret. Qed.


Lemma never_raises_execute_click target : never_raises (execute_click E target).
Proof. apply never_raises_try_except. intros e. apply never_raises_update. Qed.

Lemma never_raises_execute_type target value : never_raises (execute_type E target value).
Proof. apply never_raises_try_except. intros e. apply never_raises_update. Qed.

Lemma never_raises_execute_scroll : never_raises (execute_scroll E).
Proof. apply never_raises_try_except. intros e. apply never_raises_update. Qed.

Lemma never_raises_analyze_page shot mm goal hist url :
  never_raises (analyze_page E shot mm goal hist url).
Proof. apply never_raises_try_except. intros e. apply never_raises_ret. Qed.

Lemma never_raises_observer_node : never_raises (observer_node E).
Proof. apply never_raises_try_except. intros e. apply never_raises_update. Qed.

Lemma never_raises_reasoning_node : never_raises (reasoning_node E).
Proof. apply never_raises_try_except. intros e. apply never_raises_update. Qed.

Lemma never_raises_action_node : never_raises (action_node E).
Proof. apply never_raises_try_except. intros e. apply never_raises_update. Qed.

Lemma never_raises_try_selectors l : never_raises (try_selectors E l).
Proof.
  induction l as [|x l IH]; simpl; [apply never_raises_ret|].
  apply never_raises_bind.
  - apply never_raises_try_except. intros _. apply never_raises_ret.
  - intros [|]; [apply never_raises_ret | exact IH].
Qed.

End Totality.

(** ** The safety guard *)

Section SafetyGuard.
Context {W : Type} (E : Env W).






End SafetyGuard.

(** C2 (the code at the three inputs of the claim).  On a page classified
    checkout with confidence 0.9 the text "Place your order" gets
    [requires_approval = false]: none of the ten phrases is a substring of it.
    "Continue shopping" at 0.9 gets [false] and "Buy Now" at 0.1 gets [true],
    as the claim says. *)
Theorem check_before_click_three_cases :
  requires_approval <$> Scenario.verdict_on 0.9%float "Place your order" = Some false
  ∧ is_risky_element "Place your order" = false
  ∧ requires_approval <$> Scenario.verdict_on 0.9%float "Continue shopping" = Some false
  ∧ requires_approval <$> Scenario.verdict_on 0.1%float "Buy Now" = Some true.
Proof. repeat split; vm_compute; reflexivity. Qed.


(** ** The element registry *)

Section Registry.
Context {W : Type} (E : Env W).

Lemma markers_loop_lookup snap elements processed k markers j :
  markers_loop snap elements processed k markers !! j =
    if decide (k ≤ j) then
      match labelled_elements snap elements processed !! Z.to_nat (j - k) with
      | Some el => Some (js_element_info snap el)
      | None => markers !! j
      end
    else markers !! j.
Proof.
  revert processed k markers.
  induction elements as [|el rest IH]; intros processed k markers; simpl.
  - by destruct (decide (k ≤ j)).
  - destruct (bool_decide (el_node el ∈ processed)); [apply IH|].
    destruct (js_is_visible snap el); simpl; [|apply IH].
    rewrite IH.
    destruct (decide (k + 1 ≤ j)) as [H1|H1].
    + rewrite decide_True by lia.
      replace (Z.to_nat (j - k)) with (S (Z.to_nat (j - (k + 1)))) by lia. simpl.
      destruct (labelled_elements _ _ _ !! _); [done|].
      apply lookup_insert_ne. lia.
    + destruct (decide (k ≤ j)) as [H2|H2].
      * assert (j = k) as -> by lia. rewrite Z.sub_diag. simpl.
        apply lookup_insert_eq.
      * apply lookup_insert_ne. lia.
Qed.

Lemma markers_script_lookup snap j :
  markers_script snap !! j =
    if decide (1 ≤ j) then
      js_element_info snap <$> labelled_elements snap (dom_elements snap) ∅ !! Z.to_nat (j - 1)
    else None.
Proof.
  unfold markers_script. rewrite markers_loop_lookup.
  destruct (decide (1 ≤ j)); [|done].
  by destruct (labelled_elements _ _ _ !! _).
Qed.

(** C9 (what the code does).  Whenever the page URL can be read,
    [inject_markers] returns a label map.  When the marker script ran, the
    map holds one entry per element the script accepted (visible, not yet
    processed), numbered from 1 in traversal order without gaps: on an Amazon
    URL the keys are the integers 1..N; on any other URL they are the
    numerals of 1..N as strings, and no integer is a key.  When the script
    raised, the map is empty. *)
Theorem inject_markers_key_types (s : Sys W) (url : string) :
  page_url E (world s) = Val url →
  ∃ (markers_map : MarkersMap) (s' : Sys W),
    inject_markers E s = (Val markers_map, s')
    ∧ match page_markers_script E (world s) with
      | (Val snap, _) =>
          let accepted := labelled_elements snap (dom_elements snap) ∅ in
          if is_amazon_url E url then
            ∃ entries,
              markers_map = IntKeys entries
              ∧ (∀ k : Z, is_Some (entries !! k) ↔ 1 ≤ k ≤ Z.of_nat (length accepted))
              ∧ (∀ i : nat,
                   entries !! (Z.of_nat i + 1) =
                     (fun info => enhance_element_with_amazon_selectors E info url)
                       <$> (js_element_info snap <$> accepted !! i))
          else
            ∃ entries,
              markers_map = StrKeys entries
              ∧ (∀ key : string,
                   is_Some (entries !! key) ↔
                   ∃ k : Z, 1 ≤ k ≤ Z.of_nat (length accepted) ∧ key = pretty k)
              ∧ (∀ i : nat,
                   entries !! pretty (Z.of_nat i + 1) =
                     js_element_info snap <$> accepted !! i)
              ∧ (∀ n : Z, markers_get E markers_map (JInt n) = Val None)
      | (Exn _, _) => markers_map = IntKeys ∅
      end.
Proof.
  intros Hurl.
  unfold inject_markers, bind, try_except, call. rewrite Hurl. simpl.
  destruct (page_markers_script E (world s)) as [[snap|e] w'] eqn:Hs; simpl.
  2:{ by eexists _, _. }
  set (accepted := labelled_elements snap (dom_elements snap) ∅).
  assert (Hrange : ∀ k : Z,
             is_Some (markers_script snap !! k) ↔ 1 ≤ k ≤ Z.of_nat (length accepted)).
  { intros k. rewrite markers_script_lookup. fold accepted.
    destruct (decide (1 ≤ k)) as [Hk|Hk].
    - rewrite fmap_is_Some, lookup_lt_is_Some. lia.
    - split; [intros [? ?]; done | lia]. }
  assert (Hentry : ∀ i : nat,
             markers_script snap !! (Z.of_nat i + 1) =
               js_element_info snap <$> accepted !! i).
  { intros i. rewrite markers_script_lookup. fold accepted.
    rewrite decide_True by lia.
    by replace (Z.to_nat (Z.of_nat i + 1 - 1)) with i by lia. }
  destruct (is_amazon_url E url); simpl.
  - eexists _, _. split; [reflexivity|]. eexists. split; [reflexivity|]. split.
    + intros k. by rewrite lookup_fmap, fmap_is_Some.
    + intros i. by rewrite lookup_fmap, Hentry.
  - eexists _, _. split; [reflexivity|]. eexists. split; [reflexivity|].
    unfold evaluated_markers. split; [|split; [|done]].
    + intros key. rewrite lookup_kmap_is_Some by apply _. split.
      * intros (k & -> & Hk). exists k. split; [by apply Hrange | done].
      * intros (k & Hk & ->). exists k. split; [done | by apply Hrange].
    + intros i. rewrite lookup_kmap by apply _. apply Hentry.
Qed.

End Registry.

(** ** The target resolver *)

Section Resolver.
Context {W : Type} (E : Env W).

Lemma try_selectors_returns_candidate l s selector s' :
  try_selectors E l s = (Val (Some selector), s') → selector ∈ l.
Proof.
  revert s. induction l as [|x l IH]; intros s; simpl.
  - unfold ret. intros [=].
  - unfold bind at 1.
    destruct (try_except _ _ s) as [[[|]|e] s1]; simpl.
    + unfold ret. intros [= <- _]. apply list_elem_of_here.
    + intros H. apply list_elem_of_further. by eapply IH.
    + intros [=].
Qed.

Lemma candidate_selectors_stored info selector :
  selector ∈ candidate_selectors info →
  selector ∈ ei_selectors info
  ∨ (ei_selectors info = [] ∧ selector = ei_selector info).
Proof.
  unfold candidate_selectors.
  destruct (ei_selectors info) as [|a l] eqn:Hl.
  - intros H. right. split; [done|].
    apply list_elem_of_In, filter_In in H as [H _].
    apply list_elem_of_In in H. by apply list_elem_of_singleton in H.
  - intros H. left. apply list_elem_of_In, filter_In in H as [H _].
    by apply list_elem_of_In.
Qed.

Lemma candidate_selectors_truthy info selector :
  selector ∈ candidate_selectors info → Py.truthy selector = true.
Proof.
  unfold candidate_selectors. intros H.
  by apply list_elem_of_In, filter_In in H as [_ H].
Qed.


(** Every selector the resolver returns is one of the candidates of the
    entry, hence a non-empty string. *)
Lemma get_element_by_marker_candidate
    (markers_map : MarkersMap) (n : Json) (s s' : Sys W) (selector : string) :
  get_element_by_marker E markers_map n s = (Val (Some selector), s') →
  ∃ info, markers_get E markers_map n = Val (Some info)
          ∧ selector ∈ candidate_selectors info.
Proof.
  intros Hrun. unfold get_element_by_marker in Hrun.
  unfold bind at 1, lift in Hrun.
  destruct (markers_get E markers_map n) as [[info|]|e]; [|by inversion Hrun..].
  exists info. split; [done|].
  destruct (candidate_selectors info) as [|first rest] eqn:Hc; [by inversion Hrun|].
  unfold bind in Hrun.
  destruct (try_selectors E (first :: rest) s) as [[[found|]|e] s1] eqn:Ht.
  - inversion Hrun; subst. by eapply try_selectors_returns_candidate.
  - unfold try_except, call in Hrun.
    destruct (page_query_selector E first (world s1)) as [[[h|]|e] w1];
      inversion Hrun; subst. apply list_elem_of_here.
  - inversion Hrun.
Qed.

Lemma get_element_by_marker_found (markers_map : MarkersMap) (n : Json)
    (s s' : Sys W) (selector : string) :
  get_element_by_marker E markers_map n s = (Val (Some selector), s') →
  found_selector (Some selector) = Some selector.
Proof.
  intros Hrun. apply get_element_by_marker_candidate in Hrun as (info & _ & Hin).
  unfold found_selector. by rewrite (candidate_selectors_truthy info).
Qed.

(** C8 (as the code has it).  A selector the resolver returns for a label is
    one of the candidates it tries for that label: an element of the stored
    [selectors] list, or, when that list is empty, the stored primary
    [selector] of the entry. *)
Theorem get_element_by_marker_returns_stored_selector
    (markers_map : MarkersMap) (n : Json) (info : ElementInfo)
    (s s' : Sys W) (selector : string) :
  markers_get E markers_map n = Val (Some info) →
  get_element_by_marker E markers_map n s = (Val (Some selector), s') →
  selector ∈ ei_selectors info
  ∨ (ei_selectors info = [] ∧ selector = ei_selector info).
Proof.
  intros Hinfo Hrun. apply candidate_selectors_stored.
  apply get_element_by_marker_candidate in Hrun as (info' & Hinfo' & Hin).
  rewrite Hinfo in Hinfo'. by injection Hinfo' as <-.
Qed.


(** A label that is not in the map is not found, and the page is not touched. *)
Lemma get_element_by_marker_absent (markers_map : MarkersMap) (n : Json)
    (s : Sys W) :
  markers_get E markers_map n = Val None →
  get_element_by_marker E markers_map n s = (Val None, s).
Proof.
  intros H. unfold get_element_by_marker, bind, lift. by rewrite H.
Qed.

(** A list or a dictionary as label makes the resolver raise at the lookup,
    before any call. *)
Lemma get_element_by_marker_unhashable (markers_map : MarkersMap) (n : Json)
    (s : Sys W) e :
  markers_get E markers_map n = Exn e →
  get_element_by_marker E markers_map n s = (Exn e, s).
Proof.
  intros H. unfold get_element_by_marker, bind, lift. by rewrite H.
Qed.

End Resolver.
(** ** The action node *)

Section ActionNode.
Context {W : Type} (E : Env W).

Lemma same_agent_remove_markers : respects same_agent (remove_markers E).
Proof. unfold remove_markers. respects_auto. Qed.

Lemma never_raises_dispatch action_type target value :
  never_raises (dispatch E action_type target value).
Proof.
  unfold dispatch.
  repeat match goal with |- context [Py.is_str ?k ?x] => destruct (Py.is_str k x) end;
    auto using never_raises_execute_click, never_raises_execute_type,
      never_raises_execute_scroll, never_raises_update, never_raises_ret.
Qed.

Lemma frame_dispatch action_type target value :
  respects frame (dispatch E action_type target value).
Proof. unfold dispatch. respects_auto. Qed.

(** The log call of [action_node]: it raises exactly when the value is
    non-empty and cannot be sliced. *)
Lemma log_call_outcome (a : Action) (s : Sys W) :
  (if Py.truthy_value (action_get (act_value a))
   then check_slice E (action_get (act_value a))
   else ret tt) s =
  if value_loggable a then (Val tt, s)
  else (Exn (exception_text E (NotSubscriptable (action_get (act_value a)))), s).
Proof.
  unfold value_loggable, check_slice.
  by destruct (Py.truthy_value _), (Py.sliceable _).
Qed.

(** One run of [action_node] on a non-empty planned action, written out:
    the log call, the executor, the bookkeeping, the pause and the removal of
    the markers; or, when the log call raises, the error. *)
Lemma action_node_run (s : Sys W) (a : Action) :
  browser_set s = true →
  last_action (agent s) = Some a →
  action_truthy (Some a) = true →
  action_node E s =
    if value_loggable a then
      let '(_, s1) :=
        dispatch E (action_get (act_action a)) (action_get (act_target a))
                 (action_get (act_value a))
                 (mkSys (set_status executing (agent s)) (browser_set s)
                        (detection_cache s) (world s) (trace s)) in
      let '(_, w2) := page_remove_labels E (world s1) in
      (Val tt,
       mkSys (increment_iteration (add_action a (agent s1))) (browser_set s1)
             (detection_cache s1) w2
             ((trace s1 ++ [EvSleep 1]) ++ [EvRemoveMarkers]))
    else
      (Val tt,
       mkSys (set_error
                ("Action execution failed: "
                 +:+ exception_text E (NotSubscriptable (action_get (act_value a))))
                (set_status executing (agent s)))
             (browser_set s) (detection_cache s) (world s) (trace s)).
Proof.
  intros Hb Hla Ht.
  unfold action_node, try_except.
  unfold bind at 1. unfold update_state at 1.
  unfold bind at 1. unfold get_browser at 1. cbn [browser_set]. rewrite Hb.
  unfold bind at 1. unfold get_state at 1. cbn [agent].
  replace (last_action (set_status executing (agent s))) with (Some a) by done.
  rewrite Ht. cbn [negb].
  unfold bind at 1. rewrite log_call_outcome.
  destruct (value_loggable a); [|reflexivity].
  unfold bind at 1.
  match goal with |- context [dispatch E ?x ?y ?z ?s0] =>
    destruct (never_raises_dispatch x y z s0) as ([] & s1 & Hd); rewrite Hd
  end.
  unfold bind, update_state, sleep, remove_markers, try_except, call. simpl.
  by destruct (page_remove_labels E (world s1)) as [[[]|e] w2].
Qed.

(** What one run of [action_node] does to the counters and the history: with
    a browser and a non-empty planned action whose value can be logged it
    records that action once and counts one iteration; when the value cannot
    be logged it sets the error and records nothing; otherwise it records and
    counts nothing. *)
Lemma action_node_effect (s : Sys W) :
  ∃ s', action_node E s = (Val tt, s')
    ∧ max_iterations (agent s') = max_iterations (agent s)
    ∧ browser_set s' = browser_set s
    ∧ ((browser_set s = true
        ∧ ∃ a, last_action (agent s) = Some a
             ∧ action_truthy (Some a) = true
             ∧ value_loggable a = true
             ∧ action_history (agent s') = action_history (agent s) ++ [a]
             ∧ iterations (agent s') = iterations (agent s) + 1
             ∧ last_action (agent s') = Some a)
       ∨ (browser_set s = true
          ∧ ∃ a, last_action (agent s) = Some a
               ∧ action_truthy (Some a) = true
               ∧ value_loggable a = false
               ∧ action_history (agent s') = action_history (agent s)
               ∧ iterations (agent s') = iterations (agent s)
               ∧ status (agent s') = error)
       ∨ ((browser_set s = false ∨ action_truthy (last_action (agent s)) = false)
          ∧ action_history (agent s') = action_history (agent s)
          ∧ iterations (agent s') = iterations (agent s))).
Proof.
  destruct (browser_set s) eqn:Hb.
  2:{ unfold action_node, try_except.
      unfold bind at 1. unfold update_state at 1.
      unfold bind at 1. unfold get_browser at 1. cbn [browser_set]. rewrite Hb.
      simpl. eexists. split; [reflexivity|]. simpl. repeat split; try done.
      right. right. repeat split; try done. by left. }
  destruct (action_truthy (last_action (agent s))) eqn:Ht.
  2:{ unfold action_node, try_except.
      unfold bind at 1. unfold update_state at 1.
      unfold bind at 1. unfold get_browser at 1. cbn [browser_set]. rewrite Hb.
      unfold bind at 1. unfold get_state at 1. cbn [agent].
      replace (last_action (set_status executing (agent s)))
        with (last_action (agent s)) by done.
      rewrite Ht. simpl. eexists. split; [reflexivity|]. simpl.
      repeat split; try done. right. right. repeat split; try done. by right. }
  destruct (last_action (agent s)) as [a|] eqn:Hla; [|done].
  rewrite (action_node_run s a Hb Hla Ht).
  destruct (value_loggable a) eqn:Hlog.
  - match goal with |- context [dispatch E ?x ?y ?z ?s0] =>
      pose proof (frame_dispatch x y z s0) as Fr;
      destruct (dispatch E x y z s0) as [r1 s1]
    end.
    destruct Fr as (Fh & Fi & Fm & Fb). simpl in Fh, Fi, Fm, Fb.
    destruct (page_remove_labels E (world s1)) as [r2 w2].
    eexists. split; [reflexivity|]. simpl. rewrite Fm, Fh, Fi, Fb.
    repeat split; try done. left. split; [done|]. exists a. by repeat split.
  - eexists. split; [reflexivity|]. simpl. repeat split; try done.
    right. left. split; [done|]. exists a. by repeat split.
Qed.


End ActionNode.

(** ** The approval gate of [execute_click] *)

Section ApprovalGate.
Context {W : Type} (E : Env W).


(** The text of the approval request: the heading, then the order summary
    when the verdict carries a checkout detection, the reason otherwise. *)
Lemma approval_message_text (verdict : SafetyVerdict) :
  approval_message E verdict =
    AIMessage ("⚠️ APPROVAL REQUIRED" +:+ nl +:+ nl
               +:+ match checkout_info verdict with
                   | Some info => extract_order_summary E info
                   | None => reason verdict
                   end).
Proof. unfold approval_message. by destruct (checkout_info verdict). Qed.

Lemma execute_click_approval_branch
    (target : Json) (s s1 s2 : Sys W) (selector : string)
    (info : option ElementInfo) (verdict : SafetyVerdict) :
  get_element_by_marker E (markers_map (agent s)) target s = (Val (Some selector), s1) →
  markers_get E (markers_map (agent s)) target = Val info →
  check_before_click E (screenshot_base64 (agent s)) (element_text_of info) s1
    = (Val verdict, s2) →
  requires_approval verdict = true →
  ∃ s',
    execute_click E target s = (Val tt, s')
    ∧ approval_required (agent s') = true
    ∧ messages (agent s') =
        messages (agent s)
        ++ [AIMessage ("⚠️ APPROVAL REQUIRED" +:+ nl +:+ nl
                       +:+ match checkout_info verdict with
                           | Some info => extract_order_summary E info
                           | None => reason verdict
                           end)]
    ∧ action_history (agent s') = action_history (agent s)
    ∧ approval_granted (agent s') = approval_granted (agent s)
    ∧ status (agent s') = status (agent s)
    ∧ trace s' = trace s2
    ∧ world s' = world s2
    ∧ emitting no_click s s'.
Proof.
  intros Hres Hinfo Hchk Hreq.
  pose proof (same_agent_get_element_by_marker E (markers_map (agent s)) target s) as A1.
  pose proof (no_click_get_element_by_marker E (markers_map (agent s)) target s) as Q1.
  rewrite Hres in A1, Q1. simpl in A1, Q1.
  pose proof (same_agent_check_before_click E (screenshot_base64 (agent s))
                (element_text_of info) s1) as A2.
  pose proof (no_click_check_before_click E (screenshot_base64 (agent s))
                (element_text_of info) s1) as Q2.
  rewrite Hchk in A2, Q2. simpl in A2, Q2.
  destruct A1 as [A1 _], A2 as [A2 _].
  eexists. split.
  - unfold execute_click, try_except, bind at 1, get_state.
    unfold bind at 1. rewrite Hres.
    rewrite (get_element_by_marker_found E _ _ _ _ _ Hres).
    unfold bind at 1, lift. rewrite Hinfo.
    unfold bind at 1. rewrite Hchk. rewrite Hreq.
    unfold bind, update_state. simpl. reflexivity.
  - simpl. rewrite A2, A1, <- approval_message_text. repeat split; try done.
    etrans; [exact Q1 | exact Q2].
Qed.



(** The cycle of such a click: [action_node] records the action, counts the
    iteration, makes no click, and the conditional edge ends the run unless
    approval had been granted. *)
Lemma action_node_suspends_on_approval (s s1 s2 : Sys W) (a : Action)
    (selector : string) (info : option ElementInfo) (verdict : SafetyVerdict) :
  browser_set s = true →
  last_action (agent s) = Some a →
  act_action a = Some (JStr "click") →
  value_loggable a = true →
  get_element_by_marker E (markers_map (agent s)) (action_get (act_target a))
    (mkSys (set_status executing (agent s)) (browser_set s) (detection_cache s)
           (world s) (trace s)) = (Val (Some selector), s1) →
  markers_get E (markers_map (agent s)) (action_get (act_target a)) = Val info →
  check_before_click E (screenshot_base64 (agent s)) (element_text_of info) s1
    = (Val verdict, s2) →
  requires_approval verdict = true →
  ∃ s',
    action_node E s = (Val tt, s')
    ∧ approval_required (agent s') = true
    ∧ emitting no_click s s'
    ∧ (approval_granted (agent s) = false → route_after_action (agent s') = route_end).
Proof.
  intros Hb Hla Hclick Hlog Hres Hinfo Hchk Hreq.
  destruct (execute_click_approval_branch (action_get (act_target a))
              (mkSys (set_status executing (agent s)) (browser_set s)
                     (detection_cache s) (world s) (trace s))
              s1 s2 selector info verdict Hres Hinfo Hchk Hreq)
    as (sc & Hrun & Happ & _ & _ & Hgr & Hst & _ & _ & Hq).
  rewrite (action_node_run E s a Hb Hla) by (simpl; by rewrite Hclick).
  rewrite Hlog. unfold dispatch. rewrite Hclick.
  change (Py.is_str "click" (action_get (Some (JStr "click")))) with true.
  cbv iota. rewrite Hrun.
  destruct (page_remove_labels E (world sc)) as [r2 w2].
  eexists. split; [reflexivity|]. simpl. split; [exact Happ|]. split.
  - destruct Hq as (evs & Htr & Hf). simpl in Htr.
    exists (evs ++ [EvSleep 1] ++ [EvRemoveMarkers]). split.
    + simpl. rewrite Htr. by rewrite <- !app_assoc.
    + apply Forall_app. split; [done|]. by repeat constructor.
  - intros Hng. unfold route_after_action, should_stop, is_complete, last_action_is.
    simpl. rewrite Hclick. simpl. simpl in Hst. rewrite Hst. simpl.
    repeat case_bool_decide; try done.
    simpl in Hgr. by rewrite Happ, Hgr, Hng.
Qed.

End ApprovalGate.


(** ** The loop and its iteration budget *)

Section Loop.
Context {W : Type} (E : Env W).

Lemma run_graph_bound (fuel : nat) (s : Sys W) :
  iterations (agent s) < max_iterations (agent s) →
  ∃ stopped s',
    run_graph E fuel s = (Val stopped, s')
    ∧ iterations (agent s') ≤ max_iterations (agent s')
    ∧ max_iterations (agent s') = max_iterations (agent s)
    ∧ (stopped = true → should_stop (agent s') = true).
Proof.
  revert s. induction fuel as [|fuel IH]; intros s Hlt; simpl.
  - exists false, s. repeat split; [lia | done].
  - unfold bind at 1.
    destruct (never_raises_observer_node E s) as ([] & s1 & H1).
    pose proof (frame_observer_node E s) as F1. rewrite H1 in *.
    destruct F1 as (_ & Fi1 & Fm1 & _).
    unfold bind at 1.
    destruct (never_raises_reasoning_node E s1) as ([] & s2 & H2).
    pose proof (frame_reasoning_node E s1) as F2. rewrite H2 in *.
    destruct F2 as (_ & Fi2 & Fm2 & _).
    unfold bind at 1.
    destruct (action_node_effect E s2) as (s3 & H3 & Fm3 & _ & Hcase). rewrite H3.
    simpl in *.
    assert (iterations (agent s3) ≤ iterations (agent s) + 1
            ∧ max_iterations (agent s3) = max_iterations (agent s)) as [Hle Hm].
    { split; [|congruence].
      destruct Hcase as [(_ & a & _ & _ & _ & _ & Hi & _)
                        |[(_ & a & _ & _ & _ & _ & Hi & _)|(_ & _ & Hi)]];
        rewrite Hi; lia. }
    unfold bind, get_state, route_after_action.
    destruct (should_stop (agent s3)) eqn:Hstop.
    + exists true, s3. repeat split; [lia | done | done].
    + assert (iterations (agent s3) < max_iterations (agent s3)) as Hlt3.
      { unfold should_stop in Hstop.
        destruct (is_complete (agent s3)); [done|].
        case_bool_decide; [done | lia]. }
      destruct (IH s3 Hlt3) as (b & s' & Hr & Hb1 & Hb2 & Hb3).
      exists b, s'. repeat split; [done | done | congruence | done].
Qed.

(** C6 (as the code has it).  For a mission created with [iterations = 0] and
    [max_iterations >= 1], however many cycles the graph runs and whatever the
    page and the model do, the run returns with [iterations <= max_iterations]
    (and, when it reached END, with [should_stop] true); [increment_iteration]
    adds exactly 1, and [should_stop] is true whenever
    [iterations >= max_iterations]. *)
Theorem iterations_never_exceed_positive_budget
    (user_goal session_id initial_url : string) (budget : Z) (fuel : nat)
    (browser : bool) (cache : gmap string (Detection * float)) (w : W)
    (tr : list Event) :
  1 ≤ budget →
  (∃ stopped s',
     run_graph E fuel
       (mkSys (create_initial_state user_goal session_id initial_url budget)
              browser cache w tr) = (Val stopped, s')
     ∧ iterations (agent s') ≤ budget
     ∧ max_iterations (agent s') = budget
     ∧ (stopped = true → should_stop (agent s') = true))
  ∧ (∀ st, iterations (increment_iteration st) = iterations st + 1)
  ∧ (∀ st, max_iterations st ≤ iterations st → should_stop st = true).
Proof.
  intros Hpos. split; [|split].
  - destruct (run_graph_bound fuel
                (mkSys (create_initial_state user_goal session_id initial_url budget)
                       browser cache w tr)) as (b & s' & Hr & H1 & H2 & H3).
    { simpl. lia. }
    exists b, s'. simpl in H2. rewrite H2 in H1. by repeat split.
  - done.
  - intros st Hge. unfold should_stop.
    destruct (is_complete st); [done|]. by rewrite bool_decide_eq_true_2.
Qed.

End Loop.

(** ** A failing decision model *)

Section Oracle.
Context {W : Type} (E : Env W).

Lemma same_agent_generate_with_retry input :
  respects same_agent (generate_with_retry E input).
Proof. unfold generate_with_retry. respects_auto. Qed.
Hint Resolve same_agent_generate_with_retry : respects.

Lemma same_agent_one_attempt input : respects same_agent (one_attempt E input).
Proof. unfold one_attempt. respects_auto. Qed.
Hint Resolve same_agent_one_attempt : respects.

Lemma same_agent_attempt_loop input attempt remaining :
  respects same_agent (attempt_loop E input attempt remaining).
Proof.
  revert attempt. induction remaining as [|r IH]; intros attempt; simpl; respects_auto.
Qed.
Hint Resolve same_agent_attempt_loop : respects.

Lemma same_agent_analyze_page shot mm goal hist url :
  respects same_agent (analyze_page E shot mm goal hist url).
Proof. unfold analyze_page. respects_auto. Qed.

(** One turn of the loop of [analyze_page]: the attempt; when it fails and
    it was not the last one, the pause and the next turn; when the last one
    fails, its exception. *)
Lemma attempt_loop_turn input attempt remaining s :
  attempt_loop E input attempt (S remaining) s =
    match one_attempt E input s with
    | (Val action, s1) => (Val action, s1)
    | (Exn e, s1) =>
        if bool_decide (attempt < max_retries - 1)%nat
        then attempt_loop E input (S attempt) remaining
               (mkSys (agent s1) (browser_set s1) (detection_cache s1) (world s1)
                      (trace s1 ++ [EvSleep (2 ^ Z.of_nat attempt)]))
        else (Exn e, s1)
    end.
Proof.
  cbn [attempt_loop]. unfold bind at 1, try_except at 1, bind at 1.
  destruct (one_attempt E input s) as [[action|e] s1]; [reflexivity|].
  case_bool_decide; reflexivity.
Qed.

(** The schedule of the three attempts. *)
Lemma attempt_loop_schedule input s :
  attempt_loop E input 0 max_retries s =
    match one_attempt E input s with
    | (Val action, s1) => (Val action, s1)
    | (Exn _, s1) =>
        match one_attempt E input
                (mkSys (agent s1) (browser_set s1) (detection_cache s1) (world s1)
                       (trace s1 ++ [EvSleep 1])) with
        | (Val action, s2) => (Val action, s2)
        | (Exn _, s2) =>
            one_attempt E input
              (mkSys (agent s2) (browser_set s2) (detection_cache s2) (world s2)
                     (trace s2 ++ [EvSleep 2]))
        end
    end.
Proof.
  unfold max_retries. rewrite attempt_loop_turn.
  destruct (one_attempt E input s) as [[action|e] s1]; [reflexivity|].
  rewrite bool_decide_eq_true_2 by (unfold max_retries; lia).
  rewrite attempt_loop_turn.
  destruct (one_attempt E input _) as [[action|e2] s2]; [reflexivity|].
  rewrite bool_decide_eq_true_2 by (unfold max_retries; lia).
  rewrite attempt_loop_turn.
  destruct (one_attempt E input _) as [[action|e3] s3]; [reflexivity|].
  by rewrite bool_decide_eq_false_2 by (unfold max_retries; lia).
Qed.





(** C4 (as the code has it).  A click whose target is a non-empty value that
    is not a key of the current map, that carries a reasoning which is a text
    or a list, and whose value can be logged, passes [validate_action]; when
    the model answers with it, the attempt loop returns it after that single
    request, without a retry or a pause; [execute_click] treats it as a
    failure local to the action - it touches neither the page nor the
    counters and records the failure message; and [action_node] goes on to
    append the action to the history and count the iteration, without any
    click. *)
Theorem hallucinated_click_is_a_local_failure (a : Action) (t : Json) (s : Sys W) :
  act_action a = Some (JStr "click") →
  act_target a = Some t →
  Py.truthy_value t = true →
  Py.sliceable (action_get (act_reasoning a)) = true →
  value_loggable a = true →
  markers_get E (markers_map (agent s)) t = Val None →
  validate_action a = true
  ∧ (∀ input response w',
       generate_content E input false (world s) = (Val response, w') →
       parse_gemini_json E response = Val a →
       attempt_loop E input 0 max_retries s =
         (Val a, mkSys (agent s) (browser_set s) (detection_cache s) w'
                       (trace s ++ [EvGenerate])))
  ∧ execute_click E t s =
      (Val tt, mkSys (add_message (click_failed_message E t) (agent s))
                     (browser_set s) (detection_cache s) (world s) (trace s))
  ∧ (browser_set s = true →
     last_action (agent s) = Some a →
     ∃ s',
       action_node E s = (Val tt, s')
       ∧ action_history (agent s') = action_history (agent s) ++ [a]
       ∧ iterations (agent s') = iterations (agent s) + 1
       ∧ messages (agent s') = messages (agent s) ++ [click_failed_message E t]
       ∧ status (agent s') = executing
       ∧ trace s' = trace s ++ [EvSleep 1; EvRemoveMarkers]).
Proof.
  intros Hkind Htarget Htruthy Hslice Hlog Hnone.
  assert (Hvalid : validate_action a = true).
  { unfold validate_action. rewrite Hkind, Htarget.
    destruct (act_reasoning a) as [r|]; [|done]. simpl. by rewrite Htruthy. }
  assert (Hclick : ∀ s0 : Sys W,
             markers_map (agent s0) = markers_map (agent s) →
             execute_click E t s0 =
               (Val tt, mkSys (add_message (click_failed_message E t) (agent s0))
                              (browser_set s0) (detection_cache s0) (world s0)
                              (trace s0))).
  { intros s0 Hmm. unfold execute_click, try_except, bind at 1, get_state.
    unfold bind at 1. rewrite Hmm.
    by rewrite (get_element_by_marker_absent E _ _ _ Hnone). }
  split; [exact Hvalid|]. split; [|split].
  - intros input response w' Hgen Hparse.
    rewrite attempt_loop_schedule.
    unfold one_attempt at 1. unfold bind at 1.
    unfold generate_with_retry, try_except, call. rewrite Hgen.
    unfold bind at 1, lift. rewrite Hparse, Hvalid. cbn [negb].
    unfold bind, check_slice. by rewrite Hslice.
  - by apply Hclick.
  - intros Hb Hla.
    rewrite (action_node_run E s a Hb Hla) by (simpl; by rewrite Hkind).
    rewrite Hlog. unfold dispatch. rewrite Hkind, Htarget.
    change (Py.is_str "click" (action_get (Some (JStr "click")))) with true.
    cbv iota. cbn [action_get default]. rewrite Hclick by done.
    cbn [world]. destruct (page_remove_labels E (world s)) as [r2 w2].
    eexists. split; [reflexivity|]. simpl. by rewrite <- app_assoc.
Qed.

End Oracle.
(** ** Footprints on the state dictionary *)

#[global] Set Warnings "-clear-no-such-hyp".

#[global] Instance agent_rel_preorder {W} P `{!PreOrder P} : PreOrder (@agent_rel W P).
Proof.
  split.
  - intros s. split; reflexivity.
  - intros a b c [H1 B1] [H2 B2]. split; [by etrans | congruence].
Qed.

#[global] Instance executor_footprint_preorder : PreOrder executor_footprint.
Proof.
  split.
  - intros a. unfold executor_footprint. by repeat split.
  - intros a b c H1 H2. unfold executor_footprint in *.
    destruct H1 as (?&?&?&?&?&?&?&?&?&?&?&?&?&?).
    destruct H2 as (?&?&?&?&?&?&?&?&?&?&?&?&?&?).
    repeat split; try congruence; [by etrans | auto].
Qed.

#[global] Instance append_only_preorder : PreOrder append_only.
Proof.
  split.
  - intros a. unfold append_only. by repeat split.
  - intros a b c H1 H2. unfold append_only in *.
    destruct H1 as (?&?&?&?&?&?&?&?).
    destruct H2 as (?&?&?&?&?&?&?&?).
    repeat split; try congruence; [by etrans | by etrans | lia | auto].
Qed.

#[global] Instance keeps_plan_preorder : PreOrder keeps_plan.
Proof.
  split.
  - intros a. unfold keeps_plan. by repeat split.
  - intros a b c H1 H2. unfold keeps_plan in *.
    destruct H1 as (?&?&?&?&?&?). destruct H2 as (?&?&?&?&?&?).
    repeat split; congruence.
Qed.

Lemma executor_footprint_append_only a a' : executor_footprint a a' → append_only a a'.
Proof.
  intros (?&?&?&?&?&?&Hh&?&?&?&Hi&?&?&?). unfold append_only.
  repeat split; try done; [by rewrite Hh | lia].
Qed.

Section AgentRel.
Context {W : Type} (E : Env W) (P : relation AgentState) `{!PreOrder P}.

Lemma agent_rel_call {A} ev (op : W → Res A * W) : respects (agent_rel P) (call ev op).
Proof. intros s. unfold call. destruct (op (world s)). split; reflexivity. Qed.

Lemma agent_rel_sleep n : respects (@agent_rel W P) (sleep n).
Proof. intros s. split; reflexivity. Qed.

Lemma agent_rel_put_cache c : respects (@agent_rel W P) (put_cache c).
Proof. intros s. split; reflexivity. Qed.

Lemma agent_rel_get_browser : respects (@agent_rel W P) get_browser.
Proof. intros s. unfold get_browser. destruct (browser_set s); split; reflexivity. Qed.

Lemma agent_rel_update f : (∀ a, P a (f a)) → respects (@agent_rel W P) (update_state f).
Proof. intros Hf s. split; [apply Hf | reflexivity]. Qed.

Lemma agent_rel_of_same_agent {A} (m : M W A) :
  respects same_agent m → respects (agent_rel P) m.
Proof. intros H s. destruct (H s) as [Ha Hb]. split; [by rewrite Ha | done]. Qed.

End AgentRel.

Lemma agent_rel_mono {W A} (P Q : relation AgentState) (m : M W A) :
  (∀ a a', P a a' → Q a a') → respects (agent_rel P) m → respects (agent_rel Q) m.
Proof. intros HPQ H s. destruct (H s) as [Ha Hb]. split; [by apply HPQ | done]. Qed.

Ltac footprint_side :=
  let a := fresh "a" in
  intros a;
  try unfold executor_footprint; try unfold append_only; try unfold keeps_plan;
  simpl; repeat split; try done; try lia; try reflexivity;
  try (apply prefix_app_r; reflexivity).

Ltac agent_rel_step :=
  first
    [ solve [auto 1 with respects]
    | solve [eauto 2 with respects typeclass_instances]
    | apply agent_rel_call; apply _
    | apply agent_rel_sleep; apply _
    | apply agent_rel_put_cache; apply _
    | apply agent_rel_get_browser; apply _
    | apply agent_rel_update; first [solve [footprint_side] | apply _]
    | respects_step ].

Ltac agent_rel_auto := repeat agent_rel_step.

Section Footprints.
Context {W : Type} (E : Env W).

Lemma agent_rel_get_element_by_marker P `{!PreOrder P} mm n :
  respects (agent_rel P) (get_element_by_marker E mm n).
Proof. apply agent_rel_of_same_agent; [apply _|]. apply same_agent_get_element_by_marker. Qed.

Lemma agent_rel_check_before_click P `{!PreOrder P} shot text :
  respects (agent_rel P) (check_before_click E shot text).
Proof. apply agent_rel_of_same_agent; [apply _|]. apply same_agent_check_before_click. Qed.

Lemma agent_rel_click_with_fallbacks P `{!PreOrder P} sel :
  respects (agent_rel P) (click_with_fallbacks E sel).
Proof. unfold click_with_fallbacks. agent_rel_auto. Qed.

Lemma agent_rel_remove_markers P `{!PreOrder P} :
  respects (agent_rel P) (remove_markers E).
Proof. apply agent_rel_of_same_agent; [apply _|]. apply same_agent_remove_markers. Qed.

Lemma agent_rel_inject_markers P `{!PreOrder P} :
  respects (agent_rel P) (inject_markers E).
Proof. unfold inject_markers. agent_rel_auto. Qed.

Lemma agent_rel_scroll P `{!PreOrder P} n : respects (agent_rel P) (scroll E n).
Proof. unfold scroll. agent_rel_auto. Qed.

Lemma agent_rel_get_url P `{!PreOrder P} : respects (agent_rel P) (get_url E).
Proof. unfold get_url. agent_rel_auto. Qed.

Lemma agent_rel_take_screenshot P `{!PreOrder P} :
  respects (agent_rel P) (take_screenshot E).
Proof. unfold take_screenshot. agent_rel_auto. Qed.

Lemma agent_rel_analyze_page P `{!PreOrder P} shot mm goal hist url :
  respects (agent_rel P) (analyze_page E shot mm goal hist url).
Proof. apply agent_rel_of_same_agent; [apply _|]. apply same_agent_analyze_page. Qed.

Hint Resolve agent_rel_get_element_by_marker agent_rel_check_before_click
  agent_rel_click_with_fallbacks agent_rel_remove_markers agent_rel_inject_markers
  agent_rel_scroll agent_rel_get_url agent_rel_take_screenshot
  agent_rel_analyze_page : respects.

Lemma footprint_execute_click target :
  respects (agent_rel executor_footprint) (execute_click E target).
Proof. unfold execute_click. agent_rel_auto. Qed.

Lemma footprint_execute_type target value :
  respects (agent_rel executor_footprint) (execute_type E target value).
Proof. unfold execute_type. agent_rel_auto. Qed.

Lemma footprint_execute_scroll :
  respects (agent_rel executor_footprint) (execute_scroll E).
Proof. unfold execute_scroll. agent_rel_auto. Qed.

(** X1 (executors).  Whatever the page does, [execute_click], [execute_type]
    and [execute_scroll] change nothing in the state dictionary but the
    messages, to which they only append, and [approval_required], which they
    may set but never reset; the status, the planned action, the label map,
    the history and the counters are as before. *)
Theorem executors_only_append_messages
    (target value : Json) (s : Sys W) :
  agent_rel executor_footprint s (execute_click E target s).2
  ∧ agent_rel executor_footprint s (execute_type E target value s).2
  ∧ agent_rel executor_footprint s (execute_scroll E s).2.
Proof.
  split; [apply footprint_execute_click|].
  split; [apply footprint_execute_type | apply footprint_execute_scroll].
Qed.

Lemma append_only_execute_click target :
  respects (agent_rel append_only) (execute_click E target).
Proof.
  eapply agent_rel_mono; [apply executor_footprint_append_only|].
  apply footprint_execute_click.
Qed.

Lemma append_only_execute_type target value :
  respects (agent_rel append_only) (execute_type E target value).
Proof.
  eapply agent_rel_mono; [apply executor_footprint_append_only|].
  apply footprint_execute_type.
Qed.

Lemma append_only_execute_scroll :
  respects (agent_rel append_only) (execute_scroll E).
Proof.
  eapply agent_rel_mono; [apply executor_footprint_append_only|].
  apply footprint_execute_scroll.
Qed.

Hint Resolve append_only_execute_click append_only_execute_type
  append_only_execute_scroll : respects.

Lemma append_only_observer_node : respects (agent_rel append_only) (observer_node E).
Proof. unfold observer_node. agent_rel_auto. Qed.

Lemma append_only_reasoning_node : respects (agent_rel append_only) (reasoning_node E).
Proof. unfold reasoning_node. agent_rel_auto. Qed.

Lemma append_only_action_node : respects (agent_rel append_only) (action_node E).
Proof. unfold action_node, dispatch. agent_rel_auto. Qed.

Hint Resolve append_only_observer_node append_only_reasoning_node
  append_only_action_node : respects.

(** X2 (append-only run).  Over any number of cycles of the graph, whatever
    the page and the model do: [messages] and [action_history] only grow at
    the end, [iterations] never decreases, [approval_required] is never
    reset, and the goal, the session id, [max_iterations] and
    [approval_granted] keep their values. *)
Theorem run_graph_append_only (fuel : nat) (s : Sys W) :
  agent_rel append_only s (run_graph E fuel s).2.
Proof.
  revert s. change (respects (agent_rel append_only) (run_graph E fuel)).
  induction fuel as [|fuel IH]; simpl; agent_rel_auto.
Qed.

Lemma keeps_plan_observer_node : respects (agent_rel keeps_plan) (observer_node E).
Proof. unfold observer_node. agent_rel_auto. Qed.

End Footprints.


(** ** Status, progress and the stop conditions *)

Section Progress.
Context {W : Type} (E : Env W).

Lemma is_str_eq kind x : Py.is_str kind x = true → x = JStr kind.
Proof.
  destruct x; simpl; try done. intros H. by apply bool_decide_eq_true_1 in H as ->.
Qed.

Lemma is_str_refl kind : Py.is_str kind (JStr kind) = true.
Proof. simpl. by apply bool_decide_eq_true_2. Qed.

(** The executors leave status and error text alone; [done] sets the status. *)
Lemma dispatch_status action_type target value (s0 : Sys W) :
  error_msg (agent (dispatch E action_type target value s0).2) = error_msg (agent s0)
  ∧ status (agent (dispatch E action_type target value s0).2) =
      if Py.is_str "done" action_type then complete else status (agent s0).
Proof.
  unfold dispatch.
  destruct (Py.is_str "click" action_type) eqn:H1.
  { apply is_str_eq in H1 as ->. simpl.
    destruct (footprint_execute_click E target s0)
      as ((?&?&?&?&?&?&?&?&?&?&?&?&?&?)&_). done. }
  destruct (Py.is_str "type" action_type) eqn:H2.
  { apply is_str_eq in H2 as ->. simpl.
    destruct (footprint_execute_type E target value s0)
      as ((?&?&?&?&?&?&?&?&?&?&?&?&?&?)&_). done. }
  destruct (Py.is_str "scroll" action_type) eqn:H3.
  { apply is_str_eq in H3 as ->. simpl.
    destruct (footprint_execute_scroll E s0)
      as ((?&?&?&?&?&?&?&?&?&?&?&?&?&?)&_). done. }
  destruct (Py.is_str "done" action_type); done.
Qed.

(** X3 (status after the action node).  With the browser set, [action_node]
    ends with status [complete] exactly when the planned action is a
    non-empty [done] whose value can be logged, with status [error] and the
    cause as error text when the planned action is non-empty and its value
    cannot be logged, and with status [executing] otherwise; in the cases
    without error it never touches the error text, whatever the status was
    before and whether the action failed, so an error recorded earlier in the
    cycle is masked.  Without a browser it sets [error] with the cause. *)
Theorem action_node_status (s : Sys W) :
  ∃ s',
    action_node E s = (Val tt, s')
    ∧ (browser_set s = true →
       match last_action (agent s) with
       | Some a =>
           if action_truthy (Some a) && negb (value_loggable a) then
             status (agent s') = error
             ∧ error_msg (agent s') =
                 Some ("Action execution failed: "
                       +:+ exception_text E
                             (NotSubscriptable (action_get (act_value a))))
           else
             error_msg (agent s') = error_msg (agent s)
             ∧ status (agent s') =
                 if action_truthy (Some a)
                    && Py.is_str "done" (action_get (act_action a))
                 then complete else executing
       | None =>
           error_msg (agent s') = error_msg (agent s)
           ∧ status (agent s') = executing
       end)
    ∧ (browser_set s = false →
       status (agent s') = error
       ∧ error_msg (agent s') =
           Some "Action execution failed: Browser not initialized. Call set_browser() first.").
Proof.
  destruct (browser_set s) eqn:Hb.
  2:{ unfold action_node, try_except.
      unfold bind at 1. unfold update_state at 1.
      unfold bind at 1. unfold get_browser at 1. cbn [browser_set]. rewrite Hb.
      simpl. eexists. split; [reflexivity|]. by split. }
  assert (Hidle : action_truthy (last_action (agent s)) = false →
            ∃ s', action_node E s = (Val tt, s')
                  ∧ error_msg (agent s') = error_msg (agent s)
                  ∧ status (agent s') = executing).
  { intros Ht. unfold action_node, try_except.
    unfold bind at 1. unfold update_state at 1.
    unfold bind at 1. unfold get_browser at 1. cbn [browser_set]. rewrite Hb.
    unfold bind at 1. unfold get_state at 1. cbn [agent].
    replace (last_action (set_status executing (agent s)))
      with (last_action (agent s)) by done.
    rewrite Ht. eexists. split; [reflexivity|]. by split. }
  destruct (last_action (agent s)) as [a|] eqn:Hla.
  2:{ destruct (Hidle eq_refl) as (s' & -> & ? & ?). exists s'. by repeat split. }
  destruct (action_truthy (Some a)) eqn:Ht.
  2:{ destruct (Hidle eq_refl) as (s' & -> & ? & ?). exists s'.
      split; [done|]. split; [|done]. intros _. by split. }
  rewrite (action_node_run E s a Hb Hla Ht).
  destruct (value_loggable a) eqn:Hlog; cbn [negb andb].
  - match goal with |- context [dispatch E ?x ?y ?z ?s0] =>
      pose proof (dispatch_status x y z s0) as [Fe Fs];
      destruct (dispatch E x y z s0) as [r1 s1]
    end.
    simpl in Fe, Fs.
    destruct (page_remove_labels E (world s1)) as [r2 w2].
    eexists. split; [reflexivity|]. split; [|done]. intros _. simpl.
    rewrite Fe, Fs. split; [done|].
    by destruct (Py.is_str "done" (action_get (act_action a))).
  - eexists. split; [reflexivity|]. split; [|done]. intros _. by split.
Qed.

Lemma validate_action_truthy a : validate_action a = true → action_truthy (Some a) = true.
Proof.
  unfold validate_action, action_truthy.
  destruct (act_action a); [|done]. intros _. reflexivity.
Qed.

Lemma one_attempt_valid input s a s' :
  one_attempt E input s = (Val a, s') →
  validate_action a = true
  ∧ Py.sliceable (action_get (act_reasoning a)) = true
  ∧ ∃ response, parse_gemini_json E response = Val a.
Proof.
  unfold one_attempt. unfold bind at 1.
  destruct (generate_with_retry E input s) as [[response|e] s1]; [|intros [=]].
  unfold bind at 1, lift.
  destruct (parse_gemini_json E response) as [a0|e] eqn:Hp; [|intros [=]].
  destruct (validate_action a0) eqn:Hv; cbn [negb]; [|intros [=]].
  unfold bind, check_slice.
  destruct (Py.sliceable (action_get (act_reasoning a0))) eqn:Hs;
    unfold ret, raise; intros [= <- _]. eauto.
Qed.

Lemma attempt_loop_valid input remaining attempt s a s' :
  attempt_loop E input attempt remaining s = (Val a, s') →
  validate_action a = true
  ∧ Py.sliceable (action_get (act_reasoning a)) = true
  ∧ ∃ response, parse_gemini_json E response = Val a.
Proof.
  revert attempt s. induction remaining as [|r IH]; intros attempt s.
  - intros [=].
  - rewrite attempt_loop_turn.
    destruct (one_attempt E input s) as [[a0|e] s1] eqn:H1.
    + intros [= <- <-]. by eapply one_attempt_valid.
    + case_bool_decide; [apply IH | intros [=]].
Qed.

(** What [analyze_page] returns: a parsed and validated answer of the model,
    or the fallback. *)
Lemma analyze_page_plannable
    (shot : string) (mm : MarkersMap) (goal : string)
    (hist : list Action) (url : string) (s : Sys W) :
  ∃ a s',
    analyze_page E shot mm goal hist url s = (Val a, s')
    ∧ validate_action a = true
    ∧ Py.sliceable (action_get (act_reasoning a)) = true
    ∧ ((∃ e, a = fallback_action e)
       ∨ ∃ response, parse_gemini_json E response = Val a).
Proof.
  unfold analyze_page, try_except. unfold bind at 1.
  destruct (call [] (base64_to_image E shot) s) as [[[]|e] s1].
  - match goal with |- context [attempt_loop E ?i ?att ?r s1] =>
      destruct (attempt_loop E i att r s1) as [[a|e] s2] eqn:Hl
    end.
    + exists a, s2. split; [done|].
      destruct (attempt_loop_valid _ _ _ _ _ _ Hl) as (? & ? & ?). eauto.
    + eexists _, _. split; [done|]. repeat split; eauto.
  - eexists _, _. split; [done|]. repeat split; eauto.
Qed.

Lemma analyze_page_valid
    (shot : string) (mm : MarkersMap) (goal : string)
    (hist : list Action) (url : string) (s : Sys W) :
  ∃ a s',
    analyze_page E shot mm goal hist url s = (Val a, s')
    ∧ validate_action a = true.
Proof.
  destruct (analyze_page_plannable shot mm goal hist url s) as (a & s' & H & Hv & _).
  by exists a, s'.
Qed.

(** X4 (validated decisions).  [analyze_page] never raises, and every action
    it returns passes [validate_action]: either the model's answer was
    validated in the attempt loop, or it is the fallback [done], which is
    valid too.  [reasoning_node] therefore never stores an unvalidated
    action. *)
Theorem analyze_page_returns_valid_action
    (shot : string) (mm : MarkersMap) (goal : string)
    (hist : list Action) (url : string) (s : Sys W) :
  ∃ a s',
    analyze_page E shot mm goal hist url s = (Val a, s')
    ∧ validate_action a = true.
Proof. apply analyze_page_valid. Qed.

Lemma validate_action_keys a :
  validate_action a = true →
  ∃ kind why, act_action a = Some kind ∧ act_reasoning a = Some why.
Proof.
  unfold validate_action.
  destruct (act_action a) as [kind|], (act_reasoning a) as [why|]; try done.
  eauto.
Qed.

Lemma reasoning_node_plans (s : Sys W) w1 :
  vision_analyzer E (world s) = (Val tt, w1) →
  ∃ a s',
    reasoning_node E s = (Val tt, s')
    ∧ last_action (agent s') = Some a
    ∧ validate_action a = true.
Proof.
  intros Hw.
  unfold reasoning_node, try_except.
  unfold bind at 1. unfold update_state at 1.
  unfold bind at 1. unfold call at 1. simpl. rewrite Hw.
  unfold bind at 1. unfold get_state at 1. simpl.
  unfold bind at 1.
  match goal with |- context [analyze_page E ?a ?b ?c ?d ?u ?s0] =>
    destruct (analyze_page_plannable a b c d u s0)
      as (act & s' & Han & Hv & Hs & _)
  end.
  rewrite Han.
  destruct (validate_action_keys act Hv) as (kind & why & Hk & Hy).
  rewrite Hy in Hs. cbn [action_get default from_option id] in Hs.
  unfold bind at 1. unfold update_state at 1.
  unfold bind at 1. unfold update_state at 1.
  unfold bind at 1. unfold check_slice at 1.
  rewrite Hy. cbn [default from_option id]. rewrite Hs. unfold ret at 1.
  exists act.
  destruct (Py.is_str "done" (default (JStr "unknown") (act_action act)));
    unfold update_state, ret; simpl;
    (eexists; split; [reflexivity|]); simpl; done.
Qed.

End Progress.


Section Liveness.
Context {W : Type} (E : Env W).

(** X5 (the run stops within its budget).  With the browser set and the vision
    analyzer available, a cycle plans a validated action and then either
    appends it to the history and counts one iteration, or - when the value
    of the action cannot be logged - records nothing, sets status [error]
    and ends the run at once.  So a run with at least as many cycles of fuel
    as the budget has iterations left (and at least one) reaches END. *)
Theorem run_graph_stops_within_budget (fuel : nat) (s : Sys W) :
  browser_set s = true →
  (∀ w, ∃ w', vision_analyzer E w = (Val tt, w')) →
  (1 ≤ fuel)%nat →
  max_iterations (agent s) - iterations (agent s) ≤ Z.of_nat fuel →
  (∃ s1 s2 s3 a,
     observer_node E s = (Val tt, s1)
     ∧ reasoning_node E s1 = (Val tt, s2)
     ∧ last_action (agent s2) = Some a
     ∧ validate_action a = true
     ∧ action_node E s2 = (Val tt, s3)
     ∧ if value_loggable a
       then action_history (agent s3) = action_history (agent s) ++ [a]
            ∧ iterations (agent s3) = iterations (agent s) + 1
       else action_history (agent s3) = action_history (agent s)
            ∧ iterations (agent s3) = iterations (agent s)
            ∧ status (agent s3) = error
            ∧ route_after_action (agent s3) = route_end)
  ∧ ∃ s', run_graph E fuel s = (Val true, s')
          ∧ should_stop (agent s') = true.
Proof.
  intros Hb Hva.
  assert (Hstop : ∀ st : AgentState, status st = error → should_stop st = true).
  { intros st Hst. unfold should_stop.
    destruct (is_complete st); [done|].
    case_bool_decide; [done|]. by rewrite bool_decide_eq_true_2. }
  assert (Hcycle : ∀ s : Sys W, browser_set s = true →
            ∃ s1 s2 s3 a,
              observer_node E s = (Val tt, s1)
              ∧ reasoning_node E s1 = (Val tt, s2)
              ∧ last_action (agent s2) = Some a
              ∧ validate_action a = true
              ∧ action_node E s2 = (Val tt, s3)
              ∧ (if value_loggable a
                 then action_history (agent s3) = action_history (agent s) ++ [a]
                      ∧ iterations (agent s3) = iterations (agent s) + 1
                 else action_history (agent s3) = action_history (agent s)
                      ∧ iterations (agent s3) = iterations (agent s)
                      ∧ status (agent s3) = error
                      ∧ route_after_action (agent s3) = route_end)
              ∧ max_iterations (agent s3) = max_iterations (agent s)
              ∧ browser_set s3 = true
              ∧ (iterations (agent s3) = iterations (agent s) + 1
                 ∨ should_stop (agent s3) = true)).
  { clear s Hb. intros s Hb.
    destruct (never_raises_observer_node E s) as ([] & s1 & H1).
    pose proof (frame_observer_node E s) as F1. rewrite H1 in F1.
    destruct F1 as (Fh1 & Fi1 & Fm1 & Fb1). simpl in *.
    destruct (Hva (world s1)) as (w1 & Hw1).
    destruct (reasoning_node_plans E s1 w1 Hw1) as (a & s2 & H2 & Hla & Hvalid).
    pose proof (frame_reasoning_node E s1) as F2. rewrite H2 in F2.
    destruct F2 as (Fh2 & Fi2 & Fm2 & Fb2). simpl in *.
    destruct (action_node_effect E s2) as (s3 & H3 & Hm & Hb3 & Hcase).
    pose proof (validate_action_truthy a Hvalid) as Ht.
    exists s1, s2, s3, a.
    destruct Hcase as [(_ & a' & Ha' & _ & Hyes & Hh & Hi & _)
                      |[(_ & a' & Ha' & _ & Hno & Hh & Hi & Hst)|([Hf|Hf] & _)]].
    - assert (a' = a) as -> by congruence. rewrite Hyes.
      repeat split; try done; try congruence. left. congruence.
    - assert (a' = a) as -> by congruence. rewrite Hno.
      repeat split; try done; try congruence.
      + unfold route_after_action. by rewrite (Hstop _ Hst).
      + right. by apply Hstop.
    - congruence.
    - rewrite Hla in Hf. congruence. }
  intros Hfuel Hbudget. split.
  { destruct (Hcycle s Hb) as (s1 & s2 & s3 & a & ? & ? & ? & ? & ? & ? & _).
    by exists s1, s2, s3, a. }
  revert s Hb Hfuel Hbudget.
  induction fuel as [|fuel IH]; intros s Hb Hfuel Hbudget; [lia|]. simpl.
  destruct (Hcycle s Hb)
    as (s1 & s2 & s3 & a & H1 & H2 & _ & _ & H3 & _ & Hm & Hb3 & Hi).
  unfold bind at 1. rewrite H1.
  unfold bind at 1. rewrite H2.
  unfold bind at 1. rewrite H3.
  unfold bind, get_state, route_after_action.
  destruct (should_stop (agent s3)) eqn:Hstop3.
  - by exists s3.
  - destruct Hi as [Hi|Hi]; [|congruence].
    assert (iterations (agent s3) < max_iterations (agent s3)) as Hlt3.
    { unfold should_stop in Hstop3.
      destruct (is_complete (agent s3)); [done|].
      case_bool_decide; [done | lia]. }
    apply IH; [done | lia | lia].
Qed.

Lemma action_node_idle (s : Sys W) :
  browser_set s = true →
  action_truthy (last_action (agent s)) = false →
  action_node E s =
    (Val tt, mkSys (set_status executing (agent s)) (browser_set s)
                   (detection_cache s) (world s) (trace s)).
Proof.
  intros Hb Ht.
  unfold action_node, try_except.
  unfold bind at 1. unfold update_state at 1.
  unfold bind at 1. unfold get_browser at 1. simpl. rewrite Hb.
  unfold bind at 1. unfold get_state at 1. simpl. rewrite Ht. reflexivity.
Qed.

(** X6 (a masked failure keeps the loop running).  If the vision analyzer can
    never be obtained, a mission that has no planned action yet, needs no
    approval and has budget left never reaches END, however many cycles it
    is given: [reasoning_node] records the failure, [action_node] overwrites
    the [error] status with [executing] and returns without counting an
    iteration, and no stop condition holds.  History and counter stay as
    they were. *)
Theorem run_graph_never_stops_without_analyzer (fuel : nat) (s : Sys W) :
  (∀ w, ∃ e w', vision_analyzer E w = (Exn e, w')) →
  browser_set s = true →
  last_action (agent s) = None →
  approval_required (agent s) = false →
  iterations (agent s) < max_iterations (agent s) →
  ∃ s',
    run_graph E fuel s = (Val false, s')
    ∧ iterations (agent s') = iterations (agent s)
    ∧ action_history (agent s') = action_history (agent s)
    ∧ ((1 ≤ fuel)%nat →
       status (agent s') = executing
       ∧ ∃ e, error_msg (agent s') = Some ("Reasoning failed: " +:+ e)).
Proof.
  intros Hva. revert s.
  induction fuel as [|fuel IH]; intros s Hb Hla Hap Hlt; simpl.
  - exists s. split; [done|]. split; [done|]. split; [done|]. lia.
  - unfold bind at 1.
    destruct (never_raises_observer_node E s) as ([] & s1 & H1).
    pose proof (keeps_plan_observer_node E s) as F1. rewrite H1 in *.
    destruct F1 as ((Pl & Pr & Pg & Ph & Pi & Pm) & Fb1). simpl in *.
    unfold bind at 1.
    assert (∃ e w1, reasoning_node E s1 =
              (Val tt, mkSys (set_error ("Reasoning failed: " +:+ e)
                                (set_status reasoning (agent s1)))
                             (browser_set s1) (detection_cache s1) w1 (trace s1)))
      as (e & w1 & H2).
    { destruct (Hva (world s1)) as (e & w1 & Hw).
      exists e, w1. unfold reasoning_node, try_except.
      unfold bind at 1. unfold update_state at 1.
      unfold bind at 1. unfold call at 1. simpl. rewrite Hw.
      unfold update_state. simpl. by rewrite app_nil_r. }
    rewrite H2.
    unfold bind at 1.
    rewrite action_node_idle; simpl; [| congruence | by rewrite Pl, Hla].
    unfold bind at 1, get_state at 1, route_after_action, should_stop, is_complete.
    simpl. rewrite Pl, Hla, Pr, Hap, Pi, Pm. simpl.
    rewrite bool_decide_eq_false_2 by lia.
    match goal with |- context [run_graph E fuel ?s3] =>
      destruct (IH s3) as (s' & Hr & Hi & Hh & Hst)
    end; simpl; try congruence.
    exists s'. split; [exact Hr|]. simpl in Hi, Hh.
    split; [congruence|]. split; [congruence|].
    intros _. destruct fuel as [|fuel'].
    + simpl in Hr. injection Hr as <-. simpl. split; [done|]. by exists e.
    + apply Hst. lia.
Qed.

End Liveness.


(** ** Retries, the detection cache, probes and the executors *)

Section Calls.
Context {W : Type} (E : Env W).

Lemma generate_with_retry_run (input : OracleInput) (s : Sys W) :
  generate_with_retry E input s =
    match generate_content E input false (world s) with
    | (Val response, w1) => (Val response, after s w1 [EvGenerate])
    | (Exn e, w1) =>
        if rate_limited e then (Exn e, after s w1 [EvGenerate; EvSleep 5])
        else if Py.contains "InvalidArgument" e then
          match resize_image E (oi_screenshot input) w1 with
          | (Val _, w2) =>
              (let '(r2, w3) := generate_content E input true w2 in
               (r2, after s w3 [EvGenerate; EvGenerate]))
          | (Exn e2, w2) => (Exn e2, after s w2 [EvGenerate])
          end
        else (Exn e, after s w1 [EvGenerate])
    end.
Proof.
  unfold generate_with_retry, try_except, call at 1, after, rate_limited.
  destruct (generate_content E input false (world s)) as [[response|e] w1];
    [reflexivity|].
  destruct (Py.contains "ResourceExhausted" e || Py.contains "429" e).
  { unfold bind, sleep, raise. cbn. by rewrite <- app_assoc. }
  destruct (Py.contains "InvalidArgument" e); [|reflexivity].
  unfold bind, call. cbn.
  destruct (resize_image E (oi_screenshot input) w1) as [[[]|e2] w2]; cbn.
  - destruct (generate_content E input true w2) as [r2 w3].
    by rewrite app_nil_r, <- app_assoc.
  - by rewrite app_nil_r.
Qed.

Lemma one_attempt_requests (input : OracleInput) (s : Sys W) :
  ∃ r, r ∈ request_traces
       ∧ trace (one_attempt E input s).2 = trace s ++ r.
Proof.
  assert (Hrest : ∀ (res : Res string) (s1 : Sys W),
            trace (match res with
                   | Val response =>
                       (let* action := lift (parse_gemini_json E response) in
                        if negb (validate_action action)
                        then raise "Invalid action structure"
                        else run check_slice E (action_get (act_reasoning action)) in
                             ret action) s1
                   | Exn e => (Exn e, s1)
                   end).2 = trace s1).
  { intros [response|e] s1; [|done].
    unfold bind at 1, lift.
    destruct (parse_gemini_json E response) as [a|e]; [|done].
    destruct (validate_action a); cbn [negb]; [|done].
    unfold bind, check_slice.
    by destruct (Py.sliceable (action_get (act_reasoning a))). }
  unfold one_attempt. unfold bind at 1. rewrite generate_with_retry_run.
  unfold request_traces.
  destruct (generate_content E input false (world s)) as [[response|e] w1].
  { exists [EvGenerate]. split; [set_solver|]. apply (Hrest (Val response)). }
  destruct (rate_limited e).
  { exists [EvGenerate; EvSleep 5]. split; [set_solver|]. done. }
  destruct (Py.contains "InvalidArgument" e).
  2:{ exists [EvGenerate]. split; [set_solver|]. done. }
  destruct (resize_image E (oi_screenshot input) w1) as [[[]|e2] w2].
  2:{ exists [EvGenerate]. split; [set_solver|]. done. }
  destruct (generate_content E input true w2) as [r2 w3].
  exists [EvGenerate; EvGenerate]. split; [set_solver|]. apply (Hrest r2).
Qed.

(** X7 (retry policy).  [_generate_with_retry] makes one request; after a
    rate limit it pauses five seconds and raises again; after an
    [InvalidArgument] it makes a second request with the halved image, whose
    outcome is final; any other error is raised as it is.  [analyze_page]
    leaves the state dictionary alone and makes at most three attempts,
    stopping at the first that succeeds, with a pause of 1 s after a failed
    first attempt and of 2 s after a failed second one; the outcome of the
    third is final and no pause follows it.  So its calls are: none (the
    screenshot could not be decoded), one attempt, two attempts around a
    pause of 1 s, or three around pauses of 1 s and 2 s. *)
Theorem analyze_page_backoff
    (shot : string) (mm : MarkersMap) (goal : string)
    (hist : list Action) (url : string) (input : OracleInput) (s : Sys W) :
  generate_with_retry E input s =
    match generate_content E input false (world s) with
    | (Val response, w1) => (Val response, after s w1 [EvGenerate])
    | (Exn e, w1) =>
        if rate_limited e then (Exn e, after s w1 [EvGenerate; EvSleep 5])
        else if Py.contains "InvalidArgument" e then
          match resize_image E (oi_screenshot input) w1 with
          | (Val _, w2) =>
              (let '(r2, w3) := generate_content E input true w2 in
               (r2, after s w3 [EvGenerate; EvGenerate]))
          | (Exn e2, w2) => (Exn e2, after s w2 [EvGenerate])
          end
        else (Exn e, after s w1 [EvGenerate])
    end
  ∧ attempt_loop E input 0 max_retries s =
      match one_attempt E input s with
      | (Val action, s1) => (Val action, s1)
      | (Exn _, s1) =>
          match one_attempt E input (after s1 (world s1) [EvSleep 1]) with
          | (Val action, s2) => (Val action, s2)
          | (Exn _, s2) => one_attempt E input (after s2 (world s2) [EvSleep 2])
          end
      end
  ∧ agent (analyze_page E shot mm goal hist url s).2 = agent s
  ∧ ∃ evs,
      trace (analyze_page E shot mm goal hist url s).2 = trace s ++ evs
      ∧ backoff evs.
Proof.
  split; [apply generate_with_retry_run|].
  split; [apply attempt_loop_schedule|].
  split; [apply (same_agent_analyze_page E shot mm goal hist url s)|].
  unfold analyze_page, try_except. unfold bind at 1. unfold call at 1.
  destruct (base64_to_image E shot (world s)) as [[[]|e0] w0].
  2:{ exists []. split; [done|]. by left. }
  rewrite attempt_loop_schedule.
  match goal with |- context [one_attempt E ?i ?s0] =>
    destruct (one_attempt_requests i s0) as (r1 & Hr1 & H1);
    destruct (one_attempt E i s0) as [[a1|e1] s1]
  end; cbn [snd trace] in H1; rewrite app_nil_r in H1.
  { exists r1. split; [done|]. right. exists r1, r1, r1. by eauto. }
  match goal with |- context [one_attempt E ?i ?s0] =>
    destruct (one_attempt_requests i s0) as (r2 & Hr2 & H2);
    destruct (one_attempt E i s0) as [[a2|e2] s2]
  end; cbn [snd trace] in H2; rewrite H1, <- !app_assoc in H2.
  { exists (r1 ++ [EvSleep 1] ++ r2). split; [done|].
    right. exists r1, r2, r2. by eauto 10. }
  match goal with |- context [one_attempt E ?i ?s0] =>
    destruct (one_attempt_requests i s0) as (r3 & Hr3 & H3);
    destruct (one_attempt E i s0) as [[a3|e3] s3]
  end; cbn [snd trace] in H3; rewrite H2, <- !app_assoc in H3;
    (exists (r1 ++ [EvSleep 1] ++ r2 ++ [EvSleep 2] ++ r3); split; [done|];
     right; exists r1, r2, r3; by eauto 10).
Qed.

(** X8 (cache hit).  When the page URL has a cache entry younger than
    [CACHE_TTL], [is_checkout_page] returns the cached detection - whatever
    screenshot it is given - without asking the classifier and without
    changing the cache. *)
Theorem is_checkout_page_cache_hit
    (shot url : string) (s : Sys W) (now cached_time : float) (w1 : W)
    (cached : Detection) :
  page_url E (world s) = Val url →
  time_time E (world s) = (now, w1) →
  detection_cache s !! url = Some (cached, cached_time) →
  PrimFloat.ltb (PrimFloat.sub now cached_time) CACHE_TTL = true →
  is_checkout_page E shot s =
    (Val cached, mkSys (agent s) (browser_set s) (detection_cache s) w1 (trace s)).
Proof.
  intros Hurl Htime Hcache Hfresh.
  unfold is_checkout_page, try_except, bind, call, get_cache. simpl.
  rewrite Hurl. simpl. rewrite Htime. simpl.
  rewrite Hcache, Hfresh. unfold ret. by rewrite !app_nil_r.
Qed.

Lemma is_checkout_page_miss
    (shot url : string) (s : Sys W) (now : float) (w1 w2 : W) :
  page_url E (world s) = Val url →
  time_time E (world s) = (now, w1) →
  match detection_cache s !! url with
  | Some (_, cached_time) =>
      PrimFloat.ltb (PrimFloat.sub now cached_time) CACHE_TTL = false
  | None => True
  end →
  vision_analyzer E w1 = (Val tt, w2) →
  ∃ d s1 s',
    detect_checkout_page E shot
      (mkSys (agent s) (browser_set s) (detection_cache s) w2 (trace s)) = (Val d, s1)
    ∧ is_checkout_page E shot s = (Val d, s')
    ∧ detection_cache s' = <[url := (d, now)]> (detection_cache s)
    ∧ detection_cache s' !! url = Some (d, now)
    ∧ agent s' = agent s.
Proof.
  intros Hurl Htime Hmiss Hva.
  destruct (never_raises_detect_checkout_page E shot
              (mkSys (agent s) (browser_set s) (detection_cache s) w2 (trace s)))
    as (d & s1 & Hd).
  pose proof (same_agent_detect_checkout_page E shot
                (mkSys (agent s) (browser_set s) (detection_cache s) w2 (trace s))) as Ha.
  assert (Hc : detection_cache s1 = detection_cache s).
  { revert Hd. unfold detect_checkout_page, try_except, bind, call, ret. simpl.
    destruct (base64_to_image E shot w2) as [[[]|e] w3]; simpl.
    - destruct (generate_detection E shot w3) as [[d'|e] w4]; by intros [= <- <-].
    - by intros [= <- <-]. }
  rewrite Hd in Ha. destruct Ha as [Ha _]. simpl in Ha.
  exists d, s1. eexists. split; [done|]. split.
  - unfold is_checkout_page, try_except.
    unfold bind at 1, call at 1. rewrite Hurl.
    unfold bind at 1, call at 1. simpl. rewrite Htime. simpl.
    unfold bind at 1, get_cache at 1. simpl.
    assert ((match detection_cache s !! url with
             | Some (cached_result, cached_time) =>
                 if PrimFloat.ltb (PrimFloat.sub now cached_time) CACHE_TTL
                 then Some cached_result else None
             | None => None
             end) = None) as ->.
    { destruct (detection_cache s !! url) as [[c t]|]; [by rewrite Hmiss | done]. }
    unfold bind at 1, call at 1. simpl. rewrite Hva.
    unfold bind at 1. rewrite !app_nil_r. rewrite Hd.
    unfold bind, get_cache, put_cache, ret. simpl. reflexivity.
  - simpl. rewrite Hc. split; [done|]. split; [apply lookup_insert_eq | done].
Qed.

(** X9 (cache miss).  When the URL has no entry, or one that is [CACHE_TTL]
    old or older, and the analyzer is available, [is_checkout_page] returns
    what [detect_checkout_page] gives - also its failure result - and stores
    it under the URL with the time read at the start of the call. *)
Theorem is_checkout_page_cache_miss
    (shot url : string) (s : Sys W) (now : float) (w1 w2 : W) :
  page_url E (world s) = Val url →
  time_time E (world s) = (now, w1) →
  match detection_cache s !! url with
  | Some (_, cached_time) =>
      PrimFloat.ltb (PrimFloat.sub now cached_time) CACHE_TTL = false
  | None => True
  end →
  vision_analyzer E w1 = (Val tt, w2) →
  ∃ d s1 s',
    detect_checkout_page E shot
      (mkSys (agent s) (browser_set s) (detection_cache s) w2 (trace s)) = (Val d, s1)
    ∧ is_checkout_page E shot s = (Val d, s')
    ∧ detection_cache s' = <[url := (d, now)]> (detection_cache s)
    ∧ detection_cache s' !! url = Some (d, now)
    ∧ agent s' = agent s.
Proof. apply is_checkout_page_miss. Qed.

(** X10 (clearing the cache).  After [clear_detection_cache] the next
    [is_checkout_page] cannot answer from the cache: with a readable URL and
    the analyzer available it runs the detection and leaves a cache that
    holds exactly that one result. *)
Theorem clear_detection_cache_forces_detection
    (shot url : string) (s : Sys W) (now : float) (w1 w2 : W) :
  page_url E (world s) = Val url →
  time_time E (world s) = (now, w1) →
  vision_analyzer E w1 = (Val tt, w2) →
  ∃ d s',
    (run clear_detection_cache in is_checkout_page E shot) s = (Val d, s')
    ∧ detection_cache s' = {[ url := (d, now) ]}.
Proof.
  intros Hurl Htime Hva.
  unfold bind at 1, clear_detection_cache, put_cache.
  destruct (is_checkout_page_miss shot url
              (mkSys (agent s) (browser_set s) ∅ (world s) (trace s)) now w1 w2)
    as (d & s1 & s' & _ & Hrun & Hc & _); simpl; try done.
  exists d, s'. split; [exact Hrun|]. rewrite Hc. simpl. apply insert_empty.
Qed.

Lemma markers_get_hashable mm n :
  if Py.hashable n
  then ∃ entry, markers_get E mm n = Val entry
  else markers_get E mm n = Exn (exception_text E (Unhashable n)).
Proof.
  unfold markers_get. destruct (Py.hashable n); cbn [negb]; eauto.
Qed.

Lemma get_element_by_marker_returns mm n entry s :
  markers_get E mm n = Val entry →
  ∃ r s', get_element_by_marker E mm n s = (Val r, s').
Proof.
  intros Hget. unfold get_element_by_marker.
  unfold bind at 1, lift. rewrite Hget.
  destruct entry as [info|]; [|by eexists _, _].
  destruct (candidate_selectors info) as [|first rest]; [by eexists _, _|].
  unfold bind.
  destruct (never_raises_try_selectors E (first :: rest) s) as ([found|] & s1 & Ht);
    rewrite Ht; [by eexists _, _|].
  apply never_raises_try_except. intros e. apply never_raises_ret.
Qed.

Lemma probes_try_selectors l : respects (emitting probe) (try_selectors E l).
Proof. induction l as [|x l IH]; simpl; respects_auto. Qed.
Hint Resolve probes_try_selectors : respects.

Lemma probes_get_element_by_marker mm n :
  respects (emitting probe) (get_element_by_marker E mm n).
Proof. unfold get_element_by_marker. respects_auto. Qed.

(** X11 (the resolver only probes).  Whatever the page does - timeouts,
    detached elements, errors of any call - [get_element_by_marker] leaves
    the state dictionary as it was and makes no call other than its 3-second
    visibility waits, its selector queries and the visibility and enabledness
    checks on a matched element.  It raises only when the label is a list or
    a dictionary, at the lookup and before any call; for every other label it
    returns a selector or None, and for a label that is not a key of the map
    it returns None without any call. *)
Theorem get_element_by_marker_only_probes
    (mm : MarkersMap) (n : Json) (s : Sys W) :
  ∃ r s' evs,
    get_element_by_marker E mm n s = (r, s')
    ∧ agent s' = agent s
    ∧ trace s' = trace s ++ evs
    ∧ Forall probe evs
    ∧ (if Py.hashable n
       then ∃ selector, r = Val selector
       else r = Exn (exception_text E (Unhashable n))
            ∧ evs = [] ∧ world s' = world s)
    ∧ (markers_get E mm n = Val None → r = Val None ∧ evs = [] ∧ world s' = world s).
Proof.
  destruct (get_element_by_marker E mm n s) as [r s'] eqn:Hr.
  pose proof (same_agent_get_element_by_marker E mm n s) as Ha.
  pose proof (probes_get_element_by_marker mm n s) as Hp.
  rewrite Hr in Ha, Hp. destruct Ha as [Ha _]. destruct Hp as (evs & Ht & Hf).
  exists r, s', evs.
  split; [done|]. split; [done|]. split; [done|]. split; [done|].
  assert (Hquiet : s' = s → evs = [] ∧ world s' = world s).
  { intros ->. split; [|done].
    symmetry. apply (app_inv_head (trace s)). by rewrite app_nil_r. }
  split.
  - pose proof (markers_get_hashable mm n) as Hh.
    destruct (Py.hashable n).
    + destruct Hh as [entry Hget].
      destruct (get_element_by_marker_returns mm n entry s Hget) as (r0 & s0 & H0).
      rewrite H0 in Hr. injection Hr as <- <-. by exists r0.
    + rewrite (get_element_by_marker_unhashable E mm n s _ Hh) in Hr.
      injection Hr as <- <-. split; [done|]. by apply Hquiet.
  - intros Hn. rewrite (get_element_by_marker_absent E mm n s Hn) in Hr.
    injection Hr as <- <-. split; [done|]. by apply Hquiet.
Qed.

(** X12 (scroll always reports success).  With an initialised browser,
    [execute_scroll] asks the page to scroll by 500 pixels once and records
    the success message whether or not that call raised: the controller turns
    the failure into a return value that the executor does not read.  Without
    an initialised browser it makes no call and records the failure. *)
Theorem execute_scroll_reports_success (s : Sys W) :
  ∃ s',
    execute_scroll E s = (Val tt, s')
    ∧ if browser_initialized E (world s)
      then messages (agent s')
             = messages (agent s) ++ [AIMessage "✓ Scrolled down to see more content"]
           ∧ trace s' = trace s ++ [EvScroll 500]
      else messages (agent s')
             = messages (agent s)
               ++ [AIMessage "✗ Failed to scroll: Browser not initialized"]
           ∧ trace s' = trace s.
Proof.
  cbv [execute_scroll try_except scroll bind read_world call raise ret update_state].
  simpl.
  destruct (browser_initialized E (world s)); simpl.
  - destruct (page_scroll_by E 500 (world s)) as [[[]|e] w1]; simpl;
      by eexists.
  - by eexists.
Qed.

(** X13 (the click ladder).  [click_with_fallbacks] tries three strategies on
    the selector it was given, in this order: the plain click after a wait of
    up to five seconds for visibility, the scripted click, the forced click.
    It stops at the first strategy that does not raise and makes no further
    call; when all three raise, it raises the error of the forced click. *)
Theorem click_with_fallbacks_ladder (selector : string) (s : Sys W) :
  click_with_fallbacks E selector s =
    let '(evs, err, w) := first_success (click_strategies E selector) None (world s) in
    (match err with None => Val tt | Some e => Exn e end, after s w evs).
Proof.
  cbv [click_with_fallbacks try_except bind call raise after
       first_success click_strategies calls_until_raise].
  destruct (page_wait_for_selector E selector 5000 (world s)) as [[[]|e0] w0];
    cbn [world trace agent browser_set detection_cache].
  - destruct (page_click E selector false w0) as [[[]|e1] w1];
      cbn [world trace agent browser_set detection_cache].
    + by rewrite <- app_assoc.
    + destruct (page_evaluate_click E selector w1) as [[[]|e2] w2];
        cbn [world trace agent browser_set detection_cache app].
      * by rewrite <- !app_assoc.
      * destruct (page_click E selector true w2) as [[[]|e3] w3];
          cbn [world trace agent browser_set detection_cache app];
          by rewrite <- !app_assoc.
  - destruct (page_evaluate_click E selector w0) as [[[]|e2] w2];
      cbn [world trace agent browser_set detection_cache app].
    + by rewrite <- !app_assoc.
    + destruct (page_click E selector true w2) as [[[]|e3] w3];
        cbn [world trace agent browser_set detection_cache app];
        by rewrite <- !app_assoc.
Qed.

End Calls.

(** X14 (recent actions).  [get_recent_actions] always returns a suffix of the
    history.  For a positive [count] it is the last [count] entries - the
    whole history when that is shorter.  For [count = 0] the slice [-0:]
    starts at the front, so the whole history is returned, not an empty
    list; for a negative [count] the first [-count] entries are dropped. *)
Theorem get_recent_actions_counts (state : AgentState) (count : Z) :
  let h := action_history state in
  let r := get_recent_actions_int state count in
  (∃ older, h = older ++ r)
  ∧ (0 < count →
     r = get_recent_actions state (Z.to_nat count)
     ∧ Z.of_nat (length r) = Z.min count (Z.of_nat (length h)))
  ∧ (count = 0 → r = h)
  ∧ (count < 0 → r = drop (Z.to_nat (- count)) h).
Proof.
  unfold get_recent_actions_int, get_recent_actions.
  destruct (action_history state) as [|a h] eqn:Hh.
  { simpl. split; [by exists []|]. split; [|split; [done|]].
    - intros Hpos. split; [done | lia].
    - intros _. by rewrite ?drop_nil. }
  set (l := a :: h). unfold slice_from. cbv zeta.
  split; [eexists; symmetry; apply take_drop|].
  split; [|split].
  - intros Hpos. rewrite bool_decide_eq_true_2 by lia.
    assert (Z.to_nat (Z.max (- count + Z.of_nat (length l)) 0)
            = (length l - Z.to_nat count)%nat) as -> by lia.
    split; [done|]. rewrite length_drop. lia.
  - intros ->. simpl (- 0). rewrite bool_decide_eq_false_2 by lia.
    by rewrite Z.min_l by lia.
  - intros Hneg. rewrite bool_decide_eq_false_2 by lia.
    destruct (decide (- count ≤ Z.of_nat (length l))) as [Hle|Hgt].
    + by rewrite Z.min_l by lia.
    + rewrite Z.min_r by lia. rewrite Nat2Z.id.
      rewrite drop_all. symmetry. apply drop_ge. lia.
Qed.


(** ** The registry: which elements are labelled, and the Amazon pack *)

Lemma labelled_elements_spec snap elements processed :
  let acc := labelled_elements snap elements processed in
  NoDup (el_node <$> acc)
  ∧ (∀ el, el ∈ acc → el_node el ∉ processed)
  ∧ Forall (fun el => js_is_visible snap el = true) acc
  ∧ acc `sublist_of` elements
  ∧ (∀ el, el ∈ elements → js_is_visible snap el = true →
           el_node el ∈ processed ∨ el_node el ∈ el_node <$> acc).
Proof.
  revert processed. induction elements as [|el rest IH]; intros processed; simpl.
  - repeat split; [constructor | set_solver | constructor | done | set_solver].
  - case_bool_decide as Hp; simpl.
    + destruct (IH processed) as (H1 & H2 & H3 & H4 & H5).
      repeat split; try done; [by apply sublist_cons|].
      intros el' Hel Hv. apply elem_of_cons in Hel as [->|Hel]; [by left | by apply H5].
    + destruct (js_is_visible snap el) eqn:Hvis; simpl.
      * destruct (IH ({[el_node el]} ∪ processed)) as (H1 & H2 & H3 & H4 & H5).
        repeat split.
        -- constructor; [|done].
           intros Hin. apply list_elem_of_fmap in Hin as (el' & Heq & Hel').
           apply (H2 el' Hel'). set_solver.
        -- intros el' Hel. apply elem_of_cons in Hel as [->|Hel]; [done|].
           specialize (H2 el' Hel). set_solver.
        -- by constructor.
        -- by apply sublist_skip.
        -- intros el' Hel Hv. apply elem_of_cons in Hel as [->|Hel].
           ++ right. set_solver.
           ++ destruct (H5 el' Hel Hv) as [Hin|Hin].
              ** apply elem_of_union in Hin as [Hin|Hin]; [|by left].
                 right. set_solver.
              ** right. set_solver.
      * destruct (IH processed) as (H1 & H2 & H3 & H4 & H5).
        repeat split; try done; [by apply sublist_cons|].
        intros el' Hel Hv. apply elem_of_cons in Hel as [->|Hel]; [congruence | by apply H5].
Qed.

(** X15 (who gets a label).  The elements the marker script labels are, in
    document order, a sub-sequence of the elements it was given; each of them
    passed the visibility test; no DOM node is labelled twice, even when the
    selector list yields it more than once; and every visible element's node
    is labelled. *)
Theorem labelled_elements_visible_once (snap : DomSnapshot) :
  let acc := labelled_elements snap (dom_elements snap) ∅ in
  NoDup (el_node <$> acc)
  ∧ Forall (fun el => js_is_visible snap el = true) acc
  ∧ acc `sublist_of` dom_elements snap
  ∧ (∀ el, el ∈ dom_elements snap → js_is_visible snap el = true →
           el_node el ∈ el_node <$> acc).
Proof.
  destruct (labelled_elements_spec snap (dom_elements snap) ∅) as (H1 & _ & H3 & H4 & H5).
  repeat split; try done.
  intros el Hel Hv. destruct (H5 el Hel Hv) as [Hin|Hin]; [set_solver | done].
Qed.

Lemma unique_truthy_spec seen l :
  NoDup (unique_truthy seen l)
  ∧ ∀ x, x ∈ unique_truthy seen l ↔ x ∈ l ∧ Py.truthy x = true ∧ x ∉ seen.
Proof.
  revert seen. induction l as [|a l IH]; intros seen; simpl.
  - split; [constructor | set_solver].
  - destruct (Py.truthy a) eqn:Ht; simpl.
    + case_bool_decide as Hs; simpl.
      * destruct (IH seen) as [H1 H2]. split; [done|].
        intros x. rewrite H2. split.
        -- intros (?&?&?). repeat split; [set_solver | done | done].
        -- intros (Hx&?&?). repeat split; try done.
           apply elem_of_cons in Hx as [->|Hx]; done.
      * destruct (IH (a :: seen)) as [H1 H2]. split.
        -- constructor; [|done]. rewrite H2. set_solver.
        -- intros x. rewrite elem_of_cons, H2. split.
           ++ intros [->|(?&?&?)]; [set_solver | set_solver].
           ++ intros (Hx&?&?). apply elem_of_cons in Hx as [->|Hx]; [by left|].
              destruct (decide (x = a)) as [->|Hne]; [by left|]. right. set_solver.
    + destruct (IH seen) as [H1 H2]. split; [done|].
      intros x. rewrite H2. split.
      * intros (?&?&?). repeat split; [set_solver | done | done].
      * intros (Hx&Hxt&?). repeat split; try done.
        apply elem_of_cons in Hx as [->|Hx]; [congruence | done].
Qed.

Section Amazon.
Context {W : Type} (E : Env W).

Lemma startswith_refl p : Py.startswith p p = true.
Proof. induction p as [|c p IH]; simpl; [done|]. by rewrite Ascii.eqb_refl. Qed.

(** X16 (what counts as an Amazon URL).  [is_amazon_url] is true exactly when
    the URL parses and its lower-cased host ends with one of the twelve
    listed domains; the test is a plain suffix test, so a host such as
    [notamazon.com] counts too; a URL that does not parse gives false. *)
Theorem is_amazon_url_iff_host_suffix (url : string) :
  is_amazon_url E url = true ↔
  ∃ host d,
    urlparse_netloc E url = Val host
    ∧ d ∈ amazon_domains
    ∧ endswith d (Py.lower host) = true.
Proof.
  unfold is_amazon_url, Py.any. split.
  - destruct (urlparse_netloc E url) as [host|e]; [|done].
    intros H. apply existsb_exists in H as (d & Hd & Hm).
    exists host, d. split; [done|]. split; [by apply list_elem_of_In|].
    apply orb_true_iff in Hm as [Hm|Hm]; [done|].
    apply bool_decide_eq_true_1 in Hm. rewrite Hm. unfold endswith.
    apply startswith_refl.
  - intros (host & d & Hp & Hd & He). rewrite Hp.
    apply existsb_exists. exists d. split; [by apply list_elem_of_In|].
    by rewrite He.
Qed.

(** X17 (the Amazon pack keeps the list clean).  On an Amazon URL the enhanced
    entry has a [selectors] list without duplicates and without empty
    strings, which still holds the entry's original primary selector when
    that is non-empty, and whose head is the new primary selector; the
    descriptive fields are untouched.  On any other URL the entry is
    returned as it is. *)
Theorem enhance_element_selectors_unique (info : ElementInfo) (url : string) :
  let r := enhance_element_with_amazon_selectors E info url in
  if is_amazon_url E url then
    NoDup (ei_selectors r)
    ∧ Forall (fun sel => Py.truthy sel = true) (ei_selectors r)
    ∧ (Py.truthy (ei_selector info) = true →
       ei_selector info ∈ ei_selectors r ∧ head (ei_selectors r) = Some (ei_selector r))
    ∧ ei_type r = ei_type info ∧ ei_text r = ei_text info
    ∧ ei_aria_label r = ei_aria_label info ∧ ei_position r = ei_position info
  else r = info.
Proof.
  unfold enhance_element_with_amazon_selectors.
  destruct (is_amazon_url E url); simpl; [|done].
  match goal with |- context [unique_truthy [] ?l] => set (raw := l) end.
  destruct (unique_truthy_spec [] raw) as [Hnd Hin].
  split; [done|]. split.
  { apply Forall_forall. intros x Hx. by apply Hin in Hx as (_ & ? & _). }
  split; [|done].
  intros Htruthy.
  assert (Hmem : ei_selector info ∈ unique_truthy [] raw).
  { apply Hin. split; [|split; [done | set_solver]].
    subst raw. repeat case_match; set_solver. }
  split; [done|].
  destruct (unique_truthy [] raw); [by apply elem_of_nil in Hmem | done].
Qed.

End Amazon.

(** ** The session registry *)

(** X18 (creating a session).  [create_session] registers a fresh session - not
    running, not cancelled, without browser or state - under the given id, or
    under the generated one when the id is missing or empty; looking that id
    up returns the session; a session already registered under the id is
    replaced; every other id is untouched. *)
Theorem create_session_registers
    (sessions : gmap string AgentSession) (user_goal initial_url : string)
    (session_id : option string) (uuid : string) (now : Z) :
  let r := create_session sessions user_goal initial_url session_id uuid now in
  let sid := as_session_id r.1 in
  sid = (match session_id with
         | Some given => if Py.truthy given then given else uuid
         | None => uuid
         end)
  ∧ get_session r.2 sid = Some r.1
  ∧ r.1 = new_session sid user_goal initial_url now
  ∧ (∀ other, other ≠ sid → get_session r.2 other = get_session sessions other).
Proof.
  unfold create_session, get_session. simpl.
  repeat split.
  - apply lookup_insert_eq.
  - intros other Hne. by apply lookup_insert_ne.
Qed.

(** X19 (cancelling a session).  [cancel_session] answers true exactly when the
    id is registered and its session is running; it then sets that session's
    [is_cancelled] and nothing else - the session stays running - and
    otherwise leaves the registry as it is; other sessions are never
    touched. *)
Theorem cancel_session_only_flags
    (sessions : gmap string AgentSession) (session_id : string) :
  let r := cancel_session sessions session_id in
  (r.1 = true ↔ ∃ s, get_session sessions session_id = Some s ∧ as_is_running s = true)
  ∧ (r.1 = false → r.2 = sessions)
  ∧ (∀ s, get_session sessions session_id = Some s → as_is_running s = true →
          get_session r.2 session_id = Some (mark_cancelled s)
          ∧ as_is_running (mark_cancelled s) = true
          ∧ as_is_cancelled (mark_cancelled s) = true)
  ∧ (∀ other, other ≠ session_id → get_session r.2 other = get_session sessions other).
Proof.
  unfold cancel_session, get_session.
  destruct (sessions !! session_id) as [s|] eqn:Hs; simpl.
  - destruct (as_is_running s) eqn:Hr; simpl.
    + split; [split; [intros _; by exists s | done]|].
      split; [done|]. split.
      * intros s' [= <-] _. split; [apply lookup_insert_eq | done].
      * intros other Hne. by apply lookup_insert_ne.
    + split; [split; [done | intros (s' & [= <-] & Hr'); congruence]|].
      split; [done|]. split; [|done].
      intros s' [= <-] Hr'. congruence.
  - split; [split; [done | intros (s' & [=] & _)]|].
    split; [done|]. split; [|done]. intros s' [=].
Qed.

Lemma list_filter_sublist {A} (p : A → bool) (l : list A) : List.filter p l `sublist_of` l.
Proof.
  induction l as [|a l IH]; simpl; [done|].
  destruct (p a); [by apply sublist_skip | by apply sublist_cons].
Qed.

Lemma lookup_foldr_delete {A} (m : gmap string A) (l : list string) (k : string) :
  foldr delete m l !! k = if decide (k ∈ l) then None else m !! k.
Proof.
  induction l as [|a l IH].
  - cbn [foldr]. rewrite decide_False; [done | apply not_elem_of_nil].
  - cbn [foldr]. destruct (decide (a = k)) as [->|Hne].
    + rewrite lookup_delete_eq. rewrite decide_True; [done | apply list_elem_of_here].
    + rewrite lookup_delete_ne by done. rewrite IH.
      destruct (decide (k ∈ l)) as [H1|H1].
      * rewrite decide_True; [done | by apply list_elem_of_further].
      * rewrite decide_False; [done|].
        intros H2. apply elem_of_cons in H2 as [->|H2]; done.
Qed.

Lemma size_foldr_delete {A} (m : gmap string A) (l : list string) :
  NoDup l → (∀ k, k ∈ l → is_Some (m !! k)) →
  (size (foldr delete m l) + length l = size m)%nat.
Proof.
  induction l as [|a l IH]; simpl; intros Hnd Hin; [lia|].
  apply NoDup_cons in Hnd as [Hna Hnd].
  rewrite map_size_delete.
  rewrite lookup_foldr_delete, decide_False by done.
  destruct (Hin a) as [x Hx]; [set_solver|]. rewrite Hx.
  specialize (IH Hnd). 
  assert (size (foldr delete m l) ≠ 0%nat).
  { intros Hz. apply map_size_empty_inv in Hz.
    assert (foldr delete m l !! a = Some x) as Hl.
    { by rewrite lookup_foldr_delete, decide_False. }
    rewrite Hz in Hl. by rewrite lookup_empty in Hl. }
  assert (size (foldr delete m l) + length l = size m)%nat by (apply IH; set_solver).
  lia.
Qed.

(** X20 (cleaning up old sessions).  [cleanup_old_sessions] removes exactly the
    sessions that are not running and were created before [now] minus the
    maximum age; a running session is kept however old it is, and so is any
    session created at or after the cutoff; the number it returns is the
    number of sessions removed. *)
Theorem cleanup_old_sessions_removes_idle_old
    (sessions : gmap string AgentSession) (now max_age_hours : Z) :
  let r := cleanup_old_sessions sessions now max_age_hours in
  let cutoff := now - max_age_hours * 3600 * 1000000 in
  (∀ id,
     r.2 !! id =
       match sessions !! id with
       | Some s =>
           if negb (as_is_running s) && bool_decide (as_created_at s < cutoff)
           then None else Some s
       | None => None
       end)
  ∧ r.1 = Z.of_nat (size sessions) - Z.of_nat (size r.2).
Proof.
  unfold cleanup_old_sessions, timedelta_hours. simpl.
  set (cutoff := now - max_age_hours * 3600 * 1000000).
  set (p := fun kv : string * AgentSession =>
              negb (as_is_running kv.2) && bool_decide (as_created_at kv.2 < cutoff)).
  assert (Hmem : ∀ id, id ∈ sessions_to_remove sessions cutoff ↔
                        ∃ s, sessions !! id = Some s ∧ p (id, s) = true).
  { intros id. unfold sessions_to_remove. rewrite list_elem_of_fmap. split.
    - intros ([k s] & -> & Hin). apply list_elem_of_In, filter_In in Hin as [Hin Hp].
      apply list_elem_of_In, elem_of_map_to_list in Hin. by exists s.
    - intros (s & Hs & Hp). exists (id, s). split; [done|].
      apply list_elem_of_In, filter_In. split; [|done].
      by apply list_elem_of_In, elem_of_map_to_list. }
  split.
  - intros id. rewrite lookup_foldr_delete.
    destruct (decide (id ∈ sessions_to_remove sessions cutoff)) as [Hin|Hnin].
    + apply Hmem in Hin as (s & Hs & Hp). rewrite Hs. unfold p in Hp. simpl in Hp.
      by rewrite Hp.
    + destruct (sessions !! id) as [s|] eqn:Hs; [|done].
      destruct (negb (as_is_running s) && bool_decide (as_created_at s < cutoff)) eqn:Hp;
        [|done].
      exfalso. apply Hnin, Hmem. by exists s.
  - pose proof (size_foldr_delete sessions (sessions_to_remove sessions cutoff)) as Hsz.
    rewrite <- Hsz.
    + lia.
    + unfold sessions_to_remove.
      eapply sublist_NoDup; [apply (NoDup_fst_map_to_list sessions)|].
      apply fmap_sublist, list_filter_sublist.
    + intros k Hk. apply Hmem in Hk as (s & Hs & _). by exists s.
Qed.

(** ** Filling a form *)

Section Forms.
Context {W : Type} (E : Env W).

Lemma fill_loop_counts human items filled failed errors s :
  ∃ filled' failed' errors' s',
    fill_loop E human items filled failed errors s = (Val (filled', failed', errors'), s')
    ∧ filled' + Z.of_nat (length failed')
      = filled + Z.of_nat (length failed) + Z.of_nat (length items)
    ∧ Z.of_nat (length errors') - Z.of_nat (length failed')
      = Z.of_nat (length errors) - Z.of_nat (length failed)
    ∧ filled ≤ filled'
    ∧ (∃ more, failed' = failed ++ more ∧ more `sublist_of` items.*1)
    ∧ agent s' = agent s.
Proof.
  revert filled failed errors s.
  induction items as [|[selector value] rest IH]; intros filled failed errors s; simpl.
  - exists filled, failed, errors, s. repeat split; try lia.
    exists []. by rewrite app_nil_r.
  - unfold bind at 1.
    match goal with |- context [try_except ?b ?h s] =>
      destruct (never_raises_try_except b h (fun e => never_raises_ret (Some e)) s)
        as (ok & s1 & Hok);
      assert (Ha : agent s1 = agent s)
    end.
    { assert (Hr : respects same_agent
                     (try_except
                        (run call [EvFill selector ""] (page_fill E selector "") in
                         run (if human
                              then call [EvType selector (JStr value)]
                                        (page_type E selector (JStr value))
                              else call [EvFill selector value] (page_fill E selector value)) in
                         ret None)
                        (fun e => @ret W _ (Some e)))).
      { destruct human; respects_auto. }
      specialize (Hr s). rewrite Hok in Hr. apply Hr. }
    rewrite Hok. destruct ok as [e|].
    + destruct (IH filled (failed ++ [selector]) (errors ++ [selector +:+ ": " +:+ e]) s1)
        as (f' & fa' & er' & s' & Hr & H1 & H2 & H3 & (more & Hm & Hsub) & H4).
      exists f', fa', er', s'. split; [done|].
      rewrite !length_app in *. simpl in *.
      repeat split; try lia; [|congruence].
      exists (selector :: more). split; [by rewrite Hm, <- app_assoc|].
      by apply sublist_skip.
    + destruct (IH (filled + 1) failed errors s1)
        as (f' & fa' & er' & s' & Hr & H1 & H2 & H3 & (more & Hm & Hsub) & H4).
      exists f', fa', er', s'. split; [done|].
      repeat split; try lia; [|congruence].
      exists more. split; [done|]. by apply sublist_cons.
Qed.

(** X21 (the form filler accounts for every field).  [fill_form] never raises
    and leaves the agent state alone; every field of the input is counted
    exactly once, as filled or as failed, with one error text per failed
    field; the failed selectors are listed in input order; and [success] is
    true exactly when no field failed, that is when all were filled. *)
Theorem fill_form_accounts_for_every_field
    (field_data : list (string * string)) (simulate_human : bool) (s : Sys W) :
  ∃ r s',
    fill_form E field_data simulate_human s = (Val r, s')
    ∧ fr_filled_fields r + Z.of_nat (length (fr_failed_fields r))
      = Z.of_nat (length field_data)
    ∧ length (fr_errors r) = length (fr_failed_fields r)
    ∧ fr_failed_fields r `sublist_of` field_data.*1
    ∧ (fr_success r = true ↔ fr_failed_fields r = [])
    ∧ (fr_success r = true ↔ fr_filled_fields r = Z.of_nat (length field_data))
    ∧ agent s' = agent s.
Proof.
  unfold fill_form, bind.
  destruct (fill_loop_counts simulate_human field_data 0 [] [] s)
    as (f & fa & er & s' & Hr & H1 & H2 & H3 & (more & Hm & Hsub) & H4).
  rewrite Hr. simpl in *. subst fa.
  eexists _, _. split; [reflexivity|]. simpl.
  repeat split; try done; try lia.
  - intros Hs. apply bool_decide_eq_true_1 in Hs. by destruct more.
  - intros ->. done.
  - intros Hs. apply bool_decide_eq_true_1 in Hs. lia.
  - intros Hf. apply bool_decide_eq_true_2. lia.
Qed.

End Forms.


(** ** The nodes, one by one *)

#[global] Instance keeps_status_preorder : PreOrder keeps_status.
Proof.
  split.
  - intros a. unfold keeps_status. by repeat split.
  - intros a b c H1 H2. unfold keeps_status in *.
    destruct H1 as (?&?&?&?&?&?&?&?). destruct H2 as (?&?&?&?&?&?&?&?).
    repeat split; congruence.
Qed.

Ltac status_side :=
  let a := fresh "a" in
  intros a; unfold keeps_status; simpl; repeat split; done.

Ltac status_step :=
  first
    [ apply agent_rel_update; first [solve [status_side] | apply _]
    | agent_rel_step ].

Section Nodes.
Context {W : Type} (E : Env W).


(** X22 (what the observer does).  [observer_node] always returns.  It leaves
    the planned action, the approval flags, the history and the counters
    alone, calls the page only to remove markers, inject markers and take the
    screenshot, and ends with status [observing] and the error text
    untouched, or - when anything in it raised - with status [error] and a
    text that starts with "Observation failed: ". *)
Theorem observer_node_outcome (s : Sys W) :
  ∃ s',
    observer_node E s = (Val tt, s')
    ∧ agent_rel keeps_plan s s'
    ∧ emitting observation s s'
    ∧ ((status (agent s') = observing ∧ error_msg (agent s') = error_msg (agent s))
       ∨ (status (agent s') = error
          ∧ ∃ e, error_msg (agent s') = Some ("Observation failed: " +:+ e))).
Proof.
  destruct (never_raises_observer_node E s) as ([] & s' & Hrun).
  pose proof (keeps_plan_observer_node E s) as Hp.
  assert (Hq : respects (emitting observation) (observer_node E)).
  { unfold observer_node, remove_markers, inject_markers, get_url, take_screenshot.
    respects_auto. }
  specialize (Hq s).
  rewrite Hrun in Hp, Hq. exists s'. split; [done|]. split; [done|]. split; [done|].
  revert Hrun. unfold observer_node, try_except.
  unfold bind at 1. unfold update_state at 1.
  match goal with |- context [bind get_browser ?k] => set (rest := bind get_browser k) end.
  assert (Hrest : respects (agent_rel keeps_status) rest).
  { subst rest. unfold get_url, take_screenshot. repeat status_step. }
  match goal with |- context [rest ?s0] =>
    pose proof (Hrest s0) as Hs; destruct (rest s0) as [[[]|e] s1]
  end; destruct Hs as ((Hst & Her & _) & _); simpl in Hst, Her.
  - intros [= <-]. left. by rewrite Hst, Her.
  - unfold update_state. intros [= <-]. right. simpl. split; [done|]. by exists e.
Qed.

(** X23 (what the reasoning node does).  [reasoning_node] always returns and
    never touches the history, the counters or the approval flags.  When the
    vision analyzer is available it stores a validated action as
    [last_action], appends one message, leaves the error text as it was and
    sets the status to [complete] if that action is [done] and to
    [reasoning] otherwise.  When the analyzer cannot be obtained it keeps the
    old [last_action] and sets status [error] with "Reasoning failed: ". *)
Theorem reasoning_node_outcome (s : Sys W) :
  ∃ s',
    reasoning_node E s = (Val tt, s')
    ∧ frame s s'
    ∧ approval_required (agent s') = approval_required (agent s)
    ∧ match vision_analyzer E (world s) with
      | (Val _, _) =>
          ∃ a m,
            last_action (agent s') = Some a
            ∧ validate_action a = true
            ∧ messages (agent s') = messages (agent s) ++ [m]
            ∧ error_msg (agent s') = error_msg (agent s)
            ∧ status (agent s') =
                if Py.is_str "done" (action_get (act_action a))
                then complete else reasoning
      | (Exn e, _) =>
          last_action (agent s') = last_action (agent s)
          ∧ status (agent s') = error
          ∧ error_msg (agent s') = Some ("Reasoning failed: " +:+ e)
      end.
Proof.
  pose proof (frame_reasoning_node E s) as Hf.
  destruct (reasoning_node E s) as [r s'] eqn:Hrun. simpl in Hf.
  revert Hrun. unfold reasoning_node, try_except.
  unfold bind at 1. unfold update_state at 1.
  unfold bind at 1. unfold call at 1. cbn [world agent].
  destruct (vision_analyzer E (world s)) as [[[]|e] w1].
  2:{ unfold update_state. intros [= <- <-].
      eexists. split; [reflexivity|]. by repeat split. }
  unfold bind at 1. unfold get_state at 1. cbn [agent].
  unfold bind at 1.
  match goal with |- context [analyze_page E ?a ?b ?c ?d ?u ?s0] =>
    destruct (analyze_page_plannable E a b c d u s0)
      as (act & s1 & Han & Hv & Hs & _);
    pose proof (same_agent_analyze_page E a b c d u s0) as Hsame
  end.
  rewrite Han in *. destruct Hsame as [Hsame _]. simpl in Hsame.
  destruct (validate_action_keys act Hv) as (kind & why & Hk & Hy).
  rewrite Hy in Hs. cbn [action_get default from_option id] in Hs.
  unfold bind at 1. unfold update_state at 1.
  unfold bind at 1. unfold update_state at 1.
  unfold bind at 1. unfold check_slice at 1.
  rewrite Hy, Hk. cbn [default from_option id]. rewrite Hs. unfold ret at 1.
  destruct (Py.is_str "done" kind) eqn:Hd; unfold update_state, ret;
    intros [= <- <-]; (eexists; split; [reflexivity|]); (split; [exact Hf|]);
    simpl; rewrite Hsame; simpl; (split; [done|]);
    eexists act, _; rewrite Hk; cbn [action_get default from_option id];
    rewrite Hd; by repeat split.
Qed.

(** X24 (typing is a fixed sequence).  [execute_type] always returns.  After
    the resolver's probes, when the resolver found a selector, it calls the
    page in this order and stops at the first call that raises: wait for the
    selector, focus it, clear it, type the value, press Enter.  It then
    records one message: the success message when all five calls returned,
    the failure message with the error of the call that raised otherwise.
    When the resolver found nothing or raised, it makes no further call and
    records the failure. *)
Theorem execute_type_sequence (target value : Json) (s : Sys W) :
  ∃ s' probes,
    execute_type E target value s = (Val tt, s')
    ∧ Forall probe probes
    ∧ match get_element_by_marker E (markers_map (agent s)) target s with
      | (r, s1) =>
          trace s1 = trace s ++ probes
          ∧ match
              match r with
              | Val found =>
                  match found_selector found with
                  | Some selector =>
                      calls_until_raise (type_calls E selector value) (world s1)
                  | None =>
                      ([], Some ("Could not find element for marker ["
                                 +:+ py_str E target +:+ "]"), world s1)
                  end
              | Exn e => ([], Some e, world s1)
              end
            with
            | (evs, err, w) =>
                trace s' = trace s1 ++ evs
                ∧ world s' = w
                ∧ messages (agent s') =
                    messages (agent s)
                    ++ [AIMessage
                          match err with
                          | None =>
                              "✓ Typed '" +:+ py_str E value +:+ "' into element ["
                              +:+ py_str E target +:+ "] and pressed Enter"
                          | Some e =>
                              "✗ Failed to type into element ["
                              +:+ py_str E target +:+ "]: " +:+ e
                          end]
            end
      end.
Proof.
  pose proof (probes_get_element_by_marker E (markers_map (agent s)) target s) as Hp.
  pose proof (same_agent_get_element_by_marker E (markers_map (agent s)) target s) as Ha.
  cbv [execute_type try_except]. unfold bind at 1, get_state at 1.
  unfold bind at 1.
  destruct (get_element_by_marker E (markers_map (agent s)) target s)
    as [[found|e] s1]; destruct Hp as (probes & Ht & Hf);
    destruct Ha as [Ha _]; simpl in Ht, Ha.
  2:{ cbv [update_state]. eexists _, probes. split; [reflexivity|].
      split; [done|]. split; [done|]. simpl. rewrite app_nil_r, Ha. done. }
  destruct (found_selector found) as [selector|].
  2:{ cbv [raise update_state]. eexists _, probes. split; [reflexivity|].
      split; [done|]. split; [done|]. simpl. rewrite app_nil_r, Ha. done. }
  cbv [bind call raise update_state type_calls calls_until_raise].
  cbn [world trace agent browser_set detection_cache].
  destruct (page_wait_for_selector E selector 5000 (world s1)) as [[[]|e0] w0];
    cbn [world trace agent browser_set detection_cache].
  2:{ eexists _, probes. split; [reflexivity|]. split; [done|]. split; [done|].
      simpl. by rewrite Ha. }
  destruct (page_focus E selector w0) as [[[]|e1] w1];
    cbn [world trace agent browser_set detection_cache].
  2:{ eexists _, probes. split; [reflexivity|]. split; [done|]. split; [done|].
      simpl. by rewrite Ha, <- !app_assoc. }
  destruct (page_fill E selector "" w1) as [[[]|e2] w2];
    cbn [world trace agent browser_set detection_cache].
  2:{ eexists _, probes. split; [reflexivity|]. split; [done|]. split; [done|].
      simpl. by rewrite Ha, <- !app_assoc. }
  destruct (page_type E selector value w2) as [[[]|e3] w3];
    cbn [world trace agent browser_set detection_cache].
  2:{ eexists _, probes. split; [reflexivity|]. split; [done|]. split; [done|].
      simpl. by rewrite Ha, <- !app_assoc. }
  destruct (page_press E selector "Enter" w3) as [[[]|e4] w4];
    cbn [world trace agent browser_set detection_cache];
    (eexists _, probes; split; [reflexivity|]; split; [done|]; split; [done|];
     simpl; by rewrite Ha, <- !app_assoc).
Qed.


End Nodes.

(** ** The program on concrete pages *)



(** Witness for C4: the click on label 99 against a map that holds label 3. *)
Lemma hallucinated_click_is_a_local_failure_witness :
  validate_action Scripted.click_99 = true
  ∧ (execute_click Scripted.env (JInt 99)
       (Scripted.start Scenario.product_state Scenario.hallucinating_page)).1 = Val tt.
Proof.
  destruct (hallucinated_click_is_a_local_failure Scripted.env Scripted.click_99
              (JInt 99)
              (Scripted.start Scenario.product_state Scenario.hallucinating_page))
    as (Hv & _ & Hx & _).
  - reflexivity.
  - reflexivity.
  - reflexivity.
  - reflexivity.
  - reflexivity.
  - vm_compute. reflexivity.
  - split; [exact Hv|]. by rewrite Hx.
Defined.

(** Counterexample to C4: the model answers a click on label 99 while the map
    holds only label 3.  Validation accepts the action, the model is asked
    once, and the action goes to the executor, which records a failed click
    and the action itself; the status is not [error]. *)
Lemma click_on_missing_label_passes_validation :
  markers_get Scripted.env (markers_map Scenario.product_state) (JInt 99) = Val None
  ∧ validate_action Scripted.click_99 = true
  ∧ ∃ s',
      Scenario.decide_and_act Scripted.env
        (Scripted.start Scenario.product_state Scenario.hallucinating_page)
        = (Val tt, s')
      ∧ length (List.filter is_generate_event (trace s')) = 1%nat
      ∧ action_history (agent s') = [Scripted.click_99]
      ∧ last (messages (agent s'))
        = Some (click_failed_message Scripted.env (JInt 99))
      ∧ status (agent s') ≠ error.
Proof.
  split; [vm_compute; reflexivity|]. split; [reflexivity|].
  eexists. split; [vm_compute; reflexivity|].
  repeat split; try (vm_compute; reflexivity). vm_compute. discriminate.
Qed.

(** Witness for C6: a budget of 2 and a model that always scrolls. *)
Lemma iterations_never_exceed_positive_budget_witness :
  ∃ stopped s',
    run_graph Scripted.env 5
      (mkSys (create_initial_state "buy a USB cable" "s-1" "" 2) true ∅
             Scenario.scrolling_page []) = (Val stopped, s')
    ∧ iterations (agent s') ≤ 2.
Proof.
  destruct (iterations_never_exceed_positive_budget Scripted.env
              "buy a USB cable" "s-1" "" 2 5 true ∅ Scenario.scrolling_page [])
    as ((stopped & s' & Hr & Hle & _) & _).
  - lia.
  - exists stopped, s'. split; [exact Hr | exact Hle].
Defined.

(** Counterexample to C6: a mission created with [max_iterations = 0].  The
    stop condition is only looked at after the action node, so the first
    cycle runs, and the graph ends with [iterations = 1 > 0]. *)
Lemma zero_budget_still_runs_one_cycle :
  ∃ s',
    run_graph Scripted.env 5
      (Scripted.start (create_initial_state "buy a USB cable" "s-1" "" 0)
                      Scenario.scrolling_page) = (Val true, s')
    ∧ iterations (agent s') = 1
    ∧ max_iterations (agent s') = 0
    ∧ ¬ iterations (agent s') ≤ max_iterations (agent s').
Proof.
  eexists. split; [vm_compute; reflexivity|].
  repeat split; try (vm_compute; reflexivity). vm_compute. intros H. by apply H.
Qed.



(** Witness for C8: the Buy Now button of the product page. *)
Lemma get_element_by_marker_returns_stored_selector_witness :
  "#buy-now-button" ∈ ei_selectors Scenario.buy_now_info
  ∨ (ei_selectors Scenario.buy_now_info = []
     ∧ "#buy-now-button" = ei_selector Scenario.buy_now_info).
Proof.
  eapply (get_element_by_marker_returns_stored_selector Scripted.env
            (markers_map Scenario.product_state) (JInt 3) Scenario.buy_now_info
            (Scripted.start Scenario.product_state Scenario.product_page)).
  - vm_compute. reflexivity.
  - vm_compute. reflexivity.
Defined.

(** Counterexample to C8: the root element of the document carries
    [role=button] and nothing else.  The marker script stores an empty
    [selectors] list for it and the tag name as primary [selector]; the
    resolver, asked for the label under the key the map has for it, falls
    back to that primary selector and returns it, although it is not an
    element of the stored list. *)
Lemma resolver_returns_selector_outside_the_list :
  ∃ markers_map info s1,
    inject_markers Scripted.env
      (Scripted.start Scenario.fresh_state Scenario.root_page) = (Val markers_map, s1)
    ∧ markers_get Scripted.env markers_map (JStr "1") = Val (Some info)
    ∧ ei_selectors info = []
    ∧ (get_element_by_marker Scripted.env markers_map (JStr "1") s1).1
      = Val (Some "html")
    ∧ "html" ∉ ei_selectors info.
Proof.
  eexists _, _, _. split; [vm_compute; reflexivity|].
  split; [vm_compute; reflexivity|].
  split; [reflexivity|]. split; [vm_compute; reflexivity|].
  simpl. apply not_elem_of_nil.
Qed.

(** Witness for C9: a result list of a shop that is not Amazon, with a search
    box, a hidden link, a button and the search box met twice. *)
Lemma inject_markers_key_types_witness :
  ∃ entries s',
    inject_markers Scripted.env
      (Scripted.start Scenario.fresh_state Scenario.listing_page)
      = (Val (StrKeys entries), s')
    ∧ (∀ key : string,
         is_Some (entries !! key) ↔ ∃ k : Z, 1 ≤ k ≤ 2 ∧ key = pretty k)
    ∧ ∀ n : Z, markers_get Scripted.env (StrKeys entries) (JInt n) = Val None.
Proof.
  destruct (inject_markers_key_types Scripted.env
              (Scripted.start Scenario.fresh_state Scenario.listing_page)
              "https://shop.example/search?q=usb")
    as (m & s' & Hr & Hm).
  - reflexivity.
  - change (∃ entries, m = StrKeys entries
             ∧ (∀ key : string,
                  is_Some (entries !! key) ↔ ∃ k : Z, 1 ≤ k ≤ 2 ∧ key = pretty k)
             ∧ (∀ i : nat,
                  entries !! pretty (Z.of_nat i + 1) =
                    js_element_info Scenario.listing_dom
                      <$> [Scenario.search_box; Scenario.go_button] !! i)
             ∧ (∀ n : Z, markers_get Scripted.env m (JInt n) = Val None)) in Hm.
    destruct Hm as (entries & -> & Hkeys & _ & Hint).
    by exists entries, s'.
Defined.

(** The labels of that page, spelled out. *)
Example listing_page_labels :
  ei_type <$> markers_script Scenario.listing_dom !! 1 = Some "input"
  ∧ ei_type <$> markers_script Scenario.listing_dom !! 2 = Some "button"
  ∧ markers_script Scenario.listing_dom !! 3 = None.
Proof. repeat split; vm_compute; reflexivity. Qed.

(** On that page the map [inject_markers] returns has the keys ['1'] and
    ['2'], not [1] and [2]: a decision that names the search box by the
    number on its label finds no entry, and the resolver returns None for it
    without a single call to the page. *)
Lemma shop_page_labels_are_strings :
  ∃ entries s1,
    inject_markers Scripted.env
      (Scripted.start Scenario.fresh_state Scenario.listing_page)
      = (Val (StrKeys entries), s1)
    ∧ ei_type <$> entries !! "1" = Some "input"
    ∧ ei_type <$> entries !! "2" = Some "button"
    ∧ markers_get Scripted.env (StrKeys entries) (JInt 1) = Val None
    ∧ get_element_by_marker Scripted.env (StrKeys entries) (JInt 1) s1
      = (Val None, s1).
Proof.
  eexists _, _. split; [vm_compute; reflexivity|].
  repeat split; vm_compute; reflexivity.
Qed.


(** In that run the three strategies are tried once each, in order, the click
    is reported as done, and the history holds the one action. *)
Example third_click_strategy_succeeds :
  ∃ s',
    action_node Scripted.env
      (Scripted.start Scenario.cart_state Scenario.covered_page) = (Val tt, s')
    ∧ List.filter is_click_event (trace s')
      = [EvClick "#add-to-cart-button"; EvJsClick "#add-to-cart-button";
         EvForceClick "#add-to-cart-button"]
    ∧ last (messages (agent s')) = Some (AIMessage "✓ Clicked element [1]")
    ∧ action_history (agent s') = [Scripted.click_1].
Proof.
  eexists. split; [vm_compute; reflexivity|].
  repeat split; vm_compute; reflexivity.
Qed.


(** ** Runs of the loop, the cache and the registry on concrete pages *)

(** Witness for X5: a budget of 2, a model that always scrolls, three cycles. *)
Lemma run_graph_stops_within_budget_witness :
  ∃ s',
    run_graph Scripted.env 3
      (mkSys (create_initial_state "buy a USB cable" "s-1" "" 2) true ∅
             Scenario.scrolling_page []) = (Val true, s')
    ∧ should_stop (agent s') = true.
Proof.
  apply (run_graph_stops_within_budget Scripted.env 3
           (mkSys (create_initial_state "buy a USB cable" "s-1" "" 2) true ∅
                  Scenario.scrolling_page [])).
  - reflexivity.
  - intros w. by exists w.
  - lia.
  - simpl. lia.
Defined.

(** A numeric value ends the run in the first cycle: the model answers with
    a type action whose value is the number 2, the action node fails at its
    log call, and the conditional edge reads the [error] status. *)
Example numeric_value_ends_the_run :
  ∃ s',
    run_graph Scripted.env 5
      (Scripted.start Scenario.quantity_state Scenario.quantity_page) = (Val true, s')
    ∧ status (agent s') = error
    ∧ iterations (agent s') = 0
    ∧ action_history (agent s') = []
    ∧ List.filter is_generate_event (trace s') = [EvGenerate].
Proof.
  eexists. split; [vm_compute; reflexivity|].
  repeat split; vm_compute; reflexivity.
Qed.

(** Witness for X6: no API key, a fresh mission, four cycles. *)
Lemma run_graph_never_stops_without_analyzer_witness :
  ∃ s',
    run_graph Scripted.env_no_analyzer 4
      (Scripted.start Scenario.fresh_state Scripted.base) = (Val false, s')
    ∧ status (agent s') = executing.
Proof.
  destruct (run_graph_never_stops_without_analyzer Scripted.env_no_analyzer 4
              (Scripted.start Scenario.fresh_state Scripted.base))
    as (s' & Hr & _ & _ & Hst).
  - intros w. by exists "GOOGLE_API_KEY not configured", w.
  - reflexivity.
  - reflexivity.
  - reflexivity.
  - simpl. lia.
  - exists s'. split; [exact Hr|]. apply Hst. lia.
Defined.

(** Witness for X8: the entry is two seconds old. *)
Lemma is_checkout_page_cache_hit_witness :
  is_checkout_page Scripted.env "iVBORw0KGgo=" Scenario.cached_system =
    (Val Scenario.cached_detection,
     mkSys (agent Scenario.cached_system) (browser_set Scenario.cached_system)
           (detection_cache Scenario.cached_system) Scripted.base
           (trace Scenario.cached_system)).
Proof.
  apply (is_checkout_page_cache_hit Scripted.env "iVBORw0KGgo=" "https://shop.example/"
           Scenario.cached_system 1000%float 998%float Scripted.base
           Scenario.cached_detection).
  - reflexivity.
  - reflexivity.
  - apply lookup_singleton_eq.
  - vm_compute. reflexivity.
Defined.

(** Witness for X9: an empty cache. *)
Lemma is_checkout_page_cache_miss_witness :
  ∃ d s',
    is_checkout_page Scripted.env "iVBORw0KGgo="
      (Scripted.start Scenario.fresh_state Scripted.base) = (Val d, s')
    ∧ detection_cache s' !! "https://shop.example/" = Some (d, 1000%float).
Proof.
  destruct (is_checkout_page_cache_miss Scripted.env "iVBORw0KGgo="
              "https://shop.example/"
              (Scripted.start Scenario.fresh_state Scripted.base)
              1000%float Scripted.base Scripted.base)
    as (d & s1 & s' & _ & Hr & _ & Hl & _).
  - reflexivity.
  - reflexivity.
  - simpl. rewrite lookup_empty. exact I.
  - reflexivity.
  - exists d, s'. split; [exact Hr | exact Hl].
Defined.

(** Witness for X10: the cached entry is dropped and replaced. *)
Lemma clear_detection_cache_forces_detection_witness :
  ∃ d s',
    (run clear_detection_cache in is_checkout_page Scripted.env "iVBORw0KGgo=")
      Scenario.cached_system = (Val d, s')
    ∧ detection_cache s' = {[ "https://shop.example/" := (d, 1000%float) ]}.
Proof.
  apply (clear_detection_cache_forces_detection Scripted.env "iVBORw0KGgo="
           "https://shop.example/" Scenario.cached_system 1000%float
           Scripted.base Scripted.base).
  - reflexivity.
  - reflexivity.
  - reflexivity.
Defined.
